(** * fambank: ledger, interest accrual and withdrawal workflow

    A shallow embedding of the route handlers of [backend/app/routes]
    ([withdrawals.py], [transactions.py]) over an explicit model of the
    persistent store.  The storage helpers of [app.crud] they call, the
    interest accrual engine among them, are not part of the sources at
    hand and are modelled from the specification; each such definition
    says so.  Monetary amounts are Python floats in the program; they are
    modelled as exact rationals ([Q]), the fixed-point reading of amounts.
    Date-times are modelled as a wall-clock reading in seconds plus an
    optional UTC offset, mirroring [datetime.tzinfo]. *)

From Stdlib Require Import ZArith QArith List String Bool Lia.
From Stdlib Require Import Sorting.Sorted Sorting.Permutation.
Import ListNotations.

Local Open Scope Z_scope.

(* ================================================================== *)
(** ** Date-times *)

(** [datetime]: [dt_wall] is the wall-clock reading (seconds since the
    epoch as read on the local clock face), [dt_tzinfo] the UTC offset in
    seconds when the value is timezone-aware, [None] when it is naive. *)
Record datetime : Type := mk_datetime {
  dt_wall : Z;
  dt_tzinfo : option Z
}.

(** [d.replace(tzinfo=tz)]: swaps the zone and keeps the clock reading. *)
Definition replace_tzinfo (d : datetime) (tz : option Z) : datetime :=
  mk_datetime (dt_wall d) tz.

(** [timezone.utc] *)
Definition utc : option Z := Some 0.

(** The absolute instant denoted by a date-time; a naive value is read as
    UTC, which is the convention of the store. *)
Definition instant (d : datetime) : Z :=
  match dt_tzinfo d with
  | Some off => dt_wall d - off
  | None => dt_wall d
  end.

(** [if d.tzinfo is None: d = d.replace(tzinfo=timezone.utc)] *)
Definition assume_utc (d : datetime) : datetime :=
  match dt_tzinfo d with
  | None => replace_tzinfo d utc
  | Some _ => d
  end.

(** [datetime.now(timezone.utc)] for a clock reading [now]. *)
Definition now_utc (now : Z) : datetime := mk_datetime now utc.

(** Comparison of aware date-times compares instants. *)
Definition dt_gtb (a b : datetime) : bool := instant b <? instant a.
Definition dt_ltb (a b : datetime) : bool := instant a <? instant b.

Definition seconds_per_day : Z := 86400.

(** [ts.date()] of a naive timestamp, as a day number. *)
Definition date_of (ts : Z) : Z := ts / seconds_per_day.

(** The last second of a day. *)
Definition end_of_day (day : Z) : Z :=
  day * seconds_per_day + (seconds_per_day - 1).

(* ================================================================== *)
(** ** Rational comparisons *)

(** [a > b] on amounts. *)
Definition Qgtb (a b : Q) : bool := negb (Qle_bool a b).

(* ================================================================== *)
(** ** Data model (the tables of [app.models]) *)

Record Child : Type := mk_Child {
  child_id : Z;
  first_name : string;
  account_frozen : bool;
  created_at : datetime
}.

Record User : Type := mk_User {
  user_id : Z;
  role : string;
  permissions : list string
}.

Record ChildUserLink : Type := mk_ChildUserLink {
  link_user_id : Z;
  link_child_id : Z;
  link_permissions : list string;
  is_owner : bool
}.

Record Account : Type := mk_Account {
  account_id : Z;
  acc_child_id : Z;
  account_type : string;
  interest_rate : Q;
  penalty_interest_rate : Q;
  cd_penalty_rate : Q;
  lockup_period_days : option Z;
  last_interest_applied : option Z;
  total_interest_earned : Q
}.

Record Transaction : Type := mk_Transaction {
  tx_id : Z;
  tx_child_id : Z;
  tx_account_id : Z;
  tx_type : string;
  tx_amount : Q;
  tx_memo : option string;
  tx_timestamp : Z;
  tx_initiated_by : string;
  tx_initiator_id : Z
}.

Record WithdrawalRequest : Type := mk_WithdrawalRequest {
  wr_id : Z;
  wr_child_id : Z;
  wr_account_type : string;
  wr_amount : Q;
  wr_memo : option string;
  wr_status : string;
  wr_requested_at : Z;
  wr_responded_at : option Z;
  wr_approver_id : option Z;
  wr_denial_reason : option string
}.

Record InterestRateHistory : Type := mk_InterestRateHistory {
  irh_account_id : Z;
  irh_date : Z;
  irh_interest_rate : Q;
  irh_created_at : Z
}.

(** The persistent store: one list of rows per table, in insertion order. *)
Record DB : Type := mk_DB {
  children : list Child;
  links : list ChildUserLink;
  accounts : list Account;
  transactions : list Transaction;
  withdrawal_requests : list WithdrawalRequest;
  rate_history : list InterestRateHistory
}.

Definition with_accounts (db : DB) (l : list Account) : DB :=
  mk_DB (children db) (links db) l (transactions db)
        (withdrawal_requests db) (rate_history db).

Definition with_transactions (db : DB) (l : list Transaction) : DB :=
  mk_DB (children db) (links db) (accounts db) l
        (withdrawal_requests db) (rate_history db).

Definition with_withdrawal_requests (db : DB) (l : list WithdrawalRequest) : DB :=
  mk_DB (children db) (links db) (accounts db) (transactions db)
        l (rate_history db).

Definition with_rate_history (db : DB) (l : list InterestRateHistory) : DB :=
  mk_DB (children db) (links db) (accounts db) (transactions db)
        (withdrawal_requests db) l.

(** Primary keys are assigned by the store: one past the largest in use. *)
Definition next_id (ids : list Z) : Z := 1 + fold_right Z.max 0 ids.

(* ================================================================== *)
(** ** HTTP errors and the handler monad *)

(** The [detail] payload of the [HTTPException]s the routes raise. *)
Inductive Detail : Type :=
| CollegeSavingsAdminOnly
| AccountTypeNotFound (account_type : string)
| InsufficientAvailableBalance (available : Q)
| InsufficientBalance
| RequestNotFound
| InsufficientPermissions
| AccountNotFound
| ChildNotFound
| CustomTimestampRole
| TimestampInFuture
| TimestampBeforeCreation
| CheckingAccountNotFound.

Record HTTPException : Type := mk_HTTPException {
  status_code : Z;
  detail : Detail
}.

Inductive result (A : Type) : Type :=
| Ok (a : A)
| Raised (e : HTTPException).
Arguments Ok {A} a.
Arguments Raised {A} e.

(** A handler reads and writes the store and either returns or raises.
    Writes made before a raise stay in the store (each helper commits). *)
Definition Handler (A : Type) : Type := DB -> result A * DB.

Definition ret {A} (a : A) : Handler A := fun db => (Ok a, db).

Definition raise {A} (e : HTTPException) : Handler A :=
  fun db => (Raised e, db).

Definition bind {A B} (m : Handler A) (k : A -> Handler B) : Handler B :=
  fun db =>
    match m db with
    | (Ok a, db') => k a db'
    | (Raised e, db') => (Raised e, db')
    end.

(** A read-only query. *)
Definition query {A} (f : DB -> A) : Handler A := fun db => (Ok (f db), db).

(** A write that returns a value. *)
Definition update {A} (f : DB -> A * DB) : Handler A :=
  fun db => let '(a, db') := f db in (Ok a, db').

(** [if c: raise e] *)
Definition raise_if (c : bool) (e : HTTPException) : Handler unit :=
  if c then raise e else ret tt.

Declare Scope handler_scope.
Delimit Scope handler_scope with handler.
Notation "x <- m ;; k" := (bind m (fun x => k))
  (at level 61, m at next level, right associativity) : handler_scope.
Notation "m ;; k" := (bind m (fun _ => k))
  (at level 61, right associativity) : handler_scope.

(* ================================================================== *)
(** ** Storage helpers ([app.crud]) *)

Definition mem_string (s : string) (l : list string) : bool :=
  existsb (String.eqb s) l.

(** Modelled from the spec: [crud.get_child], the Child row with the given
    primary key (the module [app/crud.py] is not among the sources). *)
Definition get_child (db : DB) (cid : Z) : option Child :=
  find (fun c => child_id c =? cid) (children db).

(** Modelled from the spec: [crud.get_account], the Account row with the
    given primary key. *)
Definition get_account (db : DB) (aid : Z) : option Account :=
  find (fun a => account_id a =? aid) (accounts db).

(** Modelled from the spec: [crud.get_account_by_child_and_type]; accounts
    are keyed by (child_id, account_type) (section 6). *)
Definition get_account_by_child_and_type
    (db : DB) (cid : Z) (ty : string) : option Account :=
  find (fun a => (acc_child_id a =? cid) && (account_type a =? ty)%string)
       (accounts db).

(** Modelled from the spec: [crud.get_checking_account_by_child]. *)
Definition get_checking_account_by_child (db : DB) (cid : Z) : option Account :=
  get_account_by_child_and_type db cid "checking".

(** Modelled from the spec: [crud.get_child_user_link], the link row
    between a user and a child, if any. *)
Definition get_child_user_link (db : DB) (uid cid : Z) : option ChildUserLink :=
  find (fun l => (link_user_id l =? uid) && (link_child_id l =? cid)) (links db).

(** Modelled from the spec: [crud.get_children_by_user], the children a
    user is linked to. *)
Definition get_children_by_user (db : DB) (uid : Z) : list Child :=
  filter (fun c => existsb (fun l => (link_user_id l =? uid)
                                     && (link_child_id l =? child_id c))
                           (links db))
         (children db).

(** Modelled from the spec: [crud.get_withdrawal_request]. *)
Definition get_withdrawal_request (db : DB) (rid : Z) : option WithdrawalRequest :=
  find (fun r => wr_id r =? rid) (withdrawal_requests db).

(** Modelled from the spec: [crud.save_withdrawal_request] commits the
    mutated row object: the stored row with its key is replaced. *)
Definition save_withdrawal_request (db : DB) (req : WithdrawalRequest) : DB :=
  with_withdrawal_requests db
    (map (fun r => if wr_id r =? wr_id req then req else r)
         (withdrawal_requests db)).

(** Modelled from the spec: [crud.create_withdrawal_request] inserts the
    row; the store assigns its key. *)
Definition create_withdrawal_request
    (db : DB) (req : WithdrawalRequest) : WithdrawalRequest * DB :=
  let row :=
    mk_WithdrawalRequest
      (next_id (map wr_id (withdrawal_requests db)))
      (wr_child_id req) (wr_account_type req) (wr_amount req) (wr_memo req)
      (wr_status req) (wr_requested_at req) (wr_responded_at req)
      (wr_approver_id req) (wr_denial_reason req) in
  (row, with_withdrawal_requests db (withdrawal_requests db ++ [row])).

(** Modelled from the spec: [crud.create_transaction] appends the row to the
    ledger; the store assigns its key.  The tests under [app/tests] insert
    rows dated before the child's creation through this helper, so it
    carries no validation of its own. *)
Definition create_transaction (db : DB) (tx : Transaction) : Transaction * DB :=
  let row :=
    mk_Transaction
      (next_id (map tx_id (transactions db)))
      (tx_child_id tx) (tx_account_id tx) (tx_type tx) (tx_amount tx)
      (tx_memo tx) (tx_timestamp tx) (tx_initiated_by tx) (tx_initiator_id tx) in
  (row, with_transactions db (transactions db ++ [row])).

(** Direction of a ledger entry: credits add, debits subtract. *)
Definition signed_amount (t : Transaction) : Q :=
  if (tx_type t =? "credit")%string then tx_amount t
  else if (tx_type t =? "debit")%string then - tx_amount t
  else 0.

Definition Qsum (l : list Q) : Q := fold_right Qplus 0%Q l.

Definition account_txs (db : DB) (aid : Z) : list Transaction :=
  filter (fun t => tx_account_id t =? aid) (transactions db).

(** Modelled from the spec: [crud.calculate_balance], section 4.2: the
    replay sum of all transactions of the account, credits minus debits. *)
Definition calculate_balance (db : DB) (aid : Z) : Q :=
  Qsum (map signed_amount (account_txs db aid)).

Definition Qmax0 (q : Q) : Q := if Qle_bool 0 q then q else 0%Q.

(** A credit is still locked while [days] days have not elapsed since its
    timestamp. *)
Definition still_locked (now days : Z) (t : Transaction) : bool :=
  (tx_type t =? "credit")%string
  && (now <? tx_timestamp t + days * seconds_per_day).

(** Modelled from the spec: [crud.calculate_available_balance], section
    4.2: for a savings account with a lockup period, the balance minus the
    credits still inside their lockup window, floored at zero; the plain
    balance for every other account. *)
Definition calculate_available_balance (now : Z) (db : DB) (aid : Z) : Q :=
  let balance := calculate_balance db aid in
  match get_account db aid with
  | None => balance
  | Some a =>
      if (account_type a =? "savings")%string then
        match lockup_period_days a with
        | None => balance
        | Some days =>
            let locked :=
              Qsum (map tx_amount
                        (filter (still_locked now days) (account_txs db aid))) in
            Qmax0 (balance - locked)
        end
      else balance
  end.

(* ------------------------------------------------------------------ *)
(** *** Ledger listing *)

(** [ORDER BY timestamp, id] *)
Definition tx_leb (t1 t2 : Transaction) : bool :=
  (tx_timestamp t1 <? tx_timestamp t2)
  || ((tx_timestamp t1 =? tx_timestamp t2) && (tx_id t1 <=? tx_id t2)).

Fixpoint insert_tx (t : Transaction) (l : list Transaction) : list Transaction :=
  match l with
  | [] => [t]
  | h :: r => if tx_leb t h then t :: l else h :: insert_tx t r
  end.

Definition sort_txs (l : list Transaction) : list Transaction :=
  fold_right insert_tx [] l.

(** Chronological order: by timestamp, ties by id. *)
Definition chronological (a b : Transaction) : Prop :=
  tx_timestamp a < tx_timestamp b
  \/ (tx_timestamp a = tx_timestamp b /\ tx_id a <= tx_id b).

(** Modelled from the spec: [crud.get_transactions_by_account], section
    4.1 [listByAccount]: the account's transactions ordered by timestamp
    ascending, ties broken by id. *)
Definition get_transactions_by_account (db : DB) (aid : Z) : list Transaction :=
  sort_txs (account_txs db aid).

(** Modelled from the spec: [crud.get_transactions_by_child], section 4.1
    [listByChild]. *)
Definition get_transactions_by_child (db : DB) (cid : Z) : list Transaction :=
  sort_txs (filter (fun t => tx_child_id t =? cid) (transactions db)).

(* ------------------------------------------------------------------ *)
(** *** Interest rate history (section 4.3) *)

Definition history_of (db : DB) (aid : Z) : list InterestRateHistory :=
  filter (fun e => irh_account_id e =? aid) (rate_history db).

(** Modelled from the spec: the tie-break of section 3.  [supersedes b e]:
    entry [e] is in force over [b], being dated later,
    or on the same date and written no earlier. *)
Definition supersedes (b e : InterestRateHistory) : bool :=
  (irh_date b <? irh_date e)
  || ((irh_date b =? irh_date e) && (irh_created_at b <=? irh_created_at e)).

Definition pick_entry (acc : option InterestRateHistory) (e : InterestRateHistory)
  : option InterestRateHistory :=
  match acc with
  | None => Some e
  | Some b => if supersedes b e then Some e else Some b
  end.

(** Modelled from the spec: the invariant of section 3.  The entry in
    force on [day]: the latest entry dated on or before
    [day]; among entries of one date, the latest [created_at]. *)
Definition entry_in_force (db : DB) (aid day : Z) : option InterestRateHistory :=
  fold_left pick_entry
            (filter (fun e => irh_date e <=? day) (history_of db aid))
            None.

(** Modelled from the spec: [rateForDate] on an account row, section 4.3.
    The pair (rate, penalty rate) in force on [day] for account row [a];
    an account without an entry dated on or before [day] is priced at its
    current nominal rate. *)
Definition rate_in_force (db : DB) (a : Account) (day : Z) : Q * Q :=
  match entry_in_force db (account_id a) day with
  | Some e => (irh_interest_rate e, penalty_interest_rate a)
  | None => (interest_rate a, penalty_interest_rate a)
  end.

(** Modelled from the spec: [crud.get_interest_rate_for_date], section 4.3
    [rateForDate]: resolves the rate per the data-model invariant of
    section 3 and returns the penalty rate with it. *)
Definition get_interest_rate_for_date (db : DB) (aid day : Z) : option (Q * Q) :=
  option_map (fun a => rate_in_force db a day) (get_account db aid).

(** Modelled from the spec: the account's start, sections 4.3 and 4.4.
    The earliest day the account is known to have existed: the creation
    day of the owning child, or the day of an earlier ledger entry when
    one has been back-dated before it. *)
Definition account_start_day (db : DB) (a : Account) (today : Z) : Z :=
  let created :=
    match get_child db (acc_child_id a) with
    | Some c => date_of (dt_wall (created_at c))
    | None => today
    end in
  fold_right Z.min created
             (map (fun t => date_of (tx_timestamp t))
                  (account_txs db (account_id a))).

Definition set_account_rate (a : Account) (rate : Q) : Account :=
  mk_Account (account_id a) (acc_child_id a) (account_type a) rate
             (penalty_interest_rate a) (cd_penalty_rate a)
             (lockup_period_days a) (last_interest_applied a)
             (total_interest_earned a).

(** Committing changed columns of an account row:
    [UPDATE account SET ... WHERE id = aid]. *)
Definition update_account (db : DB) (aid : Z) (f : Account -> Account) : DB :=
  with_accounts db
    (map (fun x => if account_id x =? aid then f x else x) (accounts db)).

(** Row identity on history entries. *)
Definition same_entry (e x : InterestRateHistory) : bool :=
  (irh_account_id x =? irh_account_id e)
  && (irh_date x =? irh_date e)
  && Qeq_bool (irh_interest_rate x) (irh_interest_rate e)
  && (irh_created_at x =? irh_created_at e).

(** Modelled from the spec: the history written by [setRate], section
    4.3.  The first change of an account back-dates an entry carrying the
    previous rate to the account's start day and adds today's entry; a
    later change overwrites today's entry when there is one in force and
    adds it otherwise.  (The test [test_interest_rate_history] expects two
    entries after the first change of a fresh account, the old rate first,
    and at least two after a second change on the same day.) *)
Definition record_rate (now : Z) (db : DB) (a : Account) (previous rate : Q)
  : list InterestRateHistory :=
  let today := date_of now in
  let aid := account_id a in
  let entry := mk_InterestRateHistory aid today rate now in
  match history_of db aid with
  | [] =>
      rate_history db
      ++ [mk_InterestRateHistory aid (account_start_day db a today) previous now;
          entry]
  | _ :: _ =>
      match entry_in_force db aid today with
      | Some e =>
          if irh_date e =? today
          then map (fun x => if same_entry e x then entry else x)
                   (rate_history db)
          else rate_history db ++ [entry]
      | None => rate_history db ++ [entry]
      end
  end.

(** Modelled from the spec: [crud.set_interest_rate], section 4.3
    [setRate] with the effective date defaulted to today.  A rate equal to
    the one in force changes nothing; otherwise the history is written and
    the account's nominal rate updated.  [None] stands for the
    [ValueError] raised when the child has no such account. *)
Definition set_interest_rate
    (now : Z) (db : DB) (cid : Z) (rate : Q) (ty : string)
  : option (Account * DB) :=
  match get_account_by_child_and_type db cid ty with
  | None => None
  | Some a =>
      let previous := fst (rate_in_force db a (date_of now)) in
      if Qeq_bool rate previous then Some (a, db)
      else
        Some (set_account_rate a rate,
              with_rate_history
                (update_account db (account_id a)
                                (fun x => set_account_rate x rate))
                (record_rate now db a previous rate))
  end.

(* ------------------------------------------------------------------ *)
(** *** Interest accrual engine (section 4.4) *)

Definition is_interest (t : Transaction) : bool :=
  match tx_memo t with
  | Some m => (m =? "Interest")%string
  | None => false
  end.

(** Modelled from the spec: the end-of-day balance of section 4.4.
    End-of-day balance of the account on [day]: the replay of every
    transaction dated on or before [day], leaving out synthetic interest
    entries of days not yet processed ([day] itself and later). *)
Definition balance_as_of (db : DB) (aid day : Z) : Q :=
  Qsum (map signed_amount
            (filter (fun t => (date_of (tx_timestamp t) <=? day)
                              && negb (is_interest t
                                       && (day <=? date_of (tx_timestamp t))))
                    (account_txs db aid))).

(** Modelled from the spec: the daily interest of section 4.4.
    Interest owed for [day]: balance times the daily rate, the annual
    rate in force on that day divided by 365. *)
Definition interest_for (db : DB) (a : Account) (day : Z) : Q :=
  (balance_as_of db (account_id a) day
   * (fst (rate_in_force db a day) / inject_Z 365))%Q.

Definition mark_accrued (a : Account) (day : Z) (amount : Q) : Account :=
  mk_Account (account_id a) (acc_child_id a) (account_type a)
             (interest_rate a) (penalty_interest_rate a) (cd_penalty_rate a)
             (lockup_period_days a) (Some day)
             (total_interest_earned a + amount)%Q.

(** Modelled from the spec: one step of [recalc], section 4.4.
    One day of accrual: post the synthetic credit dated at [day], at the
    close of the day, and
    advance the watermark to [day], together. *)
Definition post_interest (db : DB) (aid day : Z) : DB :=
  match get_account db aid with
  | None => db
  | Some a =>
      let amount := interest_for db a day in
      let tx :=
        mk_Transaction 0 (acc_child_id a) aid "credit" amount
                       (Some "Interest"%string) (end_of_day day)
                       "system" 0 in
      let db1 := snd (create_transaction db tx) in
      update_account db1 aid (fun x => mark_accrued x day amount)
  end.

(** Modelled from the spec: the catch-up loop of [recalc], section 4.4:
    [n] consecutive days starting at [day]. *)
Fixpoint accrue (n : nat) (db : DB) (aid day : Z) : DB :=
  match n with
  | O => db
  | S n' => accrue n' (post_interest db aid day) aid (day + 1)
  end.

(** [n] consecutive days starting at [day]. *)
Fixpoint days_from (day : Z) (n : nat) : list Z :=
  match n with
  | O => []
  | S n' => day :: days_from (day + 1) n'
  end.

(** Modelled from the spec: where a never-accrued account starts,
    section 4.4 and scenario A.  The day of the earliest entry in the
    account's ledger: the account carries no balance before it, so a
    deposit dated [n] days back yields [n] postings whenever the account
    was opened; an account without entries has nothing to accrue
    ([today], so that no day is walked). *)
Definition first_entry_day (db : DB) (a : Account) (today : Z) : Z :=
  fold_right Z.min today
             (map (fun t => date_of (tx_timestamp t))
                  (account_txs db (account_id a))).

(** Modelled from the spec: the starting day of [recalc], section 4.4.
    First day to accrue: the day after the watermark, or the day of the
    account's first entry when interest was never applied.  Of the two
    policies section 4.4 leaves to the implementer, this is the
    forward-only one: days up to the watermark are not revisited. *)
Definition start_day (db : DB) (a : Account) (today : Z) : Z :=
  match last_interest_applied a with
  | Some d => d + 1
  | None => first_entry_day db a today
  end.

(** Modelled from the spec: [crud.recalc_interest], section 4.4 [recalc]:
    walks every calendar day from the starting day through yesterday,
    posting that day's interest and advancing [last_interest_applied];
    today is not accrued.  The walk is forward-only from the watermark. *)
Definition recalc_interest (now : Z) (db : DB) (aid : Z) : DB :=
  match get_account db aid with
  | None => db
  | Some a =>
      let today := date_of now in
      let start := start_day db a today in
      accrue (Z.to_nat (today - start)) db aid start
  end.

(** Number of days [recalc_interest] has to catch up on. *)
Definition days_due (now : Z) (db : DB) (aid : Z) : nat :=
  match get_account db aid with
  | None => O
  | Some a => Z.to_nat (date_of now - start_day db a (date_of now))
  end.

(** The interest entries of an account, in ledger order. *)
Definition interest_txs (db : DB) (aid : Z) : list Transaction :=
  filter is_interest (account_txs db aid).

(** Section 3 on [last_interest_applied]: the "last day interest was
    posted through".  A watermark that is set is the day of an interest
    entry in the account's ledger; an account that holds no interest entry
    has none (it is NULL on a newly provisioned account, and section 7
    has the watermark and the posting of a day committed together). *)
Definition watermark_posted (db : DB) (a : Account) : Prop :=
  forall w,
    last_interest_applied a = Some w ->
    exists t,
      In t (interest_txs db (account_id a))
      /\ date_of (tx_timestamp t) = w.

(** The same for every account row of the store. *)
Definition watermarks_posted (db : DB) : Prop :=
  forall a, In a (accounts db) -> watermark_posted db a.

(** The amounts of the interest entries in a child's ledger listing. *)
Definition interest_amounts (db : DB) (cid : Z) : list Q :=
  map tx_amount (filter is_interest (get_transactions_by_child db cid)).

(** Modelled from the spec: [crud.post_transaction_update], the hook run
    after a ledger write: re-runs the accrual engine for the accounts of
    the child (sections 4.1 and 4.5). *)
Definition post_transaction_update (now : Z) (db : DB) (cid : Z) : DB :=
  fold_left (fun d a => recalc_interest now d (account_id a))
            (filter (fun a => acc_child_id a =? cid) (accounts db))
            db.

(* ================================================================== *)
(** ** Request schemas *)

(** [schemas/withdrawal.py], [WithdrawalRequestCreate]. *)
Record WithdrawalRequestCreate : Type := mk_WithdrawalRequestCreate {
  wrc_amount : Q;
  wrc_memo : option string;
  wrc_account_type : string
}.

(** Validation of a request body: omitted fields take the defaults of the
    schema, [memo = None] and [account_type = "checking"]. *)
Definition parse_WithdrawalRequestCreate
    (amount : Q) (memo : option string) (account_type : option string)
  : WithdrawalRequestCreate :=
  mk_WithdrawalRequestCreate
    amount memo
    (match account_type with Some ty => ty | None => "checking"%string end).

(** [schemas/withdrawal.py], [DenyRequest]. *)
Record DenyRequest : Type := mk_DenyRequest { reason : string }.

(** Modelled from the spec: the schema [TransactionCreate] (its module is
    not among the sources); the fields are those [add_transaction] reads,
    [timestamp] and [account_id] being optional. *)
Record TransactionCreate : Type := mk_TransactionCreate {
  tc_child_id : Z;
  tc_type : string;
  tc_amount : Q;
  tc_memo : option string;
  tc_initiated_by : string;
  tc_initiator_id : Z;
  tc_timestamp : option datetime;
  tc_account_id : option Z
}.

(** Modelled from the spec: the model constructor [WithdrawalRequest(...)]
    as the route calls it; a request is created pending, stamped with the
    current time, with no responder (section 3). *)
Definition new_WithdrawalRequest
    (now : Z) (cid : Z) (ty : string) (amount : Q) (memo : option string)
  : WithdrawalRequest :=
  mk_WithdrawalRequest 0 cid ty amount memo "pending" now None None None.

Definition set_approved (req : WithdrawalRequest) (now uid : Z) : WithdrawalRequest :=
  mk_WithdrawalRequest (wr_id req) (wr_child_id req) (wr_account_type req)
    (wr_amount req) (wr_memo req) "approved" (wr_requested_at req)
    (Some now) (Some uid) (wr_denial_reason req).

Definition set_denied (req : WithdrawalRequest) (now uid : Z) (why : string)
  : WithdrawalRequest :=
  mk_WithdrawalRequest (wr_id req) (wr_child_id req) (wr_account_type req)
    (wr_amount req) (wr_memo req) "denied" (wr_requested_at req)
    (Some now) (Some uid) (Some why).

Definition set_cancelled (req : WithdrawalRequest) (now : Z) : WithdrawalRequest :=
  mk_WithdrawalRequest (wr_id req) (wr_child_id req) (wr_account_type req)
    (wr_amount req) (wr_memo req) "cancelled" (wr_requested_at req)
    (Some now) (wr_approver_id req) (wr_denial_reason req).

Definition http (code : Z) (d : Detail) : HTTPException := mk_HTTPException code d.

(* ================================================================== *)
(** ** Route handlers *)

Section Routes.

(** Permission names of [app.acl]; only their identity matters. *)
Variables PERM_MANAGE_WITHDRAWALS PERM_DEPOSIT PERM_DEBIT : string.

Local Open Scope handler_scope.

(** [data.account_type or 'checking'] *)
Definition effective_account_type (data : WithdrawalRequestCreate) : string :=
  if (wrc_account_type data =? "")%string then "checking"%string
  else wrc_account_type data.

(** [routes/withdrawals.py], [request_withdrawal].  The resolved caller
    [child] and the clock reading [now] are inputs.  The catch-all
    [except Exception] branch has no counterpart: the helpers of the model
    are total. *)
Definition request_withdrawal
    (now : Z) (data : WithdrawalRequestCreate) (child : Child)
  : Handler WithdrawalRequest :=
  let account_type := effective_account_type data in
  raise_if (account_type =? "college_savings")%string
           (http 403 CollegeSavingsAdminOnly) ;;
  account <- query (fun db =>
               get_account_by_child_and_type db (child_id child) account_type) ;;
  match account with
  | None => raise (http 404 (AccountTypeNotFound account_type))
  | Some account =>
      (if (account_type =? "savings")%string then
         available <- query (fun db =>
                        calculate_available_balance now db (account_id account)) ;;
         raise_if (Qgtb (wrc_amount data) available)
                  (http 400 (InsufficientAvailableBalance available))
       else
         balance <- query (fun db => calculate_balance db (account_id account)) ;;
         raise_if (Qgtb (wrc_amount data) balance)
                  (http 400 InsufficientBalance)) ;;
      update (fun db =>
        create_withdrawal_request db
          (new_WithdrawalRequest now (child_id child) account_type
                                 (wrc_amount data) (wrc_memo data)))
  end.

(** [routes/withdrawals.py], [_ensure_parent_owns_request]. *)
Definition _ensure_parent_owns_request
    (req : WithdrawalRequest) (parent_id : Z) : Handler unit :=
  children <- query (fun db => get_children_by_user db parent_id) ;;
  raise_if (negb (existsb (Z.eqb (wr_child_id req)) (map child_id children)))
           (http 404 RequestNotFound).

(** The permission gate shared by [approve_request] and [deny_request]. *)
Definition check_manage_withdrawals
    (req : WithdrawalRequest) (current_user : User) : Handler unit :=
  if negb (role current_user =? "admin")%string then
    link <- query (fun db =>
              get_child_user_link db (user_id current_user) (wr_child_id req)) ;;
    match link with
    | None => raise (http 403 InsufficientPermissions)
    | Some link =>
        raise_if (negb (mem_string PERM_MANAGE_WITHDRAWALS (link_permissions link))
                  && negb (is_owner link))
                 (http 403 InsufficientPermissions)
    end
  else ret tt.

(** [routes/withdrawals.py], [approve_request]. *)
Definition approve_request
    (now : Z) (request_id : Z) (current_user : User)
  : Handler WithdrawalRequest :=
  req <- query (fun db => get_withdrawal_request db request_id) ;;
  match req with
  | None => raise (http 404 RequestNotFound)
  | Some req =>
      raise_if (negb (wr_status req =? "pending")%string)
               (http 404 RequestNotFound) ;;
      _ensure_parent_owns_request req (user_id current_user) ;;
      check_manage_withdrawals req current_user ;;
      account <- query (fun db =>
                   get_account_by_child_and_type
                     db (wr_child_id req) (wr_account_type req)) ;;
      match account with
      | None => raise (http 404 AccountNotFound)
      | Some account =>
          (* Validate available balance for savings accounts *)
          (if (wr_account_type req =? "savings")%string then
             available <- query (fun db =>
                            calculate_available_balance now db (account_id account)) ;;
             raise_if (Qgtb (wr_amount req) available)
                      (http 400 (InsufficientAvailableBalance available))
           else ret tt) ;;
          update (fun db =>
            create_transaction db
              (mk_Transaction 0 (wr_child_id req) (account_id account) "debit"
                              (wr_amount req) (wr_memo req) now
                              "child" (wr_child_id req))) ;;
          update (fun db => (tt, post_transaction_update now db (wr_child_id req))) ;;
          let req' := set_approved req now (user_id current_user) in
          update (fun db => (tt, save_withdrawal_request db req')) ;;
          ret req'
      end
  end.

(** [routes/withdrawals.py], [deny_request]. *)
Definition deny_request
    (now : Z) (request_id : Z) (why : DenyRequest) (current_user : User)
  : Handler WithdrawalRequest :=
  req <- query (fun db => get_withdrawal_request db request_id) ;;
  match req with
  | None => raise (http 404 RequestNotFound)
  | Some req =>
      raise_if (negb (wr_status req =? "pending")%string)
               (http 404 RequestNotFound) ;;
      _ensure_parent_owns_request req (user_id current_user) ;;
      check_manage_withdrawals req current_user ;;
      let req' := set_denied req now (user_id current_user) (reason why) in
      update (fun db => (tt, save_withdrawal_request db req')) ;;
      ret req'
  end.

(** [routes/withdrawals.py], [cancel_request]. *)
Definition cancel_request
    (now : Z) (request_id : Z) (child : Child)
  : Handler WithdrawalRequest :=
  req <- query (fun db => get_withdrawal_request db request_id) ;;
  match req with
  | None => raise (http 404 RequestNotFound)
  | Some req =>
      raise_if (negb (wr_status req =? "pending")%string
                || negb (wr_child_id req =? child_id child)%Z)
               (http 404 RequestNotFound) ;;
      let req' := set_cancelled req now in
      update (fun db => (tt, save_withdrawal_request db req')) ;;
      ret req'
  end.

(** The two permission gates at the head of [add_transaction]. *)
Definition check_add_transaction
    (transaction : TransactionCreate) (current_user : User) : Handler unit :=
  let is_credit := (tc_type transaction =? "credit")%string in
  let is_debit := (tc_type transaction =? "debit")%string in
  let not_admin := negb (role current_user =? "admin")%string in
  (if not_admin then
     raise_if (is_credit && negb (mem_string PERM_DEPOSIT (permissions current_user)))
              (http 403 InsufficientPermissions) ;;
     raise_if (is_debit && negb (mem_string PERM_DEBIT (permissions current_user)))
              (http 403 InsufficientPermissions)
   else ret tt) ;;
  (if not_admin then
     link <- query (fun db =>
               get_child_user_link db (user_id current_user)
                                   (tc_child_id transaction)) ;;
     match link with
     | None => raise (http 404 ChildNotFound)
     | Some link =>
         let perm_needed := if is_credit then PERM_DEPOSIT else PERM_DEBIT in
         raise_if (negb (mem_string perm_needed (link_permissions link))
                   && negb (is_owner link))
                  (http 403 InsufficientPermissions)
     end
   else ret tt).

(** The validation of a caller-supplied timestamp in [add_transaction];
    returns the timestamp normalised to timezone-aware. *)
Definition check_timestamp
    (now : Z) (transaction : TransactionCreate) (current_user : User)
    (timestamp : datetime) : Handler datetime :=
  raise_if (negb ((role current_user =? "admin")%string
                  || (role current_user =? "parent")%string))
           (http 403 CustomTimestampRole) ;;
  let timestamp := assume_utc timestamp in
  raise_if (dt_gtb timestamp (now_utc now)) (http 400 TimestampInFuture) ;;
  child <- query (fun db => get_child db (tc_child_id transaction)) ;;
  match child with
  | None => raise (http 404 ChildNotFound)
  | Some child =>
      let child_created := assume_utc (created_at child) in
      raise_if (dt_ltb timestamp child_created)
               (http 400 TimestampBeforeCreation) ;;
      ret timestamp
  end.

(** [routes/transactions.py], [add_transaction]. *)
Definition add_transaction
    (now : Z) (transaction : TransactionCreate) (current_user : User)
  : Handler Transaction :=
  check_add_transaction transaction current_user ;;
  timestamp <- match tc_timestamp transaction with
               | None => ret None
               | Some ts =>
                   ts' <- check_timestamp now transaction current_user ts ;;
                   ret (Some ts')
               end ;;
  (* Default to checking account if account_id not provided *)
  account_id <-
    (if match tc_account_id transaction with
        | None => true
        | Some i => i =? 0
        end
     then
       checking_account <- query (fun db =>
         get_checking_account_by_child db (tc_child_id transaction)) ;;
       match checking_account with
       | None => raise (http 404 CheckingAccountNotFound)
       | Some checking_account => ret (account_id checking_account)
       end
     else ret (match tc_account_id transaction with
               | Some i => i
               | None => 0
               end)) ;;
  let tx_model :=
    mk_Transaction 0 (tc_child_id transaction) account_id
      (tc_type transaction) (tc_amount transaction) (tc_memo transaction)
      (match timestamp with
       | Some ts => dt_wall (replace_tzinfo ts None)
       | None => now
       end)
      (tc_initiated_by transaction) (tc_initiator_id transaction) in
  new_tx <- update (fun db => create_transaction db tx_model) ;;
  update (fun db => (tt, post_transaction_update now db (tc_child_id transaction))) ;;
  ret new_tx.

End Routes.

(** The three operations on a filed request, for stating the workflow. *)
Inductive WithdrawalOp : Type :=
| OpApprove (current_user : User)
| OpDeny (current_user : User) (why : DenyRequest)
| OpCancel (child : Child).

Definition run_op (PERM_MANAGE_WITHDRAWALS : string) (now request_id : Z)
    (op : WithdrawalOp) : Handler WithdrawalRequest :=
  match op with
  | OpApprove u => approve_request PERM_MANAGE_WITHDRAWALS now request_id u
  | OpDeny u why => deny_request PERM_MANAGE_WITHDRAWALS now request_id why u
  | OpCancel c => cancel_request now request_id c
  end.

Definition target_status (op : WithdrawalOp) : string :=
  match op with
  | OpApprove _ => "approved"
  | OpDeny _ _ => "denied"
  | OpCancel _ => "cancelled"
  end.

(** The caller passes the ownership and permission gates of approve and
    deny on [req]. *)
Definition may_respond (PERM_MANAGE_WITHDRAWALS : string)
    (req : WithdrawalRequest) (u : User) (db : DB) : Prop :=
  fst (_ensure_parent_owns_request req (user_id u) db) = Ok tt
  /\ fst (check_manage_withdrawals PERM_MANAGE_WITHDRAWALS req u db) = Ok tt.

(** The debit posted by an approval of [req] against [account]. *)
Definition approval_debit (now : Z) (db : DB) (req : WithdrawalRequest)
    (account : Account) : Transaction :=
  mk_Transaction (next_id (map tx_id (transactions db)))
                 (wr_child_id req) (account_id account) "debit"
                 (wr_amount req) (wr_memo req) now "child" (wr_child_id req).

(** The stages of [add_transaction], named for stating its properties. *)

(** Outcome of the optional timestamp validation. *)
Definition timestamp_stage (now : Z) (transaction : TransactionCreate)
    (current_user : User) (db : DB) : result (option datetime) :=
  match tc_timestamp transaction with
  | None => Ok None
  | Some ts =>
      match fst (check_timestamp now transaction current_user ts db) with
      | Ok ts' => Ok (Some ts')
      | Raised e => Raised e
      end
  end.

(** The account the row is posted to: the one named, or the child's
    checking account when [account_id] is absent (or zero). *)
Definition resolve_account_id (db : DB) (transaction : TransactionCreate)
  : result Z :=
  match tc_account_id transaction with
  | Some i =>
      if i =? 0 then
        match get_checking_account_by_child db (tc_child_id transaction) with
        | None => Raised (http 404 CheckingAccountNotFound)
        | Some checking_account => Ok (account_id checking_account)
        end
      else Ok i
  | None =>
      match get_checking_account_by_child db (tc_child_id transaction) with
      | None => Raised (http 404 CheckingAccountNotFound)
      | Some checking_account => Ok (account_id checking_account)
      end
  end.

(** The ledger row [add_transaction] inserts. *)
Definition stored_transaction (now : Z) (db : DB)
    (transaction : TransactionCreate) (aid : Z) (timestamp : option datetime)
  : Transaction :=
  mk_Transaction (next_id (map tx_id (transactions db)))
    (tc_child_id transaction) aid (tc_type transaction)
    (tc_amount transaction) (tc_memo transaction)
    (match timestamp with
     | Some ts => dt_wall (replace_tzinfo ts None)
     | None => now
     end)
    (tc_initiated_by transaction) (tc_initiator_id transaction).

Definition set_amount (transaction : TransactionCreate) (amount : Q)
  : TransactionCreate :=
  mk_TransactionCreate (tc_child_id transaction) (tc_type transaction) amount
    (tc_memo transaction) (tc_initiated_by transaction)
    (tc_initiator_id transaction) (tc_timestamp transaction)
    (tc_account_id transaction).

(* ------------------------------------------------------------------ *)
(** *** A small family, for concrete runs *)

Module Family.

Definition now : Z := 20000 * 86400 + 43200.
Definition MANAGE : string := "manage_withdrawals".
Definition DEPOSIT : string := "deposit".
Definition DEBIT : string := "debit".

(** The child was registered six hours ago. *)
Definition kid : Child :=
  mk_Child 1 "Kid" false (mk_datetime (now - 21600) None).
Definition parent : User := mk_User 7 "parent" [MANAGE; DEPOSIT; DEBIT].
Definition owner_link : ChildUserLink := mk_ChildUserLink 7 1 [] true.

Definition checking : Account :=
  mk_Account 1 1 "checking" 0 (2 # 100) (1 # 10) None None 0.
Definition savings : Account :=
  mk_Account 2 1 "savings" (1 # 100) (2 # 100) (1 # 10) (Some 30) None 0.
Definition college : Account :=
  mk_Account 3 1 "college_savings" (1 # 100) (2 # 100) (1 # 10) None None 0.

(** The store right after provisioning: no ledger entries yet. *)
Definition empty_db : DB :=
  mk_DB [kid] [owner_link] [checking; savings; college] [] [] [].

Definition deposit (id aid : Z) (amount : Q) (ts : Z) : Transaction :=
  mk_Transaction id 1 aid "credit" amount (Some "Deposit"%string) ts "parent" 7.

Definition pending_request (ty : string) (amount : Q) : WithdrawalRequest :=
  mk_WithdrawalRequest 1 1 ty amount None "pending" now None None None.

(** Ten units in checking and a pending request for fifty of them. *)
Definition overdraw_db : DB :=
  mk_DB [kid] [owner_link] [checking; savings; college]
        [deposit 1 1 10 now]
        [pending_request "checking" 50] [].

(** Ten units in savings, still inside the lockup, and a pending request
    for fifty. *)
Definition short_savings_db : DB :=
  mk_DB [kid] [owner_link] [checking; savings; college]
        [deposit 1 2 10 now]
        [pending_request "savings" 50] [].

(** A credit of five stamped 13:00 at UTC+05:00, that is 08:00 UTC,
    four hours before [now] (12:00 UTC) and after the child was
    registered (06:00 UTC). *)
Definition offset_stamp : datetime := mk_datetime (now + 3600) (Some 18000).
Definition offset_credit : TransactionCreate :=
  mk_TransactionCreate 1 "credit" 5 None "parent" 7
                       (Some offset_stamp) (Some 1).

(** Scenario A: the child is registered today, and a credit of one
    hundred dated ten days back sits in the savings account. *)
Definition backdated_deposit : Transaction :=
  mk_Transaction 1 1 2 "credit" 100 (Some "Back-dated deposit"%string)
                 (now - 10 * seconds_per_day) "parent" 7.
Definition backdated_db : DB :=
  mk_DB [kid] [owner_link] [checking; savings; college]
        [backdated_deposit] [] [].

(** Scenario C: a deposit of one hundred in savings, five days old. *)
Definition five_day_db : DB :=
  mk_DB [kid] [owner_link] [checking; savings; college]
        [deposit 1 2 100 (now - 5 * seconds_per_day)] [] [].

(** [set_interest_rate] on the savings account of the child, keeping
    the store. *)
Definition with_savings_rate (db : DB) (rate : Q) : DB :=
  match set_interest_rate now db 1 rate "savings" with
  | Some (_, db') => db'
  | None => db
  end.

(** Scenario C as the regression test sets it up: the rate is moved away
    and back to the initial one per cent before the first run. *)
Definition rate_history_db : DB :=
  with_savings_rate (with_savings_rate five_day_db (15 # 1000)) (1 # 100).

(** A credit of twenty that names no account. *)
Definition unaddressed_credit : TransactionCreate :=
  mk_TransactionCreate 1 "credit" 20 None "parent" 7 None None.

(** A credit of minus five. *)
Definition negative_credit : TransactionCreate :=
  mk_TransactionCreate 1 "credit" (-5 # 1) None "parent" 7 None (Some 1).

End Family.

Definition set_account_id (transaction : TransactionCreate) (aid : option Z)
  : TransactionCreate :=
  mk_TransactionCreate (tc_child_id transaction) (tc_type transaction)
    (tc_amount transaction) (tc_memo transaction)
    (tc_initiated_by transaction) (tc_initiator_id transaction)
    (tc_timestamp transaction) aid.

(** The permission the link must carry for a transaction of this type. *)
Definition perm_needed (PERM_DEPOSIT PERM_DEBIT : string)
    (transaction : TransactionCreate) : string :=
  if (tc_type transaction =? "credit")%string then PERM_DEPOSIT
  else PERM_DEBIT.

(* ================================================================== *)
(** ** The other routes: ledger view and child settings *)

(** Error payloads of [routes/transactions.py] and [routes/children.py]
    beyond those of the handlers above. *)
Inductive Reply : Type :=
| Shared (d : Detail)
| NotAuthorized
| ParentNotFound
| AccountsNotFound
| InternalError.

Inductive answer (A : Type) : Type :=
| Returned (a : A)
| Refused (code : Z) (d : Reply).
Arguments Returned {A} a.
Arguments Refused {A} code d.

(** A route over the store that answers or refuses. *)
Definition Route (A : Type) : Type := DB -> answer A * DB.

Definition answer_with {A} (a : A) : Route A := fun db => (Returned a, db).

Definition refuse {A} (code : Z) (d : Reply) : Route A :=
  fun db => (Refused code d, db).

Definition and_then {A B} (m : Route A) (k : A -> Route B) : Route B :=
  fun db =>
    match m db with
    | (Returned a, db') => k a db'
    | (Refused code d, db') => (Refused code d, db')
    end.

Definition ask {A} (f : DB -> A) : Route A := fun db => (Returned (f db), db).

Definition write {A} (f : DB -> A * DB) : Route A :=
  fun db => let '(a, db') := f db in (Returned a, db').

Definition refuse_if (c : bool) (code : Z) (d : Reply) : Route unit :=
  if c then refuse code d else answer_with tt.

Declare Scope route_scope.
Delimit Scope route_scope with route.
Notation "x <- m ;; k" := (and_then m (fun x => k))
  (at level 61, m at next level, right associativity) : route_scope.
Notation "m ;; k" := (and_then m (fun _ => k))
  (at level 61, right associativity) : route_scope.

(** The caller as resolved by [get_current_identity]: a child token or a
    user token. *)
Inductive Identity : Type :=
| ChildToken (child : Child)
| UserToken (user : User).

(** [LedgerResponse] as [get_ledger] builds it. *)
Record LedgerResponse : Type := mk_LedgerResponse {
  lr_balance : Q;
  lr_transactions : list Transaction
}.

(** [schemas/child.py], [ChildRead]. *)
Record ChildRead : Type := mk_ChildRead {
  cr_id : Z;
  cr_first_name : string;
  cr_frozen : bool;
  cr_interest_rate : option Q;
  cr_penalty_interest_rate : option Q;
  cr_cd_penalty_rate : option Q;
  cr_total_interest_earned : option Q
}.

(** [ChildRead(id=child.id, ..., interest_rate=account.interest_rate if
    account else None, ...)] *)
Definition child_read (child : Child) (account : option Account) : ChildRead :=
  mk_ChildRead (child_id child) (first_name child) (account_frozen child)
               (option_map interest_rate account)
               (option_map penalty_interest_rate account)
               (option_map cd_penalty_rate account)
               (option_map total_interest_earned account).

(** [schemas/child.py], [AccountRead] and [ChildAccountsResponse]. *)
Record AccountRead : Type := mk_AccountRead {
  ar_id : Z;
  ar_account_type : string;
  ar_balance : Q;
  ar_available_balance : option Q;
  ar_interest_rate : Q;
  ar_lockup_period_days : option Z
}.

Record ChildAccountsResponse : Type := mk_ChildAccountsResponse {
  car_checking : AccountRead;
  car_savings : AccountRead;
  car_college_savings : AccountRead;
  car_total_balance : Q
}.

(** [schemas/child.py], [InterestRateUpdate]. *)
Record InterestRateUpdate : Type := mk_InterestRateUpdate {
  iru_interest_rate : Q;
  iru_account_type : string
}.

(** Validation of the body: an omitted [account_type] is "checking". *)
Definition parse_InterestRateUpdate
    (interest_rate : Q) (account_type : option string) : InterestRateUpdate :=
  mk_InterestRateUpdate
    interest_rate
    (match account_type with Some ty => ty | None => "checking"%string end).

(** Modelled from the spec: [crud.calculate_total_balance], section 4.2:
    the sum of the balances of the child's accounts. *)
Definition calculate_total_balance (db : DB) (cid : Z) : Q :=
  Qsum (map (fun a => calculate_balance db (account_id a))
            (filter (fun a => acc_child_id a =? cid) (accounts db))).

(** [crud.set_child_frozen], as [freeze_child] and [unfreeze_child] use
    it ([app/crud.py] is not among the sources): sets [account_frozen] on
    the row of the child and returns the updated row, if there is one. *)
Definition set_child_frozen (db : DB) (cid : Z) (frozen : bool)
  : option Child * DB :=
  let freeze c :=
    mk_Child (child_id c) (first_name c) frozen (created_at c) in
  (option_map freeze (get_child db cid),
   mk_DB (map (fun c => if child_id c =? cid then freeze c else c)
              (children db))
         (links db) (accounts db) (transactions db)
         (withdrawal_requests db) (rate_history db)).

(** [crud.remove_child_link], as [remove_parent_access] uses it
    ([app/crud.py] is not among the sources): deletes the link rows
    between the parent and the child. *)
Definition remove_child_link (db : DB) (cid parent_id : Z) : DB :=
  mk_DB (children db)
        (filter (fun l => negb ((link_user_id l =? parent_id)
                                && (link_child_id l =? cid)))
                (links db))
        (accounts db) (transactions db)
        (withdrawal_requests db) (rate_history db).

(** [if perm] on an optional string: present and not empty. *)
Definition truthy (perm : option string) : bool :=
  match perm with
  | Some s => negb (s =? "")%string
  | None => false
  end.

Definition has_perm (perm : option string) (l : list string) : bool :=
  match perm with
  | Some s => mem_string s l
  | None => false
  end.

Section SettingsRoutes.

(** Permission names of [app.acl], and [crud.get_account_by_child], the
    account shown in a [ChildRead]; only the rates of the answer depend on
    the latter. *)
Variables PERM_VIEW_TRANSACTIONS PERM_FREEZE_CHILD
          PERM_MANAGE_CHILD_SETTINGS : string.
Variable get_account_by_child : DB -> Z -> option Account.

Local Open Scope route_scope.

(** [routes/children.py], [_ensure_link]. *)
Definition _ensure_link
    (uid cid : Z) (perm : option string) (require_owner : bool)
  : Route ChildUserLink :=
  link <- ask (fun db => get_child_user_link db uid cid) ;;
  match link with
  | None => refuse 404 (Shared ChildNotFound)
  | Some link =>
      refuse_if (require_owner && negb (is_owner link)) 403 NotAuthorized ;;
      (* owners implicitly have all permissions *)
      refuse_if (truthy perm
                 && negb (has_perm perm (link_permissions link))
                 && negb (is_owner link))
                403 (Shared InsufficientPermissions) ;;
      answer_with link
  end.

(** The access checks at the head of [get_ledger] (and, verbatim, of
    [get_child_accounts]). *)
Definition check_view (cid : Z) (identity : Identity) : Route unit :=
  match identity with
  | ChildToken child =>
      refuse_if (negb (child_id child =? cid)) 403 NotAuthorized
  | UserToken user =>
      if negb (role user =? "admin")%string then
        refuse_if (negb (mem_string PERM_VIEW_TRANSACTIONS (permissions user)))
                  403 (Shared InsufficientPermissions) ;;
        link <- ask (fun db => get_child_user_link db (user_id user) cid) ;;
        match link with
        | None => refuse 404 (Shared ChildNotFound)
        | Some link =>
            refuse_if (negb (mem_string PERM_VIEW_TRANSACTIONS
                                        (link_permissions link))
                       && negb (is_owner link))
                      403 (Shared InsufficientPermissions)
        end
      else answer_with tt
  end.

(** [routes/transactions.py], [get_ledger]. *)
Definition get_ledger
    (cid : Z) (account_id : option Z) (identity : Identity)
  : Route LedgerResponse :=
  check_view cid identity ;;
  match account_id with
  | Some aid =>
      if aid =? 0 then
        (* Return all transactions for child *)
        transactions <- ask (fun db => get_transactions_by_child db cid) ;;
        balance <- ask (fun db => calculate_total_balance db cid) ;;
        answer_with (mk_LedgerResponse balance transactions)
      else
        (* Filter by specific account *)
        account <- ask (fun db => get_account db aid) ;;
        match account with
        | None => refuse 404 (Shared AccountNotFound)
        | Some account =>
            refuse_if (negb (acc_child_id account =? cid))
                      404 (Shared AccountNotFound) ;;
            transactions <- ask (fun db => get_transactions_by_account db aid) ;;
            balance <- ask (fun db => calculate_balance db aid) ;;
            answer_with (mk_LedgerResponse balance transactions)
        end
  | None =>
      transactions <- ask (fun db => get_transactions_by_child db cid) ;;
      balance <- ask (fun db => calculate_total_balance db cid) ;;
      answer_with (mk_LedgerResponse balance transactions)
  end.

(** [routes/children.py], [get_child_accounts]; [now] is the clock read
    by the available balance. *)
Definition get_child_accounts
    (now : Z) (cid : Z) (identity : Identity) : Route ChildAccountsResponse :=
  check_view cid identity ;;
  checking <- ask (fun db => get_account_by_child_and_type db cid "checking") ;;
  savings <- ask (fun db => get_account_by_child_and_type db cid "savings") ;;
  college_savings <-
    ask (fun db => get_account_by_child_and_type db cid "college_savings") ;;
  match checking, savings, college_savings with
  | Some checking, Some savings, Some college_savings =>
      checking_balance <-
        ask (fun db => calculate_balance db (account_id checking)) ;;
      savings_balance <-
        ask (fun db => calculate_balance db (account_id savings)) ;;
      savings_available <-
        ask (fun db =>
               calculate_available_balance now db (account_id savings)) ;;
      college_balance <-
        ask (fun db => calculate_balance db (account_id college_savings)) ;;
      total <- ask (fun db => calculate_total_balance db cid) ;;
      answer_with
        (mk_ChildAccountsResponse
           (mk_AccountRead (account_id checking) (account_type checking)
                           checking_balance None
                           (interest_rate checking) None)
           (mk_AccountRead (account_id savings) (account_type savings)
                           savings_balance (Some savings_available)
                           (interest_rate savings)
                           (lockup_period_days savings))
           (mk_AccountRead (account_id college_savings)
                           (account_type college_savings)
                           college_balance None
                           (interest_rate college_savings) None)
           total)
  | _, _, _ => refuse 404 AccountsNotFound
  end.

(** [routes/children.py], [get_child_route]; [get_child_by_id] is the
    lookup [get_child]. *)
Definition get_child_route (cid : Z) (identity : Identity) : Route ChildRead :=
  child <-
    match identity with
    | ChildToken child =>
        refuse_if (negb (child_id child =? cid)) 403 NotAuthorized ;;
        answer_with child
    | UserToken user =>
        (if negb (role user =? "admin")%string then
           refuse_if (negb (mem_string PERM_VIEW_TRANSACTIONS (permissions user)))
                     403 (Shared InsufficientPermissions) ;;
           children <- ask (fun db => get_children_by_user db (user_id user)) ;;
           refuse_if (negb (existsb (Z.eqb cid) (map child_id children)))
                     404 (Shared ChildNotFound)
         else answer_with tt) ;;
        child <- ask (fun db => get_child db cid) ;;
        match child with
        | None => refuse 404 (Shared ChildNotFound)
        | Some child => answer_with child
        end
    end ;;
  account <- ask (fun db => get_account_by_child db cid) ;;
  answer_with (child_read child account).

(** The tail shared by [freeze_child] and [unfreeze_child]: write the
    flag and build the answer; [updated.id] on a missing row is an
    internal error. *)
Definition write_frozen (cid : Z) (frozen : bool) : Route ChildRead :=
  updated <- write (fun db => set_child_frozen db cid frozen) ;;
  account <- ask (fun db => get_account_by_child db cid) ;;
  match updated with
  | None => refuse 500 InternalError
  | Some updated => answer_with (child_read updated account)
  end.

(** [routes/children.py], [freeze_child]. *)
Definition freeze_child (cid : Z) (current_user : User) : Route ChildRead :=
  child <- ask (fun db => get_child db cid) ;;
  match child with
  | None => refuse 404 (Shared ChildNotFound)
  | Some _ =>
      (if negb (role current_user =? "admin")%string then
         _ensure_link (user_id current_user) cid (Some PERM_FREEZE_CHILD) false ;;
         answer_with tt
       else answer_with tt) ;;
      write_frozen cid true
  end.

(** [routes/children.py], [unfreeze_child]. *)
Definition unfreeze_child (cid : Z) (current_user : User) : Route ChildRead :=
  child <- ask (fun db => get_child db cid) ;;
  match child with
  | None => refuse 404 (Shared ChildNotFound)
  | Some _ =>
      (if negb (role current_user =? "admin")%string then
         children <- ask (fun db =>
                       get_children_by_user db (user_id current_user)) ;;
         refuse_if (negb (existsb (Z.eqb cid) (map child_id children)))
                   404 (Shared ChildNotFound)
       else answer_with tt) ;;
      write_frozen cid false
  end.

(** [routes/children.py], [remove_parent_access]. *)
Definition remove_parent_access
    (cid parent_id : Z) (current_user : User) : Route unit :=
  child <- ask (fun db => get_child db cid) ;;
  match child with
  | None => refuse 404 (Shared ChildNotFound)
  | Some _ =>
      (if negb (role current_user =? "admin")%string then
         _ensure_link (user_id current_user) cid
                      (Some PERM_MANAGE_CHILD_SETTINGS) false ;;
         answer_with tt
       else answer_with tt) ;;
      link <- ask (fun db => get_child_user_link db parent_id cid) ;;
      refuse_if (match link with
                 | None => true
                 | Some link => is_owner link
                 end)
                404 ParentNotFound ;;
      write (fun db => (tt, remove_child_link db cid parent_id))
  end.

(** [routes/children.py], [update_interest_rate]. *)
Definition update_interest_rate
    (now : Z) (cid : Z) (data : InterestRateUpdate) (current_user : User)
  : Route ChildRead :=
  child <- ask (fun db => get_child db cid) ;;
  match child with
  | None => refuse 404 (Shared ChildNotFound)
  | Some child =>
      (if negb (role current_user =? "admin")%string then
         _ensure_link (user_id current_user) cid
                      (Some PERM_MANAGE_CHILD_SETTINGS) false ;;
         answer_with tt
       else answer_with tt) ;;
      write (fun db => (tt, post_transaction_update now db cid)) ;;
      changed <- ask (fun db =>
                   set_interest_rate now db cid (iru_interest_rate data)
                                     (iru_account_type data)) ;;
      match changed with
      | None => refuse 404 (Shared AccountNotFound)
      | Some (_, db') =>
          write (fun _ => (tt, db')) ;;
          (* Return checking account for backward compatibility *)
          checking_account <- ask (fun db =>
                                get_checking_account_by_child db cid) ;;
          answer_with (child_read child checking_account)
      end
  end.

End SettingsRoutes.

(** Who the access checks of [get_ledger] let through. *)
Definition may_view (PERM : string) (cid : Z) (identity : Identity) (db : DB)
  : Prop :=
  match identity with
  | ChildToken c => child_id c = cid
  | UserToken u =>
      role u = "admin"%string
      \/ (In PERM (permissions u)
          /\ exists l,
               get_child_user_link db (user_id u) cid = Some l
               /\ (is_owner l = true \/ In PERM (link_permissions l)))
  end.

(** The columns of an account row that identify it. *)
Definition account_key (a : Account) : Z * Z * string :=
  (account_id a, acc_child_id a, account_type a).


(* ================================================================== *)
(** ** The data migration of [database.py] *)

(** A row of the [account] table with the columns the migration names;
    on a legacy row [account_type] may be NULL. *)
Record AccountRow : Type := mk_AccountRow {
  row_id : Z;
  row_child_id : Z;
  row_account_type : option string;
  row_interest_rate : Q;
  row_lockup_period_days : option Z;
  row_balance : Q;
  row_penalty_interest_rate : Q;
  row_cd_penalty_rate : Q;
  row_last_interest_applied : option Z;
  row_total_interest_earned : Q;
  row_service_fee_last_charged : option Z;
  row_overdraft_fee_last_charged : option Z;
  row_overdraft_fee_charged : bool
}.

(** A row of the [transaction] table: the columns the backfill reads and
    writes. *)
Record TransactionRow : Type := mk_TransactionRow {
  trow_id : Z;
  trow_child_id : Z;
  trow_account_id : option Z
}.

(** The three columns read from the settings row with id 1. *)
Record SettingsRow : Type := mk_SettingsRow {
  savings_account_interest_rate : option Q;
  college_savings_account_interest_rate : option Q;
  savings_account_lockup_period_days : option Z
}.

(** The tables the migration reads: [SELECT id FROM child], [account],
    [transaction], and the settings row with id 1 if there is one. *)
Record Tables : Type := mk_Tables {
  child_ids : list Z;
  account_rows : list AccountRow;
  transaction_rows : list TransactionRow;
  settings_row : option SettingsRow
}.

(** [account_type = ty]: NULL compares equal to nothing. *)
Definition type_is (ty : string) (a : AccountRow) : bool :=
  match row_account_type a with
  | Some t => (t =? ty)%string
  | None => false
  end.

(** [account_type IS NULL OR account_type = ''] *)
Definition untyped (a : AccountRow) : bool :=
  match row_account_type a with
  | Some t => (t =? "")%string
  | None => true
  end.

Definition set_row_type (a : AccountRow) (ty : option string) : AccountRow :=
  mk_AccountRow (row_id a) (row_child_id a) ty (row_interest_rate a)
                (row_lockup_period_days a) (row_balance a)
                (row_penalty_interest_rate a) (row_cd_penalty_rate a)
                (row_last_interest_applied a) (row_total_interest_earned a)
                (row_service_fee_last_charged a)
                (row_overdraft_fee_last_charged a)
                (row_overdraft_fee_charged a).

(** [UPDATE account SET account_type = 'checking' WHERE child_id = :child_id
    AND (account_type IS NULL OR account_type = '')] *)
Definition mark_checking (cid : Z) (rows : list AccountRow) : list AccountRow :=
  map (fun a => if (row_child_id a =? cid) && untyped a
                then set_row_type a (Some "checking"%string) else a)
      rows.

(** [{row[0] for row in accounts_result.fetchall() if row[0]}] over
    [SELECT account_type FROM account WHERE child_id = :child_id]. *)
Definition existing_types (cid : Z) (rows : list AccountRow) : list string :=
  flat_map (fun a =>
              if row_child_id a =? cid then
                match row_account_type a with
                | Some t => if (t =? "")%string then [] else [t]
                | None => []
                end
              else [])
           rows.

(** [INSERT INTO account (...) VALUES (...)]: the key is assigned by the
    store. *)
Definition insert_account (rows : list AccountRow) (a : AccountRow)
  : list AccountRow :=
  rows ++ [mk_AccountRow (next_id (map row_id rows)) (row_child_id a)
                         (row_account_type a) (row_interest_rate a)
                         (row_lockup_period_days a) (row_balance a)
                         (row_penalty_interest_rate a) (row_cd_penalty_rate a)
                         (row_last_interest_applied a)
                         (row_total_interest_earned a)
                         (row_service_fee_last_charged a)
                         (row_overdraft_fee_last_charged a)
                         (row_overdraft_fee_charged a)].

(** The values of the two [INSERT] statements. *)
Definition new_savings (cid : Z) (rate : Q) (lockup : Z) : AccountRow :=
  mk_AccountRow 0 cid (Some "savings"%string) rate (Some lockup) 0
                (2 # 100) (1 # 10) None 0 None None false.

Definition new_college_savings (cid : Z) (rate : Q) : AccountRow :=
  mk_AccountRow 0 cid (Some "college_savings"%string) rate None 0
                (2 # 100) (1 # 10) None 0 None None false.

(** The body of [for (child_id,) in children]. *)
Definition provision_child (savings_rate college_rate : Q) (lockup_days : Z)
    (rows : list AccountRow) (cid : Z) : list AccountRow :=
  let rows1 := mark_checking cid rows in
  let existing := existing_types cid rows1 in
  let rows2 :=
    if negb (mem_string "savings" existing)
    then insert_account rows1 (new_savings cid savings_rate lockup_days)
    else rows1 in
  if negb (mem_string "college_savings" existing)
  then insert_account rows2 (new_college_savings cid college_rate)
  else rows2.

(** [UPDATE "transaction" SET account_id = (SELECT id FROM account WHERE
    account.child_id = "transaction".child_id AND account.account_type =
    'checking' LIMIT 1) WHERE account_id IS NULL]; the first matching row
    in table order is taken. *)
Definition backfill (rows : list AccountRow) (txs : list TransactionRow)
  : list TransactionRow :=
  map (fun t =>
         match trow_account_id t with
         | None =>
             mk_TransactionRow
               (trow_id t) (trow_child_id t)
               (option_map row_id
                  (find (fun a => (row_child_id a =? trow_child_id t)
                                  && type_is "checking" a) rows))
         | Some _ => t
         end)
      txs.

(** [SELECT COUNT( * ) FROM account WHERE account_type = 'savings'] *)
Definition savings_count (rows : list AccountRow) : nat :=
  List.length (filter (type_is "savings") rows).

Definition or_default {A} (x : option A) (d : A) : A :=
  match x with Some v => v | None => d end.

(** [database.py], [create_db_and_tables]: the block "Migrate existing
    data", run once the [account_type] column exists (the statements
    before it add the column when it is missing). *)
Definition migrate_accounts (t : Tables) : Tables :=
  if (savings_count (account_rows t) =? 0)%nat then
    let '(savings_rate, college_rate, lockup_days) :=
      match settings_row t with
      | Some settings =>
          (or_default (savings_account_interest_rate settings) (1 # 100)%Q,
           or_default (college_savings_account_interest_rate settings)
                      (1 # 100)%Q,
           or_default (savings_account_lockup_period_days settings) 30)
      | None => ((1 # 100)%Q, (1 # 100)%Q, 30)
      end in
    let rows :=
      fold_left (provision_child savings_rate college_rate lockup_days)
                (child_ids t) (account_rows t) in
    mk_Tables (child_ids t) rows (backfill rows (transaction_rows t))
              (settings_row t)
  else t.

(** Number of rows of child [cid] that satisfy [p]. *)
Definition count_of (p : AccountRow -> bool) (cid : Z) (rows : list AccountRow)
  : nat :=
  List.length (filter (fun a => (row_child_id a =? cid) && p a) rows).

(* ------------------------------------------------------------------ *)
(** *** More people and stores, for concrete runs *)

Module Cases.

(** An administrator with no link to any child. *)
Definition admin : User := mk_User 9 "admin" [].

(** A second parent, linked to the child without owning the link and
    without any permission on it. *)
Definition guest : User :=
  mk_User 8 "parent" [Family.MANAGE; Family.DEPOSIT; Family.DEBIT].
Definition guest_link : ChildUserLink := mk_ChildUserLink 8 1 [] false.

(** Another child. *)
Definition sibling : Child :=
  mk_Child 2 "Sib" false (mk_datetime (Family.now - 21600) None).

(** The family with the guest linked, ten units in checking and a
    pending request for five of them. *)
Definition shared_db : DB :=
  mk_DB [Family.kid; sibling] [Family.owner_link; guest_link]
        [Family.checking; Family.savings; Family.college]
        [Family.deposit 1 1 10 Family.now]
        [Family.pending_request "checking" 5] [].

(** A credit by the administrator for a child and an account that do
    not exist. *)
Definition stray_credit : TransactionCreate :=
  mk_TransactionCreate 42 "credit" 5 None "admin" 9 None (Some 99).

(** The child registered five days ago, and a credit of one hundred for
    the savings account dated three days back. *)
Definition early_kid : Child :=
  mk_Child 1 "Kid" false (mk_datetime (Family.now - 5 * seconds_per_day) None).
Definition three_day_credit : TransactionCreate :=
  mk_TransactionCreate 1 "credit" 100 None "parent" 7
    (Some (mk_datetime (Family.now - 3 * seconds_per_day) None)) (Some 2).

Definition VIEW : string := "view_transactions".
Definition FREEZE : string := "freeze_child".
Definition SETTINGS : string := "manage_child_settings".

(** The guest as a user holding the view, freeze and settings
    permissions; the guest's link to the child carries none of them. *)
Definition onlooker : User := mk_User 8 "parent" [VIEW; FREEZE; SETTINGS].

(** The account shown in a [ChildRead]: the first account of the child. *)
Definition first_account (db : DB) (cid : Z) : option Account :=
  find (fun a => acc_child_id a =? cid) (accounts db).

(** A rate of three per cent for the savings account, and for an account
    type no child has. *)
Definition savings_rate : InterestRateUpdate :=
  parse_InterestRateUpdate (3 # 100) (Some "savings"%string).
Definition cd_rate : InterestRateUpdate :=
  parse_InterestRateUpdate (3 # 100) (Some "cd"%string).

End Cases.

(* ------------------------------------------------------------------ *)
(** *** Tables of an install that predates account types *)

Module Legacy.

(** The single account of child 1, without a type. *)
Definition lone_account : AccountRow :=
  mk_AccountRow 1 1 None (1 # 100) None 0 (2 # 100) (1 # 10) None 0
                None None false.

(** Child 1 with its account and child 2 with none; one transaction of
    each, neither naming an account; no settings row. *)
Definition tables : Tables :=
  mk_Tables [1; 2] [lone_account]
            [mk_TransactionRow 1 1 None; mk_TransactionRow 2 2 None]
            None.

End Legacy.

(** Tables the accrual engine never writes. *)
Definition same_frame (db db' : DB) : Prop :=
  children db' = children db
  /\ links db' = links db
  /\ withdrawal_requests db' = withdrawal_requests db
  /\ rate_history db' = rate_history db.

(* ================================================================== *)
(** * Properties *)

(** ** Basic facts *)

Lemma Qgtb_true (a b : Q) : Qgtb a b = true <-> (b < a)%Q.
Proof.
  unfold Qgtb. rewrite negb_true_iff. split.
  - intros H. apply Qnot_le_lt. intros Hle.
    apply Qle_bool_iff in Hle. congruence.
  - intros H. destruct (Qle_bool a b) eqn:E; [|reflexivity].
    apply Qle_bool_iff in E. exfalso. exact (Qlt_not_le _ _ H E).
Qed.

Lemma Qgtb_false (a b : Q) : Qgtb a b = false <-> (a <= b)%Q.
Proof.
  unfold Qgtb. rewrite negb_false_iff. apply Qle_bool_iff.
Qed.

Lemma same_frame_refl (db : DB) : same_frame db db.
Proof. repeat split. Qed.

Lemma same_frame_trans (a b c : DB) :
  same_frame a b -> same_frame b c -> same_frame a c.
Proof.
  unfold same_frame. intros (H1 & H2 & H3 & H4) (K1 & K2 & K3 & K4).
  repeat split; congruence.
Qed.

Lemma post_interest_frame (db : DB) (aid day : Z) :
  same_frame db (post_interest db aid day).
Proof.
  unfold post_interest. destruct (get_account db aid); repeat split.
Qed.

Lemma accrue_frame (n : nat) : forall db aid day,
  same_frame db (accrue n db aid day).
Proof.
  induction n as [|n IH]; intros db aid day; simpl.
  - apply same_frame_refl.
  - eapply same_frame_trans; [apply post_interest_frame | apply IH].
Qed.

Lemma recalc_interest_frame (now : Z) (db : DB) (aid : Z) :
  same_frame db (recalc_interest now db aid).
Proof.
  unfold recalc_interest. destruct (get_account db aid).
  - apply accrue_frame.
  - apply same_frame_refl.
Qed.

Lemma post_transaction_update_frame (now : Z) (db : DB) (cid : Z) :
  same_frame db (post_transaction_update now db cid).
Proof.
  unfold post_transaction_update.
  generalize (filter (fun a => acc_child_id a =? cid) (accounts db)).
  intros l. revert db. induction l as [|a l IH]; intros db; simpl.
  - apply same_frame_refl.
  - eapply same_frame_trans; [apply recalc_interest_frame | apply IH].
Qed.

Lemma post_transaction_update_requests (now : Z) (db : DB) (cid : Z) :
  withdrawal_requests (post_transaction_update now db cid)
  = withdrawal_requests db.
Proof. apply post_transaction_update_frame. Qed.

(** The ledger only grows under accrual. *)
Lemma post_interest_appends (db : DB) (aid day : Z) :
  exists news, transactions (post_interest db aid day) = transactions db ++ news.
Proof.
  unfold post_interest. destruct (get_account db aid).
  - eexists. simpl. reflexivity.
  - exists []. now rewrite app_nil_r.
Qed.

Lemma accrue_appends (n : nat) : forall db aid day,
  exists news, transactions (accrue n db aid day) = transactions db ++ news.
Proof.
  induction n as [|n IH]; intros db aid day; simpl.
  - exists []. now rewrite app_nil_r.
  - destruct (post_interest_appends db aid day) as [l1 H1].
    destruct (IH (post_interest db aid day) aid (day + 1)) as [l2 H2].
    exists (l1 ++ l2). rewrite H2, H1. now rewrite app_assoc.
Qed.

Lemma recalc_interest_appends (now : Z) (db : DB) (aid : Z) :
  exists news, transactions (recalc_interest now db aid) = transactions db ++ news.
Proof.
  unfold recalc_interest. destruct (get_account db aid).
  - apply accrue_appends.
  - exists []. now rewrite app_nil_r.
Qed.

Lemma post_transaction_update_appends (now : Z) (db : DB) (cid : Z) :
  exists news,
    transactions (post_transaction_update now db cid) = transactions db ++ news.
Proof.
  unfold post_transaction_update.
  generalize (filter (fun a => acc_child_id a =? cid) (accounts db)).
  intros l. revert db. induction l as [|a l IH]; intros db; simpl.
  - exists []. now rewrite app_nil_r.
  - destruct (recalc_interest_appends now db (account_id a)) as [l1 H1].
    destruct (IH (recalc_interest now db (account_id a))) as [l2 H2].
    exists (l1 ++ l2). rewrite H2, H1. now rewrite app_assoc.
Qed.

(** Looking a saved request up again. *)
Lemma find_map_replace (rid : Z) (req' : WithdrawalRequest)
    (l : list WithdrawalRequest) (req : WithdrawalRequest) :
  wr_id req' = rid ->
  find (fun r => wr_id r =? rid) l = Some req ->
  find (fun r => wr_id r =? rid)
       (map (fun r => if wr_id r =? wr_id req' then req' else r) l) = Some req'.
Proof.
  intros Hid. subst rid. induction l as [|h t IH]; simpl; [discriminate|].
  destruct (wr_id h =? wr_id req') eqn:E.
  - intros _. rewrite Z.eqb_refl. reflexivity.
  - rewrite E. exact IH.
Qed.

Lemma get_withdrawal_request_id (db : DB) (rid : Z) (req : WithdrawalRequest) :
  get_withdrawal_request db rid = Some req -> wr_id req = rid.
Proof.
  unfold get_withdrawal_request. intros H.
  apply find_some in H. destruct H as [_ H]. now apply Z.eqb_eq in H.
Qed.

Lemma get_after_save (db : DB) (rid : Z) (req req' : WithdrawalRequest) :
  wr_id req' = rid ->
  get_withdrawal_request db rid = Some req ->
  get_withdrawal_request (save_withdrawal_request db req') rid = Some req'.
Proof.
  intros Hid H. unfold get_withdrawal_request, save_withdrawal_request. simpl.
  eapply find_map_replace; eauto.
Qed.

(* ================================================================== *)
(** ** Withdrawal request workflow *)

Ltac unfold_handler :=
  unfold bind, query, update, raise_if, raise, ret in *.

Lemma status_not_pending (req : WithdrawalRequest) :
  wr_status req <> "pending"%string ->
  negb (wr_status req =? "pending")%string = true.
Proof.
  intros H. apply negb_true_iff. now apply String.eqb_neq.
Qed.

Lemma get_withdrawal_request_frame (db db' : DB) (rid : Z) :
  withdrawal_requests db' = withdrawal_requests db ->
  get_withdrawal_request db' rid = get_withdrawal_request db rid.
Proof. unfold get_withdrawal_request. now intros ->. Qed.

Section WithdrawalProperties.

Variable PERM_MANAGE_WITHDRAWALS : string.

Local Abbreviation approve := (approve_request PERM_MANAGE_WITHDRAWALS).
Local Abbreviation deny := (deny_request PERM_MANAGE_WITHDRAWALS).
Local Abbreviation run := (run_op PERM_MANAGE_WITHDRAWALS).

(** The two gates of approve and deny only read the store. *)
Lemma ensure_parent_owns_read_only (req : WithdrawalRequest) (uid : Z) (db : DB) :
  snd (_ensure_parent_owns_request req uid db) = db.
Proof.
  unfold _ensure_parent_owns_request. unfold_handler.
  destruct (negb _); reflexivity.
Qed.

Lemma check_manage_withdrawals_read_only
    (req : WithdrawalRequest) (u : User) (db : DB) :
  snd (check_manage_withdrawals PERM_MANAGE_WITHDRAWALS req u db) = db.
Proof.
  unfold check_manage_withdrawals. unfold_handler.
  destruct (negb (role u =? "admin")%string); [|reflexivity].
  destruct (get_child_user_link _ _ _); [|reflexivity].
  destruct (_ && _); reflexivity.
Qed.

Lemma run_op_missing (now rid : Z) (op : WithdrawalOp) (db : DB) :
  get_withdrawal_request db rid = None ->
  run now rid op db = (Raised (http 404 RequestNotFound), db).
Proof.
  intros H. destruct op; simpl;
    unfold approve_request, deny_request, cancel_request; unfold_handler;
    rewrite H; reflexivity.
Qed.

Lemma run_op_not_pending (now rid : Z) (op : WithdrawalOp) (db : DB)
    (req : WithdrawalRequest) :
  get_withdrawal_request db rid = Some req ->
  wr_status req <> "pending"%string ->
  run now rid op db = (Raised (http 404 RequestNotFound), db).
Proof.
  intros H Hs. apply status_not_pending in Hs.
  destruct op; simpl;
    unfold approve_request, deny_request, cancel_request; unfold_handler;
    rewrite H, Hs; reflexivity.
Qed.

Lemma approve_ok_inv (now rid : Z) (u : User) (db db' : DB)
    (req r : WithdrawalRequest) :
  get_withdrawal_request db rid = Some req ->
  approve now rid u db = (Ok r, db') ->
  wr_status req = "pending"%string
  /\ r = set_approved req now (user_id u)
  /\ get_withdrawal_request db' rid = Some r.
Proof.
  intros Hget H. unfold approve_request in H.
  unfold bind at 1 in H. unfold query at 1 in H. rewrite Hget in H.
  unfold bind at 1 in H. unfold raise_if at 1 in H.
  destruct (negb (wr_status req =? "pending")%string) eqn:Hp;
    [discriminate H|].
  apply negb_false_iff, String.eqb_eq in Hp.
  unfold ret at 1 in H.
  unfold bind at 1 in H.
  pose proof (ensure_parent_owns_read_only req (user_id u) db) as R1.
  destruct (_ensure_parent_owns_request req (user_id u) db) as [[[]|e] d1];
    [|discriminate H]. simpl in R1. subst d1.
  unfold bind at 1 in H.
  pose proof (check_manage_withdrawals_read_only req u db) as R2.
  destruct (check_manage_withdrawals PERM_MANAGE_WITHDRAWALS req u db)
    as [[[]|e] d2]; [|discriminate H]. simpl in R2. subst d2.
  unfold_handler.
  destruct (get_account_by_child_and_type db (wr_child_id req)
              (wr_account_type req)) as [account|]; [|discriminate H].
  destruct (wr_account_type req =? "savings")%string.
  - destruct (Qgtb _ _); [discriminate H|].
    simpl in H. inversion H; subst. repeat split; auto.
    apply get_after_save with (req := req).
    + simpl. eapply get_withdrawal_request_id; eauto.
    + rewrite <- Hget. apply get_withdrawal_request_frame.
      now rewrite post_transaction_update_requests.
  - simpl in H. inversion H; subst. repeat split; auto.
    apply get_after_save with (req := req).
    + simpl. eapply get_withdrawal_request_id; eauto.
    + rewrite <- Hget. apply get_withdrawal_request_frame.
      now rewrite post_transaction_update_requests.
Qed.

Lemma deny_ok_inv (now rid : Z) (why : DenyRequest) (u : User) (db db' : DB)
    (req r : WithdrawalRequest) :
  get_withdrawal_request db rid = Some req ->
  deny now rid why u db = (Ok r, db') ->
  wr_status req = "pending"%string
  /\ r = set_denied req now (user_id u) (reason why)
  /\ get_withdrawal_request db' rid = Some r.
Proof.
  intros Hget H. unfold deny_request in H.
  unfold bind at 1 in H. unfold query at 1 in H. rewrite Hget in H.
  unfold bind at 1 in H. unfold raise_if at 1 in H.
  destruct (negb (wr_status req =? "pending")%string) eqn:Hp;
    [discriminate H|].
  apply negb_false_iff, String.eqb_eq in Hp.
  unfold ret at 1 in H.
  unfold bind at 1 in H.
  pose proof (ensure_parent_owns_read_only req (user_id u) db) as R1.
  destruct (_ensure_parent_owns_request req (user_id u) db) as [[[]|e] d1];
    [|discriminate H]. simpl in R1. subst d1.
  unfold bind at 1 in H.
  pose proof (check_manage_withdrawals_read_only req u db) as R2.
  destruct (check_manage_withdrawals PERM_MANAGE_WITHDRAWALS req u db)
    as [[[]|e] d2]; [|discriminate H]. simpl in R2. subst d2.
  unfold_handler. inversion H; subst. repeat split; auto.
  apply get_after_save with (req := req); auto.
  simpl. eapply get_withdrawal_request_id; eauto.
Qed.

Lemma cancel_ok_inv (now rid : Z) (c : Child) (db db' : DB)
    (req r : WithdrawalRequest) :
  get_withdrawal_request db rid = Some req ->
  cancel_request now rid c db = (Ok r, db') ->
  wr_status req = "pending"%string
  /\ wr_child_id req = child_id c
  /\ r = set_cancelled req now
  /\ get_withdrawal_request db' rid = Some r.
Proof.
  intros Hget H. unfold cancel_request in H. unfold_handler.
  rewrite Hget in H.
  destruct (negb (wr_status req =? "pending")%string
            || negb (wr_child_id req =? child_id c)) eqn:Hp;
    [discriminate H|].
  apply orb_false_iff in Hp. destruct Hp as [Hp Hc].
  apply negb_false_iff, String.eqb_eq in Hp.
  apply negb_false_iff, Z.eqb_eq in Hc.
  inversion H; subst. repeat split; auto.
  apply get_after_save with (req := req); auto.
  simpl. eapply get_withdrawal_request_id; eauto.
Qed.

Lemma run_op_ok_inv (now rid : Z) (op : WithdrawalOp) (db db' : DB)
    (req r : WithdrawalRequest) :
  get_withdrawal_request db rid = Some req ->
  run now rid op db = (Ok r, db') ->
  wr_status req = "pending"%string
  /\ wr_status r = target_status op
  /\ get_withdrawal_request db' rid = Some r.
Proof.
  intros Hget H. destruct op; simpl in H.
  - destruct (approve_ok_inv _ _ _ _ _ _ _ Hget H) as (A & B & C).
    subst r. auto.
  - destruct (deny_ok_inv _ _ _ _ _ _ _ _ Hget H) as (A & B & C).
    subst r. auto.
  - destruct (cancel_ok_inv _ _ _ _ _ _ _ Hget H) as (A & _ & B & C).
    subst r. auto.
Qed.

Lemma target_status_terminal (op : WithdrawalOp) :
  target_status op <> "pending"%string.
Proof. destruct op; discriminate. Qed.

(** C3.  A filed request leaves [pending] at most once: an approve, deny
    or cancel on a request that is not pending raises (404, "Request not
    found") and leaves the store as it was; an operation that succeeds
    found the request pending and stores it approved, denied or cancelled
    respectively (cancel only for the child that owns it); after which
    every further operation on it is refused. *)
Theorem withdrawal_request_transitions
    (now rid : Z) (db : DB) (req : WithdrawalRequest) :
  get_withdrawal_request db rid = Some req ->
  (wr_status req <> "pending"%string ->
   forall now' op,
     run now' rid op db = (Raised (http 404 RequestNotFound), db))
  /\ (forall op r db',
        run now rid op db = (Ok r, db') ->
        wr_status req = "pending"%string
        /\ wr_status r = target_status op
        /\ In (wr_status r) ["approved"; "denied"; "cancelled"]%string
        /\ get_withdrawal_request db' rid = Some r
        /\ (forall c, op = OpCancel c -> wr_child_id req = child_id c)
        /\ (forall now' op',
              run now' rid op' db' = (Raised (http 404 RequestNotFound), db'))).
Proof.
  intros Hget. split.
  - intros Hs now' op. eapply run_op_not_pending; eauto.
  - intros op r db' H.
    destruct (run_op_ok_inv _ _ _ _ _ _ _ Hget H) as (A & B & C).
    repeat split; auto.
    + rewrite B. destruct op; simpl; auto.
    + intros c ->. simpl in H.
      now destruct (cancel_ok_inv _ _ _ _ _ _ _ Hget H) as (_ & D & _).
    + intros now' op'. eapply run_op_not_pending; eauto.
      rewrite B. apply target_status_terminal.
Qed.

End WithdrawalProperties.

(* ------------------------------------------------------------------ *)
(** *** Filing a request *)

(** [request_withdrawal] as a decision chain over the store. *)
Lemma request_withdrawal_unfold
    (now : Z) (data : WithdrawalRequestCreate) (child : Child) (db : DB) :
  request_withdrawal now data child db =
  let ty := effective_account_type data in
  if (ty =? "college_savings")%string
  then (Raised (http 403 CollegeSavingsAdminOnly), db)
  else
    match get_account_by_child_and_type db (child_id child) ty with
    | None => (Raised (http 404 (AccountTypeNotFound ty)), db)
    | Some account =>
        let limit :=
          if (ty =? "savings")%string
          then calculate_available_balance now db (account_id account)
          else calculate_balance db (account_id account) in
        if Qgtb (wrc_amount data) limit
        then (Raised (http 400 (if (ty =? "savings")%string
                                then InsufficientAvailableBalance limit
                                else InsufficientBalance)), db)
        else
          let '(row, db') :=
            create_withdrawal_request db
              (new_WithdrawalRequest now (child_id child) ty
                                     (wrc_amount data) (wrc_memo data)) in
          (Ok row, db')
    end.
Proof.
  unfold request_withdrawal. unfold_handler. cbv zeta.
  destruct (effective_account_type data =? "college_savings")%string;
    [reflexivity|].
  destruct (get_account_by_child_and_type db (child_id child)
              (effective_account_type data)); [|reflexivity].
  destruct (effective_account_type data =? "savings")%string;
    destruct (Qgtb _ _); reflexivity.
Qed.

(** C2.  A child's request against [college_savings] is refused with
    403; a savings request above the available balance is refused with
    400 ("Insufficient available balance") and a checking request above
    the balance with 400 ("Insufficient balance"), the store being left
    as it was, so no request row exists; a savings or checking request
    within the limit appends one request row in status [pending]. *)
Theorem request_withdrawal_outcomes
    (now : Z) (data : WithdrawalRequestCreate) (child : Child) (db : DB) :
  let ty := effective_account_type data in
  let filed row :=
    request_withdrawal now data child db
    = (Ok row, with_withdrawal_requests db (withdrawal_requests db ++ [row]))
    /\ wr_status row = "pending"%string
    /\ wr_child_id row = child_id child
    /\ wr_account_type row = ty
    /\ wr_amount row = wrc_amount data in
  (ty = "college_savings"%string ->
   request_withdrawal now data child db
   = (Raised (http 403 CollegeSavingsAdminOnly), db))
  /\ (forall account,
        ty = "savings"%string ->
        get_account_by_child_and_type db (child_id child) ty = Some account ->
        let available := calculate_available_balance now db (account_id account) in
        ((available < wrc_amount data)%Q ->
         request_withdrawal now data child db
         = (Raised (http 400 (InsufficientAvailableBalance available)), db))
        /\ ((wrc_amount data <= available)%Q -> exists row, filed row))
  /\ (forall account,
        ty = "checking"%string ->
        get_account_by_child_and_type db (child_id child) ty = Some account ->
        let balance := calculate_balance db (account_id account) in
        ((balance < wrc_amount data)%Q ->
         request_withdrawal now data child db
         = (Raised (http 400 InsufficientBalance), db))
        /\ ((wrc_amount data <= balance)%Q -> exists row, filed row)).
Proof.
  intros ty filed. subst filed. cbv zeta.
  rewrite request_withdrawal_unfold. cbv zeta. fold ty.
  split; [|split].
  - intros E. rewrite E. reflexivity.
  - intros account E Hacc. rewrite Hacc. rewrite E. simpl String.eqb. cbv iota.
    split.
    + intros Hlt. apply Qgtb_true in Hlt. rewrite Hlt. reflexivity.
    + intros Hle. apply Qgtb_false in Hle. rewrite Hle.
      eexists. repeat split.
  - intros account E Hacc. rewrite Hacc. rewrite E. simpl String.eqb. cbv iota.
    split.
    + intros Hlt. apply Qgtb_true in Hlt. rewrite Hlt. reflexivity.
    + intros Hle. apply Qgtb_false in Hle. rewrite Hle.
      eexists. repeat split.
Qed.

(* ------------------------------------------------------------------ *)
(** *** Approving a request *)

Section ApprovalProperties.

Variable PERM_MANAGE_WITHDRAWALS : string.

Local Abbreviation approve := (approve_request PERM_MANAGE_WITHDRAWALS).
Local Abbreviation allowed := (may_respond PERM_MANAGE_WITHDRAWALS).

(** [approve_request] as a decision chain over the store. *)
Lemma approve_request_unfold (now rid : Z) (u : User) (db : DB) :
  approve now rid u db =
  match get_withdrawal_request db rid with
  | None => (Raised (http 404 RequestNotFound), db)
  | Some req =>
      if negb (wr_status req =? "pending")%string
      then (Raised (http 404 RequestNotFound), db)
      else
        match fst (_ensure_parent_owns_request req (user_id u) db) with
        | Raised e => (Raised e, db)
        | Ok _ =>
            match fst (check_manage_withdrawals
                         PERM_MANAGE_WITHDRAWALS req u db) with
            | Raised e => (Raised e, db)
            | Ok _ =>
                match get_account_by_child_and_type
                        db (wr_child_id req) (wr_account_type req) with
                | None => (Raised (http 404 AccountNotFound), db)
                | Some account =>
                    let available :=
                      calculate_available_balance now db (account_id account) in
                    if (wr_account_type req =? "savings")%string
                       && Qgtb (wr_amount req) available
                    then (Raised (http 400 (InsufficientAvailableBalance
                                              available)), db)
                    else
                      let req' := set_approved req now (user_id u) in
                      (Ok req',
                       save_withdrawal_request
                         (post_transaction_update now
                            (with_transactions db
                               (transactions db
                                ++ [approval_debit now db req account]))
                            (wr_child_id req))
                         req')
                end
            end
        end
  end.
Proof.
  unfold approve_request.
  unfold bind at 1. unfold query at 1.
  destruct (get_withdrawal_request db rid) as [req|]; [|reflexivity].
  unfold bind at 1. unfold raise_if at 1.
  destruct (negb (wr_status req =? "pending")%string); [reflexivity|].
  unfold ret at 1. unfold bind at 1.
  pose proof (ensure_parent_owns_read_only req (user_id u) db) as R1.
  destruct (_ensure_parent_owns_request req (user_id u) db) as [[[]|e] d1];
    simpl in R1; subst d1; [|reflexivity].
  unfold bind at 1.
  pose proof (check_manage_withdrawals_read_only
                PERM_MANAGE_WITHDRAWALS req u db) as R2.
  destruct (check_manage_withdrawals PERM_MANAGE_WITHDRAWALS req u db)
    as [[[]|e] d2]; simpl in R2; subst d2; [|reflexivity].
  simpl fst. cbv iota. unfold_handler.
  destruct (get_account_by_child_and_type db (wr_child_id req)
              (wr_account_type req)) as [account|]; [|reflexivity].
  cbv zeta.
  destruct (wr_account_type req =? "savings")%string; simpl andb.
  - destruct (Qgtb _ _); reflexivity.
  - reflexivity.
Qed.

Lemma approve_authorized (now rid : Z) (u : User) (db : DB)
    (req : WithdrawalRequest) (account : Account) :
  get_withdrawal_request db rid = Some req ->
  wr_status req = "pending"%string ->
  get_account_by_child_and_type db (wr_child_id req) (wr_account_type req)
  = Some account ->
  allowed req u db ->
  approve now rid u db =
  let available := calculate_available_balance now db (account_id account) in
  if (wr_account_type req =? "savings")%string
     && Qgtb (wr_amount req) available
  then (Raised (http 400 (InsufficientAvailableBalance available)), db)
  else
    let req' := set_approved req now (user_id u) in
    (Ok req',
     save_withdrawal_request
       (post_transaction_update now
          (with_transactions db
             (transactions db ++ [approval_debit now db req account]))
          (wr_child_id req))
       req').
Proof.
  intros Hget Hp Hacc [A1 A2].
  rewrite approve_request_unfold, Hget, Hp, A1, A2, Hacc. reflexivity.
Qed.

Lemma debit_posted (now : Z) (db : DB) (req : WithdrawalRequest)
    (account : Account) (req' : WithdrawalRequest) :
  In (approval_debit now db req account)
     (transactions
        (save_withdrawal_request
           (post_transaction_update now
              (with_transactions db
                 (transactions db ++ [approval_debit now db req account]))
              (wr_child_id req))
           req')).
Proof.
  simpl.
  destruct (post_transaction_update_appends now
              (with_transactions db
                 (transactions db ++ [approval_debit now db req account]))
              (wr_child_id req)) as [news ->].
  simpl. rewrite !in_app_iff. left. right. now left.
Qed.

(** C1 (as amended).  Approval re-validates savings requests only.  For
    a pending savings request whose amount exceeds the available balance
    at approval time, approve fails for every caller and leaves the store
    as it was, so the request stays pending and no debit is posted; for a
    caller who passes the ownership and permission gates the failure is
    400 ("Insufficient available balance").  For a pending request on any
    other account type no balance is consulted: an authorized approval
    posts the debit and marks the request approved. *)
Theorem approve_revalidates_savings_only
    (now rid : Z) (db : DB) (req : WithdrawalRequest) (account : Account) :
  get_withdrawal_request db rid = Some req ->
  wr_status req = "pending"%string ->
  get_account_by_child_and_type db (wr_child_id req) (wr_account_type req)
  = Some account ->
  let available := calculate_available_balance now db (account_id account) in
  (wr_account_type req = "savings"%string ->
   (available < wr_amount req)%Q ->
   forall u,
     (exists e, approve now rid u db = (Raised e, db))
     /\ (allowed req u db ->
         approve now rid u db
         = (Raised (http 400 (InsufficientAvailableBalance available)), db)))
  /\ (wr_account_type req <> "savings"%string ->
      forall u,
        allowed req u db ->
        exists db',
          approve now rid u db = (Ok (set_approved req now (user_id u)), db')
          /\ In (approval_debit now db req account) (transactions db')
          /\ get_withdrawal_request db' rid
             = Some (set_approved req now (user_id u))).
Proof.
  intros Hget Hp Hacc available. split.
  - intros Hty Hlt u. apply Qgtb_true in Hlt. split.
    + rewrite approve_request_unfold, Hget, Hp. simpl negb. cbv iota.
      destruct (fst (_ensure_parent_owns_request req (user_id u) db));
        [|eexists; reflexivity].
      destruct (fst (check_manage_withdrawals _ req u db));
        [|eexists; reflexivity].
      rewrite Hacc. cbv zeta. fold available. rewrite Hty, Hlt.
      eexists; reflexivity.
    + intros Hok.
      rewrite (approve_authorized now rid u db req account Hget Hp Hacc Hok).
      cbv zeta. fold available. rewrite Hty, Hlt. reflexivity.
  - intros Hty u Hok. apply String.eqb_neq in Hty.
    rewrite (approve_authorized now rid u db req account Hget Hp Hacc Hok).
    cbv zeta. rewrite Hty. simpl andb. cbv iota.
    eexists. split; [reflexivity|]. split.
    + apply debit_posted.
    + apply get_after_save with (req := req).
      * simpl. eapply get_withdrawal_request_id; eauto.
      * rewrite <- Hget. apply get_withdrawal_request_frame.
        now rewrite post_transaction_update_requests.
Qed.

End ApprovalProperties.

(** C1, as stated, fails on checking: with ten units in checking, the
    approval of a pending request for fifty goes through, the debit is
    posted and the request is marked approved. *)
Lemma approve_checking_beyond_balance :
  let db := Family.overdraw_db in
  let req := Family.pending_request "checking" 50 in
  get_withdrawal_request db 1 = Some req
  /\ wr_status req = "pending"%string
  /\ get_account_by_child_and_type db 1 "checking" = Some Family.checking
  /\ (calculate_balance db 1 < wr_amount req)%Q
  /\ exists db',
       approve_request Family.MANAGE Family.now 1 Family.parent db
       = (Ok (set_approved req Family.now 7), db')
       /\ In (approval_debit Family.now db req Family.checking)
             (transactions db').
Proof.
  cbv zeta. repeat split.
  eexists. split.
  - vm_compute. reflexivity.
  - vm_compute. right. left. reflexivity.
Qed.

Lemma approve_revalidates_savings_only_witness :
  let db := Family.short_savings_db in
  let req := Family.pending_request "savings" 50 in
  approve_request Family.MANAGE Family.now 1 Family.parent db
  = (Raised (http 400 (InsufficientAvailableBalance
                         (calculate_available_balance Family.now db 2))), db).
Proof.
  cbv zeta.
  refine (proj2 (proj1 (approve_revalidates_savings_only
            Family.MANAGE Family.now 1 Family.short_savings_db
            (Family.pending_request "savings" 50) Family.savings
            eq_refl eq_refl eq_refl) eq_refl _ Family.parent) _).
  - vm_compute. reflexivity.
  - split; reflexivity.
Defined.

(* ================================================================== *)
(** ** Recording a transaction *)

Section LedgerAppendProperties.

Variables PERM_DEPOSIT PERM_DEBIT : string.

Local Abbreviation add := (add_transaction PERM_DEPOSIT PERM_DEBIT).
Local Abbreviation gate := (check_add_transaction PERM_DEPOSIT PERM_DEBIT).

Lemma check_add_transaction_read_only
    (tc : TransactionCreate) (u : User) (db : DB) :
  snd (gate tc u db) = db.
Proof.
  unfold check_add_transaction. unfold_handler.
  destruct (negb (role u =? "admin")%string); [|reflexivity].
  destruct (_ && _); [reflexivity|].
  destruct (_ && _); [reflexivity|].
  destruct (get_child_user_link _ _ _); [|reflexivity].
  destruct (_ && _); reflexivity.
Qed.

Lemma check_timestamp_read_only
    (now : Z) (tc : TransactionCreate) (u : User) (ts : datetime) (db : DB) :
  snd (check_timestamp now tc u ts db) = db.
Proof.
  unfold check_timestamp. unfold_handler.
  destruct (negb _); [reflexivity|].
  destruct (dt_gtb _ _); [reflexivity|].
  destruct (get_child db (tc_child_id tc)); [|reflexivity].
  destruct (dt_ltb _ _); reflexivity.
Qed.

(** [add_transaction] as a decision chain over the store: three
    read-only stages, then the insert and the accrual hook. *)
Lemma add_transaction_unfold
    (now : Z) (tc : TransactionCreate) (u : User) (db : DB) :
  add now tc u db =
  match fst (gate tc u db) with
  | Raised e => (Raised e, db)
  | Ok _ =>
      match timestamp_stage now tc u db with
      | Raised e => (Raised e, db)
      | Ok timestamp =>
          match resolve_account_id db tc with
          | Raised e => (Raised e, db)
          | Ok aid =>
              let row := stored_transaction now db tc aid timestamp in
              (Ok row,
               post_transaction_update now
                 (with_transactions db (transactions db ++ [row]))
                 (tc_child_id tc))
          end
      end
  end.
Proof.
  unfold add_transaction.
  unfold bind at 1.
  pose proof (check_add_transaction_read_only tc u db) as R1.
  destruct (check_add_transaction PERM_DEPOSIT PERM_DEBIT tc u db)
    as [[[]|e] d1]; simpl in R1; subst d1; [|reflexivity].
  simpl fst. cbv iota.
  unfold timestamp_stage, resolve_account_id, stored_transaction.
  destruct (tc_timestamp tc) as [ts|].
  - unfold bind at 1. unfold bind at 1.
    pose proof (check_timestamp_read_only now tc u ts db) as R2.
    destruct (check_timestamp now tc u ts db) as [[ts'|e] d2];
      simpl in R2; subst d2; [|reflexivity].
    simpl fst. cbv iota. unfold_handler.
    destruct (tc_account_id tc) as [i|].
    + destruct (i =? 0).
      * destruct (get_checking_account_by_child db (tc_child_id tc));
          reflexivity.
      * reflexivity.
    + destruct (get_checking_account_by_child db (tc_child_id tc));
        reflexivity.
  - unfold_handler.
    destruct (tc_account_id tc) as [i|].
    + destruct (i =? 0).
      * destruct (get_checking_account_by_child db (tc_child_id tc));
          reflexivity.
      * reflexivity.
    + destruct (get_checking_account_by_child db (tc_child_id tc));
        reflexivity.
Qed.

Lemma stored_row_in_ledger (now : Z) (db : DB) (row : Transaction) (cid : Z) :
  In row (transactions
            (post_transaction_update now
               (with_transactions db (transactions db ++ [row])) cid)).
Proof.
  destruct (post_transaction_update_appends now
              (with_transactions db (transactions db ++ [row])) cid)
    as [news ->].
  simpl. rewrite !in_app_iff. left. right. now left.
Qed.

(** The checks of [add_transaction] never look at the amount. *)
Lemma stages_ignore_amount
    (now : Z) (tc : TransactionCreate) (q : Q) (u : User) (db : DB) :
  fst (gate (set_amount tc q) u db) = fst (gate tc u db)
  /\ timestamp_stage now (set_amount tc q) u db = timestamp_stage now tc u db
  /\ resolve_account_id db (set_amount tc q) = resolve_account_id db tc.
Proof. repeat split. Qed.

(** C8 (as amended).  [add_transaction] has no check on the amount.
    Every failure it reports is raised before the first write and leaves
    the store as it was; a call that succeeds has appended a row carrying
    the amount as given; and replacing the amount by any other, positive
    or not, changes neither whether the call fails nor the error. *)
Theorem add_transaction_amount_unchecked
    (now : Z) (tc : TransactionCreate) (u : User) (db : DB) :
  (forall e db', add now tc u db = (Raised e, db') -> db' = db)
  /\ (forall row db',
        add now tc u db = (Ok row, db') ->
        tx_amount row = tc_amount tc /\ In row (transactions db'))
  /\ (forall q,
        match fst (add now tc u db), fst (add now (set_amount tc q) u db) with
        | Raised e, Raised e' => e = e'
        | Ok _, Ok row' => tx_amount row' = q
        | _, _ => False
        end).
Proof.
  split; [|split].
  - intros e db' H. rewrite add_transaction_unfold in H.
    destruct (fst (gate tc u db)); [|now inversion H].
    destruct (timestamp_stage now tc u db); [|now inversion H].
    destruct (resolve_account_id db tc); [discriminate H|now inversion H].
  - intros row db' H. rewrite add_transaction_unfold in H.
    destruct (fst (gate tc u db)); [|discriminate H].
    destruct (timestamp_stage now tc u db); [|discriminate H].
    destruct (resolve_account_id db tc); [|discriminate H].
    cbv zeta in H. inversion H; subst. split; [reflexivity|].
    apply stored_row_in_ledger.
  - intros q. rewrite !add_transaction_unfold.
    destruct (stages_ignore_amount now tc q u db) as (-> & -> & ->).
    destruct (fst (gate tc u db)); [|reflexivity].
    destruct (timestamp_stage now tc u db); [|reflexivity].
    destruct (resolve_account_id db tc); reflexivity.
Qed.

Lemma instant_assume_utc (d : datetime) : instant (assume_utc d) = instant d.
Proof.
  unfold assume_utc, instant. destruct d as [w [off|]]; simpl; lia.
Qed.

Lemma dt_wall_assume_utc (d : datetime) : dt_wall (assume_utc d) = dt_wall d.
Proof. unfold assume_utc. destruct (dt_tzinfo d); reflexivity. Qed.

(** The timestamp stage for a parent or admin and a registered child. *)
Lemma timestamp_stage_decides
    (now : Z) (tc : TransactionCreate) (u : User) (db : DB)
    (ts : datetime) (child : Child) :
  role u = "admin"%string \/ role u = "parent"%string ->
  tc_timestamp tc = Some ts ->
  get_child db (tc_child_id tc) = Some child ->
  timestamp_stage now tc u db =
  if now <? instant ts then Raised (http 400 TimestampInFuture)
  else if instant ts <? instant (created_at child)
       then Raised (http 400 TimestampBeforeCreation)
       else Ok (Some (assume_utc ts)).
Proof.
  intros Hrole Hts Hchild.
  unfold timestamp_stage, check_timestamp. rewrite Hts. unfold_handler.
  replace (negb ((role u =? "admin")%string || (role u =? "parent")%string))
    with false by (destruct Hrole as [-> | ->]; reflexivity).
  cbv zeta. unfold dt_gtb, dt_ltb.
  rewrite !instant_assume_utc.
  replace (instant (now_utc now)) with now by (unfold instant; simpl; lia).
  destruct (now <? instant ts); [reflexivity|].
  rewrite Hchild. rewrite !instant_assume_utc.
  destruct (instant ts <? instant (created_at child)); reflexivity.
Qed.

(** X25.  Validation of a caller-supplied timestamp: for a caller who passes
    the permission gate and may set timestamps, and a registered child,
    the call is refused with 400 on the timestamp exactly when the
    timestamp lies in the future or before the child's creation; a
    timestamp in between is accepted and the row stores its clock reading
    with the zone dropped. *)
Lemma add_transaction_timestamp_validation
    (now : Z) (tc : TransactionCreate) (u : User) (db : DB)
    (ts : datetime) (child : Child) :
  fst (gate tc u db) = Ok tt ->
  role u = "admin"%string \/ role u = "parent"%string ->
  tc_timestamp tc = Some ts ->
  get_child db (tc_child_id tc) = Some child ->
  ((exists d, In d [TimestampInFuture; TimestampBeforeCreation]
              /\ add now tc u db = (Raised (http 400 d), db))
   <-> (now < instant ts \/ instant ts < instant (created_at child)))
  /\ (instant (created_at child) <= instant ts <= now ->
      forall aid,
        resolve_account_id db tc = Ok aid ->
        exists row db',
          add now tc u db = (Ok row, db')
          /\ tx_timestamp row = dt_wall ts
          /\ tx_account_id row = aid
          /\ In row (transactions db')).
Proof.
  intros Hgate Hrole Hts Hchild.
  pose proof (timestamp_stage_decides now tc u db ts child Hrole Hts Hchild)
    as Hstage.
  split; [split|].
  - intros (d & Hd & H). rewrite add_transaction_unfold, Hgate, Hstage in H.
    destruct (now <? instant ts) eqn:E1; [left; lia|].
    destruct (instant ts <? instant (created_at child)) eqn:E2; [right; lia|].
    exfalso. destruct (resolve_account_id db tc) as [aid|e] eqn:E3.
    + discriminate H.
    + unfold resolve_account_id in E3.
      destruct (tc_account_id tc) as [i|];
        [destruct (i =? 0)|];
        try destruct (get_checking_account_by_child db (tc_child_id tc));
        try discriminate E3;
        inversion E3; subst e; inversion H; subst d;
        simpl in Hd; intuition discriminate.
  - intros Hbad. rewrite add_transaction_unfold, Hgate, Hstage.
    destruct (now <? instant ts) eqn:E1.
    + exists TimestampInFuture. split; [simpl; auto|reflexivity].
    + destruct (instant ts <? instant (created_at child)) eqn:E2.
      * exists TimestampBeforeCreation. split; [simpl; auto|reflexivity].
      * exfalso. lia.
  - intros Hin aid Hres. rewrite add_transaction_unfold, Hgate, Hstage, Hres.
    replace (now <? instant ts) with false by (symmetry; lia).
    replace (instant ts <? instant (created_at child)) with false
      by (symmetry; lia).
    cbv zeta. eexists. eexists. split; [reflexivity|].
    split; [|split].
    + simpl. apply dt_wall_assume_utc.
    + reflexivity.
    + apply stored_row_in_ledger.
Qed.




End LedgerAppendProperties.

(** C8, as stated, fails: a credit of minus five submitted by the parent
    is accepted and lands in the ledger with that amount. *)
Lemma add_transaction_accepts_negative_amount :
  (tc_amount Family.negative_credit <= 0)%Q
  /\ exists row db',
       add_transaction Family.DEPOSIT Family.DEBIT Family.now
                       Family.negative_credit Family.parent Family.empty_db
       = (Ok row, db')
       /\ tx_amount row = (-5 # 1)%Q
       /\ transactions db' = [row].
Proof.
  split; [discriminate|].
  eexists. eexists. split; [vm_compute; reflexivity|].
  split; reflexivity.
Qed.

(** C9, the failing run.  A credit stamped 13:00 at UTC+05:00 (08:00 UTC,
    between the child's creation and now) passes the validation, and the
    row is stored with the clock reading 13:00 and no zone; read back as
    naive UTC this is five hours after the instant supplied, and after
    [now]. *)
Lemma add_transaction_offset_timestamp :
  let ts := Family.offset_stamp in
  (instant (created_at Family.kid) <= instant ts <= Family.now)
  /\ exists row db',
       add_transaction Family.DEPOSIT Family.DEBIT Family.now
                       Family.offset_credit Family.parent Family.empty_db
       = (Ok row, db')
       /\ tx_timestamp row = instant ts + 18000
       /\ tx_timestamp row <> instant ts
       /\ Family.now < tx_timestamp row.
Proof.
  cbv zeta. split; [vm_compute; split; discriminate|].
  eexists. eexists. split; [vm_compute; reflexivity|].
  simpl. repeat split; vm_compute; congruence.
Qed.



(* ================================================================== *)
(** ** Ledger listing *)

Lemma tx_leb_chronological (a b : Transaction) :
  tx_leb a b = true <-> chronological a b.
Proof.
  unfold tx_leb, chronological.
  rewrite orb_true_iff, andb_true_iff, Z.ltb_lt, Z.eqb_eq, Z.leb_le.
  reflexivity.
Qed.

Lemma tx_leb_total (a b : Transaction) :
  tx_leb a b = false -> chronological b a.
Proof.
  unfold tx_leb, chronological. intros H.
  apply orb_false_iff in H. destruct H as [H1 H2].
  apply Z.ltb_ge in H1.
  destruct (Z.eq_dec (tx_timestamp a) (tx_timestamp b)) as [E|E].
  - rewrite E, Z.eqb_refl in H2. simpl in H2. apply Z.leb_gt in H2.
    right. split; [congruence | lia].
  - left. lia.
Qed.

Lemma chronological_trans (a b c : Transaction) :
  chronological a b -> chronological b c -> chronological a c.
Proof. unfold chronological. intros [H1|[H1 H1']] [H2|[H2 H2']]; lia. Qed.

Lemma insert_tx_perm (t : Transaction) (l : list Transaction) :
  Permutation (insert_tx t l) (t :: l).
Proof.
  induction l as [|h r IH]; simpl.
  - apply Permutation_refl.
  - destruct (tx_leb t h).
    + apply Permutation_refl.
    + apply perm_trans with (h :: t :: r).
      * now apply perm_skip.
      * apply perm_swap.
Qed.

Lemma sort_txs_perm (l : list Transaction) : Permutation (sort_txs l) l.
Proof.
  induction l as [|h r IH]; simpl.
  - apply perm_nil.
  - apply perm_trans with (h :: sort_txs r).
    + apply insert_tx_perm.
    + now apply perm_skip.
Qed.

Lemma insert_tx_sorted (t : Transaction) (l : list Transaction) :
  StronglySorted chronological l ->
  StronglySorted chronological (insert_tx t l).
Proof.
  induction l as [|h r IH]; simpl; intros Hs.
  - constructor; constructor.
  - destruct (tx_leb t h) eqn:E.
    + apply tx_leb_chronological in E.
      constructor; [assumption|]. constructor; [assumption|].
      inversion Hs as [|? ? _ Hall]; subst.
      eapply Forall_impl; [|exact Hall].
      intros x Hx. eapply chronological_trans; eauto.
    + apply tx_leb_total in E.
      inversion Hs as [|? ? Hr Hall]; subst.
      constructor; [now apply IH|].
      eapply Permutation_Forall.
      * apply Permutation_sym. apply insert_tx_perm.
      * constructor; assumption.
Qed.

Lemma sort_txs_sorted (l : list Transaction) :
  StronglySorted chronological (sort_txs l).
Proof.
  induction l as [|h r IH]; simpl.
  - constructor.
  - now apply insert_tx_sorted.
Qed.

Lemma account_txs_app (db : DB) (aid : Z) (news : list Transaction) :
  account_txs (with_transactions db (transactions db ++ news)) aid
  = account_txs db aid ++ filter (fun t => tx_account_id t =? aid) news.
Proof. unfold account_txs. simpl. apply filter_app. Qed.

(** C7.  The listing of an account is in chronological order, by
    timestamp ascending and by id among equal timestamps, and holds
    exactly the account's ledger entries, whatever the order they were
    inserted in.  In particular, after a credit stamped [now] ("Recent")
    and then a credit back-dated five days ("Old") are inserted into an
    account with no entries, the listing reads Old, Recent. *)
Theorem listing_is_chronological (db : DB) (aid : Z) :
  StronglySorted chronological (get_transactions_by_account db aid)
  /\ Permutation (get_transactions_by_account db aid) (account_txs db aid)
  /\ (forall now cid uid,
        account_txs db aid = [] ->
        let recent :=
          mk_Transaction 0 cid aid "credit" 100 (Some "Recent"%string)
                         now "parent" uid in
        let old :=
          mk_Transaction 0 cid aid "credit" 50 (Some "Old"%string)
                         (now - 5 * seconds_per_day) "parent" uid in
        let db1 := snd (create_transaction db recent) in
        let db2 := snd (create_transaction db1 old) in
        map tx_memo (account_txs db2 aid)
        = [Some "Recent"; Some "Old"]%string
        /\ map tx_memo (get_transactions_by_account db2 aid)
           = [Some "Old"; Some "Recent"]%string).
Proof.
  split; [|split].
  - apply sort_txs_sorted.
  - apply sort_txs_perm.
  - intros now cid uid Hempty. cbv zeta.
    unfold get_transactions_by_account, create_transaction. simpl snd.
    rewrite account_txs_app. simpl filter. rewrite Z.eqb_refl.
    rewrite account_txs_app. simpl filter. rewrite Z.eqb_refl.
    rewrite Hempty. simpl app. split; [reflexivity|].
    unfold sort_txs. cbn [fold_right insert_tx].
    match goal with
    | |- context [tx_leb ?a ?b] => assert (E : tx_leb a b = false)
    end.
    { unfold tx_leb. cbn [tx_timestamp]. apply orb_false_iff. split.
      - apply Z.ltb_ge. unfold seconds_per_day. lia.
      - apply andb_false_iff. left. apply Z.eqb_neq.
        unfold seconds_per_day. lia. }
    rewrite E. reflexivity.
Qed.

(* ================================================================== *)
(** ** Interest accrual *)

Lemma get_account_id (db : DB) (aid : Z) (a : Account) :
  get_account db aid = Some a -> account_id a = aid.
Proof.
  unfold get_account. intros H. apply find_some in H.
  destruct H as [_ H]. now apply Z.eqb_eq in H.
Qed.

Lemma get_account_update (db : DB) (aid aid' : Z) (f : Account -> Account) :
  (forall x, account_id (f x) = account_id x) ->
  get_account (update_account db aid' f) aid
  = option_map (fun x => if account_id x =? aid' then f x else x)
               (get_account db aid).
Proof.
  intros Hf. unfold get_account, update_account. simpl.
  induction (accounts db) as [|h t IH]; simpl; [reflexivity|].
  replace (account_id (if account_id h =? aid' then f h else h))
    with (account_id h) by (destruct (account_id h =? aid'); now rewrite ?Hf).
  destruct (account_id h =? aid); [reflexivity | exact IH].
Qed.

Lemma post_interest_account (db : DB) (aid day : Z) (a : Account) :
  get_account db aid = Some a ->
  get_account (post_interest db aid day) aid
  = Some (mark_accrued a day (interest_for db a day)).
Proof.
  intros Ha. unfold post_interest. rewrite Ha.
  rewrite get_account_update by reflexivity.
  unfold create_transaction. simpl snd.
  change (get_account (with_transactions db _) aid) with (get_account db aid).
  rewrite Ha. simpl. rewrite (get_account_id _ _ _ Ha), Z.eqb_refl.
  reflexivity.
Qed.

Lemma post_interest_transactions (db : DB) (aid day : Z) (a : Account) :
  get_account db aid = Some a ->
  transactions (post_interest db aid day)
  = transactions db
    ++ [mk_Transaction (next_id (map tx_id (transactions db)))
                       (acc_child_id a) aid "credit" (interest_for db a day)
                       (Some "Interest"%string) (end_of_day day)
                       "system" 0].
Proof. intros Ha. unfold post_interest. rewrite Ha. reflexivity. Qed.

(** After [S n] days of accrual from [day], the watermark is the last day
    walked. *)
Lemma accrue_watermark (n : nat) : forall db aid day a,
  get_account db aid = Some a ->
  exists a',
    get_account (accrue (S n) db aid day) aid = Some a'
    /\ last_interest_applied a' = Some (day + Z.of_nat n)
    /\ acc_child_id a' = acc_child_id a
    /\ account_id a' = account_id a.
Proof.
  induction n as [|n IH]; intros db aid day a Ha.
  - simpl. rewrite (post_interest_account _ _ _ _ Ha). eexists.
    split; [reflexivity|]. simpl. rewrite Z.add_0_r. auto.
  - change (accrue (S (S n)) db aid day)
      with (accrue (S n) (post_interest db aid day) aid (day + 1)).
    destruct (IH _ _ (day + 1) _ (post_interest_account _ _ day _ Ha))
      as (a' & H1 & H2 & H3 & H4).
    exists a'. split; [exact H1|]. split; [|split].
    + rewrite H2. f_equal. lia.
    + rewrite H3. reflexivity.
    + rewrite H4. reflexivity.
Qed.

Lemma recalc_interest_due (now : Z) (db : DB) (aid : Z) :
  recalc_interest now db aid
  = match get_account db aid with
    | None => db
    | Some a => accrue (days_due now db aid) db aid (start_day db a (date_of now))
    end.
Proof.
  unfold recalc_interest, days_due. destruct (get_account db aid); reflexivity.
Qed.

Lemma nothing_due (now : Z) (db : DB) (aid : Z) :
  days_due now db aid = O -> recalc_interest now db aid = db.
Proof.
  intros H. rewrite recalc_interest_due, H.
  destruct (get_account db aid); reflexivity.
Qed.

(** Once caught up, nothing is due. *)
Lemma recalc_interest_catches_up (now : Z) (db : DB) (aid : Z) :
  days_due now (recalc_interest now db aid) aid = O.
Proof.
  destruct (days_due now db aid) as [|n] eqn:Hdue.
  - now rewrite (nothing_due _ _ _ Hdue).
  - rewrite recalc_interest_due, Hdue. unfold days_due in Hdue.
    destruct (get_account db aid) as [a|] eqn:Ha; [|discriminate].
    destruct (accrue_watermark n db aid (start_day db a (date_of now)) a Ha)
      as (a' & H1 & H2 & _).
    unfold days_due. rewrite H1. unfold start_day at 1. rewrite H2.
    lia.
Qed.

(** The number of days due depends on the clock through the date only. *)
Lemma days_due_same_day (now now' : Z) (db : DB) (aid : Z) :
  date_of now' = date_of now -> days_due now' db aid = days_due now db aid.
Proof. unfold days_due. now intros ->. Qed.


(* ------------------------------------------------------------------ *)
(** *** What a catch-up run posts *)

Lemma days_from_bounds (n : nat) : forall day d,
  In d (days_from day n) -> day <= d < day + Z.of_nat n.
Proof.
  induction n as [|n IH]; intros day d; simpl; [tauto|].
  intros [<- | H]; [lia|]. apply IH in H. lia.
Qed.


Lemma date_of_end_of_day (day : Z) : date_of (end_of_day day) = day.
Proof.
  unfold date_of, end_of_day, seconds_per_day.
  rewrite Z.add_comm, Z.div_add by discriminate. reflexivity.
Qed.


Lemma filter_none {A} (p : A -> bool) (l : list A) :
  Forall (fun x => p x = false) l -> filter p l = [].
Proof.
  induction 1 as [|x l Hx _ IH]; simpl; [reflexivity|]. now rewrite Hx.
Qed.


Lemma rate_in_force_stable (db db' : DB) (a a' : Account) (day : Z) :
  rate_history db' = rate_history db ->
  account_id a' = account_id a ->
  interest_rate a' = interest_rate a ->
  fst (rate_in_force db' a' day) = fst (rate_in_force db a day).
Proof.
  intros Hh Hid Hr. unfold rate_in_force, entry_in_force, history_of.
  rewrite Hh, Hid. destruct (fold_left _ _ _); simpl; congruence.
Qed.

(** Interest entries dated on [day] or later do not enter the balance
    of [day]. *)
Lemma balance_as_of_stable (db db' : DB) (aid day : Z) (news : list Transaction) :
  transactions db' = transactions db ++ news ->
  Forall (fun t => is_interest t = true /\ day <= date_of (tx_timestamp t)) news ->
  balance_as_of db' aid day = balance_as_of db aid day.
Proof.
  intros Ht Hnews. unfold balance_as_of, account_txs.
  rewrite Ht, !filter_app.
  rewrite (filter_none _ (filter _ news)); [now rewrite app_nil_r|].
  apply Forall_forall. intros t Hin. apply filter_In in Hin.
  destruct Hin as [Hin _].
  rewrite Forall_forall in Hnews. destruct (Hnews t Hin) as [Hi Hd].
  rewrite Hi. apply Z.leb_le in Hd. rewrite Hd. simpl.
  apply andb_false_r.
Qed.

Lemma interest_for_stable (db db' : DB) (a a' : Account) (day : Z)
    (news : list Transaction) :
  transactions db' = transactions db ++ news ->
  Forall (fun t => is_interest t = true /\ day <= date_of (tx_timestamp t)) news ->
  rate_history db' = rate_history db ->
  account_id a' = account_id a ->
  interest_rate a' = interest_rate a ->
  interest_for db' a' day = interest_for db a day.
Proof.
  intros Ht Hnews Hh Hid Hr. unfold interest_for.
  rewrite (rate_in_force_stable db db' a a' day Hh Hid Hr), Hid.
  now rewrite (balance_as_of_stable db db' _ day news Ht Hnews).
Qed.

Lemma map_in_image {A B} (f : A -> B) (l : list A) (l' : list B) :
  map f l = l' -> Forall (fun x => In (f x) l') l.
Proof.
  intros <-. apply Forall_forall. intros x Hx. now apply in_map.
Qed.

(** The entries posted by [n] days of accrual from [day]: one interest
    credit per day, each for the interest owed on its day. *)
Lemma accrue_posts (n : nat) : forall db aid day a,
  get_account db aid = Some a ->
  exists news a',
    transactions (accrue n db aid day) = transactions db ++ news
    /\ get_account (accrue n db aid day) aid = Some a'
    /\ interest_rate a' = interest_rate a
    /\ account_id a' = account_id a
    /\ map (fun t => date_of (tx_timestamp t)) news = days_from day n
    /\ Forall (fun t =>
                 tx_account_id t = aid
                 /\ is_interest t = true
                 /\ tx_type t = "credit"%string
                 /\ tx_amount t
                    = interest_for (accrue n db aid day) a
                                   (date_of (tx_timestamp t)))
              news.
Proof.
  induction n as [|n IH]; intros db aid day a Ha.
  - exists [], a. simpl. rewrite app_nil_r. repeat split; auto.
  - pose proof (post_interest_account db aid day a Ha) as Ha1.
    pose proof (post_interest_transactions db aid day a Ha) as Ht1.
    destruct (IH (post_interest db aid day) aid (day + 1) _ Ha1)
      as (news & a' & Ht & Hget & Hr & Hid & Hdays & Hall).
    change (accrue (S n) db aid day)
      with (accrue n (post_interest db aid day) aid (day + 1)).
    set (final := accrue n (post_interest db aid day) aid (day + 1)) in *.
    set (tx0 := mk_Transaction (next_id (map tx_id (transactions db)))
                  (acc_child_id a) aid "credit" (interest_for db a day)
                  (Some "Interest"%string) (end_of_day day)
                  "system" 0) in *.
    assert (Hlater : Forall (fun t => is_interest t = true
                              /\ day <= date_of (tx_timestamp t))
                            (tx0 :: news)).
    { constructor.
      - split; [reflexivity|]. simpl. rewrite date_of_end_of_day. lia.
      - pose proof (map_in_image _ _ _ Hdays) as Hin.
        rewrite Forall_forall in Hall, Hin. apply Forall_forall.
        intros t Ht'. split; [apply (Hall t Ht')|].
        pose proof (days_from_bounds _ _ _ (Hin t Ht')). lia. }
    assert (Hframe : rate_history final = rate_history db).
    { transitivity (rate_history (post_interest db aid day)).
      - apply accrue_frame.
      - apply post_interest_frame. }
    exists (tx0 :: news), a'. split; [|split; [|split; [|split; [|split]]]].
    + rewrite Ht, Ht1, <- app_assoc. reflexivity.
    + exact Hget.
    + rewrite Hr. reflexivity.
    + rewrite Hid. reflexivity.
    + simpl. rewrite date_of_end_of_day. now rewrite Hdays.
    + constructor.
      * repeat split. simpl tx_amount. simpl tx_timestamp.
        rewrite date_of_end_of_day. symmetry.
        apply interest_for_stable with (news := tx0 :: news); auto.
        rewrite Ht, Ht1, <- app_assoc. reflexivity.
      * eapply Forall_impl; [|exact Hall].
        intros t (H1 & H2 & H3 & H4). repeat split; auto.
Qed.

Lemma days_from_NoDup (n : nat) : forall day, NoDup (days_from day n).
Proof.
  induction n as [|n IH]; intros day; simpl; constructor.
  - intros Hin. apply days_from_bounds in Hin. lia.
  - apply IH.
Qed.

(** What one run of [recalc] adds to the ledger: an interest entry of the
    account for each day from the starting day through yesterday, and
    nothing else. *)
Lemma recalc_interest_posts (now : Z) (db : DB) (aid : Z) (a : Account) :
  get_account db aid = Some a ->
  exists news,
    transactions (recalc_interest now db aid) = transactions db ++ news
    /\ map (fun t => date_of (tx_timestamp t)) news
       = days_from (start_day db a (date_of now)) (days_due now db aid)
    /\ Forall (fun t => tx_account_id t = aid /\ is_interest t = true) news.
Proof.
  intros Ha. rewrite recalc_interest_due, Ha.
  destruct (accrue_posts (days_due now db aid) db aid
              (start_day db a (date_of now)) a Ha)
    as (news & a' & Ht & _ & _ & _ & Hdays & Hall).
  exists news. split; [exact Ht|]. split; [exact Hdays|].
  eapply Forall_impl; [|exact Hall]. intros t (H1 & H2 & _). auto.
Qed.

(** C6.  [recalc] is idempotent: run again on the same day, right after
    it has caught up through yesterday, it leaves the store exactly as it
    is, so no transaction is added and no day is posted twice.  Moreover
    a run only ever adds interest entries for distinct days, all after
    the watermark it started from and before today. *)
Theorem recalc_interest_idempotent (now now' : Z) (db : DB) (aid : Z) :
  date_of now' = date_of now ->
  let db1 := recalc_interest now db aid in
  recalc_interest now' db1 aid = db1
  /\ transactions (recalc_interest now' db1 aid) = transactions db1
  /\ interest_txs (recalc_interest now' db1 aid) aid = interest_txs db1 aid
  /\ (forall a,
        get_account db aid = Some a ->
        exists news,
          transactions db1 = transactions db ++ news
          /\ NoDup (map (fun t => date_of (tx_timestamp t)) news)
          /\ Forall (fun t =>
                       tx_account_id t = aid
                       /\ is_interest t = true
                       /\ date_of (tx_timestamp t) < date_of now
                       /\ forall w, last_interest_applied a = Some w ->
                                    w < date_of (tx_timestamp t))
                    news).
Proof.
  intros Hday db1.
  assert (H : recalc_interest now' db1 aid = db1).
  { apply nothing_due. rewrite (days_due_same_day _ _ _ _ Hday).
    apply recalc_interest_catches_up. }
  rewrite H. repeat split.
  intros a Ha.
  destruct (recalc_interest_posts now db aid a Ha) as (news & Ht & Hdays & Hall).
  exists news. split; [exact Ht|]. split.
  - rewrite Hdays. apply days_from_NoDup.
  - pose proof (map_in_image _ _ _ Hdays) as Hin.
    rewrite Forall_forall in Hall, Hin. apply Forall_forall.
    intros t Ht'. destruct (Hall t Ht') as [H1 H2].
    pose proof (days_from_bounds _ _ _ (Hin t Ht')) as Hb.
    assert (Hdue : Z.of_nat (days_due now db aid)
                   = Z.max 0 (date_of now - start_day db a (date_of now))).
    { unfold days_due. rewrite Ha. lia. }
    repeat split; auto.
    + lia.
    + intros w Hw. unfold start_day in Hb. rewrite Hw in Hb. lia.
Qed.






(* ------------------------------------------------------------------ *)
(** *** The watermark and the ledger *)

Lemma interest_txs_grow (db db' : DB) (news : list Transaction) (aid : Z)
    (t : Transaction) :
  transactions db' = transactions db ++ news ->
  In t (interest_txs db aid) -> In t (interest_txs db' aid).
Proof.
  intros Ht. unfold interest_txs, account_txs. rewrite Ht, !filter_app.
  intros H. apply in_or_app. now left.
Qed.

(** Appending to the ledger keeps every watermark backed. *)
Lemma watermarks_posted_ledger_grows (db db' : DB) (news : list Transaction) :
  accounts db' = accounts db ->
  transactions db' = transactions db ++ news ->
  watermarks_posted db -> watermarks_posted db'.
Proof.
  intros Ha Ht Hinv a Hin w Hw. rewrite Ha in Hin.
  destruct (Hinv a Hin w Hw) as (t & Hin' & Hd).
  exists t. split; [|exact Hd]. eapply interest_txs_grow; eauto.
Qed.

(** A newly provisioned store: no watermark is set. *)
Lemma watermarks_posted_fresh (db : DB) :
  (forall a, In a (accounts db) -> last_interest_applied a = None) ->
  watermarks_posted db.
Proof. intros H a Hin w Hw. rewrite (H a Hin) in Hw. discriminate Hw. Qed.

(** One day of accrual posts the entry its watermark points at. *)
Lemma post_interest_watermarks (db : DB) (aid day : Z) :
  watermarks_posted db -> watermarks_posted (post_interest db aid day).
Proof.
  intros Hinv. unfold post_interest.
  destruct (get_account db aid) as [a0|] eqn:Ha0; [|exact Hinv].
  cbv zeta. intros a Hin w Hw.
  unfold update_account, create_transaction in Hin. simpl in Hin.
  apply in_map_iff in Hin. destruct Hin as (x & Hx & Hin).
  set (row := mk_Transaction (next_id (map tx_id (transactions db)))
                (acc_child_id a0) aid "credit" (interest_for db a0 day)
                (Some "Interest"%string) (end_of_day day) "system" 0).
  assert (Ht : forall i t,
             In t (interest_txs db i) ->
             In t (interest_txs
                     (update_account
                        (snd (create_transaction db
                                (mk_Transaction 0 (acc_child_id a0) aid "credit"
                                   (interest_for db a0 day)
                                   (Some "Interest"%string) (end_of_day day)
                                   "system" 0)))
                        aid
                        (fun x => mark_accrued x day (interest_for db a0 day)))
                     i)).
  { intros i t. apply interest_txs_grow with (news := [row]). reflexivity. }
  destruct (account_id x =? aid) eqn:E.
  - subst a. simpl in Hw. injection Hw as <-. simpl account_id.
    apply Z.eqb_eq in E. rewrite E.
    exists row. split; [|apply date_of_end_of_day].
    unfold interest_txs, account_txs, update_account, create_transaction.
    simpl transactions. rewrite !filter_app. apply in_or_app. right.
    simpl. rewrite Z.eqb_refl. simpl. now left.
  - subst a. destruct (Hinv x Hin w Hw) as (t & Hin' & Hd).
    exists t. split; [|exact Hd]. now apply Ht.
Qed.

Lemma accrue_watermarks (n : nat) : forall db aid day,
  watermarks_posted db -> watermarks_posted (accrue n db aid day).
Proof.
  induction n as [|n IH]; intros db aid day H; simpl; [exact H|].
  apply IH. now apply post_interest_watermarks.
Qed.

Lemma recalc_interest_watermarks (now : Z) (db : DB) (aid : Z) :
  watermarks_posted db -> watermarks_posted (recalc_interest now db aid).
Proof.
  intros H. unfold recalc_interest.
  destruct (get_account db aid); [|exact H]. now apply accrue_watermarks.
Qed.

Lemma post_transaction_update_watermarks (now : Z) (db : DB) (cid : Z) :
  watermarks_posted db -> watermarks_posted (post_transaction_update now db cid).
Proof.
  unfold post_transaction_update.
  generalize (filter (fun a => acc_child_id a =? cid) (accounts db)).
  intros l. revert db. induction l as [|a l IH]; intros db H; simpl;
    [exact H|].
  apply IH. now apply recalc_interest_watermarks.
Qed.

Lemma create_transaction_watermarks (db : DB) (tx : Transaction) :
  watermarks_posted db -> watermarks_posted (snd (create_transaction db tx)).
Proof.
  apply watermarks_posted_ledger_grows
    with (news := [fst (create_transaction db tx)]); reflexivity.
Qed.

Lemma set_interest_rate_watermarks (now : Z) (db : DB) (cid : Z) (rate : Q)
    (ty : string) (a' : Account) (db' : DB) :
  set_interest_rate now db cid rate ty = Some (a', db') ->
  watermarks_posted db -> watermarks_posted db'.
Proof.
  unfold set_interest_rate.
  destruct (get_account_by_child_and_type db cid ty) as [a|]; [|discriminate].
  destruct (Qeq_bool rate _); intros H Hinv; inversion H; subst; clear H;
    [exact Hinv|].
  intros x Hin w Hw. simpl in Hin.
  apply in_map_iff in Hin. destruct Hin as (y & Hy & Hin).
  assert (Hy' : account_id x = account_id y
                /\ last_interest_applied x = last_interest_applied y).
  { destruct (account_id y =? account_id a); subst x; split; reflexivity. }
  destruct Hy' as [H1 H2]. rewrite H2 in Hw.
  destruct (Hinv y Hin w Hw) as (t & Ht & Hd).
  exists t. split; [|exact Hd]. rewrite H1. exact Ht.
Qed.

Section WatermarkInRoutes.

Variables PERM_DEPOSIT PERM_DEBIT PERM_MANAGE_WITHDRAWALS : string.

(** The routes that write the ledger keep every watermark backed, whether
    they succeed or refuse. *)
Lemma ledger_routes_keep_watermarks (now : Z) (db : DB) :
  watermarks_posted db ->
  (forall tc u,
     watermarks_posted
       (snd (add_transaction PERM_DEPOSIT PERM_DEBIT now tc u db)))
  /\ (forall rid u,
        watermarks_posted
          (snd (approve_request PERM_MANAGE_WITHDRAWALS now rid u db))).
Proof.
  intros Hinv. split.
  - intros tc u. rewrite add_transaction_unfold.
    destruct (fst (check_add_transaction _ _ tc u db)); [|exact Hinv].
    destruct (timestamp_stage now tc u db); [|exact Hinv].
    destruct (resolve_account_id db tc) as [aid|]; [|exact Hinv].
    cbv zeta. simpl snd. apply post_transaction_update_watermarks.
    eapply watermarks_posted_ledger_grows; [| |exact Hinv]; reflexivity.
  - intros rid u. rewrite approve_request_unfold.
    destruct (get_withdrawal_request db rid) as [req|]; [|exact Hinv].
    destruct (negb _); [exact Hinv|].
    destruct (fst (_ensure_parent_owns_request _ _ _)); [|exact Hinv].
    destruct (fst (check_manage_withdrawals _ _ _ _)); [|exact Hinv].
    destruct (get_account_by_child_and_type _ _ _) as [account|];
      [|exact Hinv].
    cbv zeta. destruct (_ && _); [exact Hinv|]. simpl snd.
    change (watermarks_posted
              (post_transaction_update now
                 (with_transactions db
                    (transactions db ++ [approval_debit now db req account]))
                 (wr_child_id req))).
    apply post_transaction_update_watermarks.
    eapply watermarks_posted_ledger_grows; [| |exact Hinv]; reflexivity.
Qed.

End WatermarkInRoutes.

(** The child registered five days ago, a credit dated three days back
    recorded through the route into the untouched savings account: the
    hook posts three entries, for the deposit day through yesterday. *)
Lemma earlier_registration_accrues_from_deposit_day :
  let db0 :=
    mk_DB [Cases.early_kid] [Family.owner_link]
          [Family.checking; Family.savings; Family.college] [] [] [] in
  watermarks_posted db0
  /\ exists row db',
       add_transaction Family.DEPOSIT Family.DEBIT Family.now
                       Cases.three_day_credit Family.parent db0
       = (Ok row, db')
       /\ map (fun t => date_of (tx_timestamp t)) (interest_txs db' 2)
          = [19997; 19998; 19999]
       /\ date_of Family.now = 20000.
Proof.
  cbv zeta. split.
  - apply watermarks_posted_fresh. intros a Hin. simpl in Hin.
    destruct Hin as [<- | [<- | [<- | []]]]; reflexivity.
  - do 2 eexists. split; [vm_compute; reflexivity|].
    split; vm_compute; reflexivity.
Qed.

(* ------------------------------------------------------------------ *)
(** *** Rate changes *)

Lemma filter_filter_and {A} (p q : A -> bool) (l : list A) :
  filter p (filter q l) = filter (fun x => q x && p x) l.
Proof.
  induction l as [|h t IH]; simpl; [reflexivity|].
  destruct (q h); simpl; [destruct (p h)|]; now rewrite IH.
Qed.

(** What [set_interest_rate] leaves alone: the ledger, the children, and
    of every account all but its nominal rate. *)
Lemma set_interest_rate_frame (now : Z) (db : DB) (cid : Z) (rate : Q)
    (ty : string) (a' : Account) (db' : DB) :
  set_interest_rate now db cid rate ty = Some (a', db') ->
  transactions db' = transactions db
  /\ children db' = children db
  /\ forall aid,
       match get_account db aid, get_account db' aid with
       | Some x, Some x' =>
           account_id x' = account_id x
           /\ acc_child_id x' = acc_child_id x
           /\ last_interest_applied x' = last_interest_applied x
       | None, None => True
       | _, _ => False
       end.
Proof.
  unfold set_interest_rate.
  destruct (get_account_by_child_and_type db cid ty) as [a|]; [|discriminate].
  destruct (Qeq_bool rate _).
  - intros H. inversion H; subst. repeat split.
    intros aid. destruct (get_account db' aid); auto.
  - intros H. inversion H; subst. clear H. repeat split.
    intros aid.
    change (get_account (with_rate_history ?d _) aid) with (get_account d aid).
    rewrite get_account_update by reflexivity.
    destruct (get_account db aid) as [x|]; simpl; [|exact I].
    destruct (account_id x =? account_id a); simpl; auto.
Qed.

Lemma set_interest_rate_days_due (now now' : Z) (db : DB) (cid : Z) (rate : Q)
    (ty : string) (a' : Account) (db' : DB) (aid : Z) :
  set_interest_rate now db cid rate ty = Some (a', db') ->
  days_due now' db' aid = days_due now' db aid.
Proof.
  intros H. destruct (set_interest_rate_frame _ _ _ _ _ _ _ H) as (Ht & Hc & Ha).
  specialize (Ha aid). unfold days_due.
  destruct (get_account db aid) as [x|], (get_account db' aid) as [x'|];
    try tauto.
  destruct Ha as (H1 & H2 & H3).
  unfold start_day, first_entry_day, account_txs.
  now rewrite H1, H3, Ht.
Qed.

Lemma filter_replace_hidden {A} (p is_old : A -> bool) (new : A) (l : list A) :
  (forall x, is_old x = true -> p x = false) ->
  p new = false ->
  filter p (map (fun x => if is_old x then new else x) l) = filter p l.
Proof.
  intros Hold Hnew. induction l as [|h t IH]; simpl; [reflexivity|].
  destruct (is_old h) eqn:E.
  - rewrite Hnew, (Hold h E). exact IH.
  - destruct (p h); now rewrite IH.
Qed.

Lemma same_entry_date (e x : InterestRateHistory) :
  same_entry e x = true -> irh_date x = irh_date e.
Proof.
  unfold same_entry. rewrite !andb_true_iff.
  intros [[[_ H] _] _]. now apply Z.eqb_eq.
Qed.

(** The entries of the account dated up to [day], a day before today,
    after the history is written: the back-dated entry at the first
    change, the same entries as before afterwards. *)
Lemma record_rate_past (now : Z) (db : DB) (a : Account) (previous rate : Q)
    (day : Z) :
  day < date_of now ->
  let past l :=
    filter (fun e => (irh_account_id e =? account_id a) && (irh_date e <=? day))
           l in
  past (record_rate now db a previous rate)
  = match history_of db (account_id a) with
    | [] =>
        if account_start_day db a (date_of now) <=? day
        then [mk_InterestRateHistory (account_id a)
                (account_start_day db a (date_of now)) previous now]
        else []
    | _ :: _ => past (rate_history db)
    end.
Proof.
  intros Hday past. subst past. cbv beta.
  assert (Htoday : (date_of now <=? day) = false) by (apply Z.leb_gt; lia).
  unfold record_rate.
  destruct (history_of db (account_id a)) as [|e0 rest] eqn:Hhist.
  - rewrite filter_app. rewrite <- filter_filter_and.
    change (filter (fun e => irh_account_id e =? account_id a) (rate_history db))
      with (history_of db (account_id a)).
    rewrite Hhist. cbn [filter app irh_account_id irh_date].
    rewrite Z.eqb_refl, Htoday. cbn [andb].
    destruct (account_start_day db a (date_of now) <=? day); reflexivity.
  - assert (Happ : forall l,
               filter (fun e => (irh_account_id e =? account_id a)
                                && (irh_date e <=? day))
                      (l ++ [mk_InterestRateHistory (account_id a)
                               (date_of now) rate now])
               = filter (fun e => (irh_account_id e =? account_id a)
                                  && (irh_date e <=? day)) l).
    { intros l. rewrite filter_app. cbn [filter irh_account_id irh_date].
      rewrite Htoday, andb_false_r. apply app_nil_r. }
    destruct (entry_in_force db (account_id a) (date_of now)) as [e|];
      [|apply Happ].
    destruct (irh_date e =? date_of now) eqn:Ee; [|apply Happ].
    apply Z.eqb_eq in Ee. apply filter_replace_hidden.
    + intros x Hx. apply same_entry_date in Hx.
      replace (irh_date x <=? day) with false
        by (symmetry; apply Z.leb_gt; lia).
      apply andb_false_r.
    + cbn [irh_account_id irh_date]. rewrite Htoday. apply andb_false_r.
Qed.

(** The entries in force before today are untouched by a change made
    today. *)
Lemma set_interest_rate_keeps_past_rates (now : Z) (db : DB) (cid : Z)
    (rate : Q) (ty : string) (a a' : Account) (db' : DB) (day : Z) :
  get_account_by_child_and_type db cid ty = Some a ->
  set_interest_rate now db cid rate ty = Some (a', db') ->
  day < date_of now ->
  (history_of db (account_id a) = [] ->
   account_start_day db a (date_of now) <= day) ->
  (history_of db (account_id a) <> [] ->
   entry_in_force db (account_id a) day <> None) ->
  fst (rate_in_force db' a' day) = fst (rate_in_force db a day).
Proof.
  intros Hget Hset Hday Hfirst Hlater.
  unfold set_interest_rate in Hset. rewrite Hget in Hset.
  destruct (Qeq_bool rate (fst (rate_in_force db a (date_of now)))).
  { inversion Hset; subst. reflexivity. }
  inversion Hset; subst a' db'; clear Hset.
  set (previous := fst (rate_in_force db a (date_of now))).
  unfold rate_in_force at 1. unfold entry_in_force at 1. unfold history_of at 1.
  cbn [rate_history with_rate_history account_id set_account_rate].
  rewrite filter_filter_and.
  rewrite (record_rate_past now db a previous rate day Hday).
  destruct (history_of db (account_id a)) as [|e0 rest] eqn:Hhist.
  - (* first change: the back-dated entry carries the previous rate *)
    specialize (Hfirst eq_refl).
    replace (account_start_day db a (date_of now) <=? day) with true
      by (symmetry; apply Z.leb_le; lia).
    simpl. subst previous. unfold rate_in_force, entry_in_force.
    rewrite Hhist. reflexivity.
  - (* later changes: the entries dated up to [day] are the same *)
    assert (Hne : e0 :: rest <> []) by discriminate.
    specialize (Hlater Hne).
    rewrite <- filter_filter_and.
    change (filter (fun e => irh_account_id e =? account_id a) (rate_history db))
      with (history_of db (account_id a)).
    rewrite Hhist.
    unfold rate_in_force. unfold entry_in_force in *. rewrite Hhist in *.
    destruct (fold_left pick_entry _ None); [reflexivity | congruence].
Qed.

Lemma set_interest_rate_appends_nothing (now later : Z) (db : DB) (cid : Z)
    (rate : Q) (ty : string) (a' : Account) (db' : DB) (aid : Z) :
  set_interest_rate now db cid rate ty = Some (a', db') ->
  exists news,
    transactions (recalc_interest later db' aid) = transactions db ++ news.
Proof.
  intros H. destruct (set_interest_rate_frame _ _ _ _ _ _ _ H) as (Ht & _).
  destruct (recalc_interest_appends later db' aid) as [news Hn].
  exists news. now rewrite Hn, Ht.
Qed.

(** C5.  A rate change is not retroactive.  After [recalc] has run and
    the rate is then changed, every later run of [recalc] keeps the
    ledger it found as a prefix, so the interest entries already posted
    stay as they are; a run on the day of the change adds nothing, and
    the list of interest amounts in the child's ledger is the same after
    as before; and the rate in force on any earlier day covered by the
    history (or, at the first change, any day from the account's start)
    is the one it was. *)
Theorem rate_change_not_retroactive
    (now now' : Z) (db : DB) (aid cid : Z) (rate : Q) (ty : string)
    (a' : Account) (db2 : DB) :
  let db1 := recalc_interest now db aid in
  set_interest_rate now' db1 cid rate ty = Some (a', db2) ->
  (forall later aid2,
     exists news,
       transactions (recalc_interest later db2 aid2) = transactions db1 ++ news)
  /\ (date_of now' = date_of now ->
      let db3 := recalc_interest now' db2 aid in
      transactions db3 = transactions db1
      /\ interest_txs db3 aid = interest_txs db1 aid
      /\ interest_amounts db3 cid = interest_amounts db1 cid)
  /\ (forall a day,
        get_account_by_child_and_type db1 cid ty = Some a ->
        day < date_of now' ->
        (history_of db1 (account_id a) = [] ->
         account_start_day db1 a (date_of now') <= day) ->
        (history_of db1 (account_id a) <> [] ->
         entry_in_force db1 (account_id a) day <> None) ->
        fst (rate_in_force db2 a' day) = fst (rate_in_force db1 a day)).
Proof.
  intros db1 Hset. split; [|split].
  - intros later aid2. eapply set_interest_rate_appends_nothing; eauto.
  - intros Hday db3.
    assert (H3 : db3 = db2).
    { subst db3. apply nothing_due.
      rewrite (set_interest_rate_days_due _ _ _ _ _ _ _ _ aid Hset).
      rewrite (days_due_same_day _ _ _ _ Hday).
      apply recalc_interest_catches_up. }
    destruct (set_interest_rate_frame _ _ _ _ _ _ _ Hset) as (Ht & _).
    rewrite H3. unfold interest_txs, interest_amounts,
      get_transactions_by_child, account_txs.
    rewrite Ht. auto.
  - intros a day Hget Hday Hfirst Hlater.
    eapply set_interest_rate_keeps_past_rates; eauto.
Qed.

Lemma rate_change_not_retroactive_witness :
  let db1 := recalc_interest Family.now Family.rate_history_db 2 in
  exists a' db2,
    set_interest_rate Family.now db1 1 (2 # 100) "savings" = Some (a', db2)
    /\ interest_amounts (recalc_interest Family.now db2 2) 1
       = interest_amounts db1 1
    /\ List.length (interest_amounts db1 1) = 5%nat
    /\ (forall a,
          get_account_by_child_and_type db1 1 "savings" = Some a ->
          fst (rate_in_force db2 a' (date_of Family.now - 3))
          = fst (rate_in_force db1 a (date_of Family.now - 3))).
Proof.
  cbv zeta.
  destruct (set_interest_rate Family.now
              (recalc_interest Family.now Family.rate_history_db 2)
              1 (2 # 100) "savings") as [[a' db2]|] eqn:E.
  - pose proof (rate_change_not_retroactive
                  Family.now Family.now Family.rate_history_db 2 1 (2 # 100)
                  "savings" a' db2 E) as (_ & Hsame & Hrates).
    exists a', db2. split; [reflexivity|]. split; [|split].
    + exact (proj2 (proj2 (Hsame eq_refl))).
    + vm_compute. reflexivity.
    + intros a Ha. apply Hrates; [exact Ha | vm_compute; reflexivity | |];
        vm_compute in Ha; injection Ha as <-.
      * intros Hnone. vm_compute in Hnone. discriminate Hnone.
      * intros _ Hnone. vm_compute in Hnone. discriminate Hnone.
  - vm_compute in E. discriminate E.
Defined.

Lemma recalc_interest_idempotent_witness :
  let db1 := recalc_interest Family.now Family.backdated_db 2 in
  recalc_interest (Family.now + 60) db1 2 = db1
  /\ List.length (interest_txs db1 2) = 10%nat.
Proof.
  cbv zeta. split.
  - exact (proj1 (recalc_interest_idempotent
                    Family.now (Family.now + 60) Family.backdated_db 2
                    eq_refl)).
  - vm_compute. reflexivity.
Defined.

Lemma listing_is_chronological_witness :
  let recent :=
    mk_Transaction 0 1 1 "credit" 100 (Some "Recent"%string)
                   Family.now "parent" 7 in
  let old :=
    mk_Transaction 0 1 1 "credit" 50 (Some "Old"%string)
                   (Family.now - 5 * seconds_per_day) "parent" 7 in
  let db1 := snd (create_transaction Family.empty_db recent) in
  let db2 := snd (create_transaction db1 old) in
  map tx_memo (get_transactions_by_account db2 1)
  = [Some "Old"; Some "Recent"]%string.
Proof.
  exact (proj2 (proj2 (proj2 (listing_is_chronological Family.empty_db 1))
                  Family.now 1 7 eq_refl)).
Defined.

(* ================================================================== *)
(** ** Concrete runs of the workflow *)

Lemma request_withdrawal_outcomes_witness :
  let data := parse_WithdrawalRequestCreate 50 None (Some "savings"%string) in
  let db := Family.short_savings_db in
  request_withdrawal Family.now data Family.kid db
  = (Raised (http 400 (InsufficientAvailableBalance
                         (calculate_available_balance Family.now db 2))), db).
Proof.
  cbv zeta.
  refine (proj1 (proj1 (proj2 (request_withdrawal_outcomes
            Family.now
            (parse_WithdrawalRequestCreate 50 None (Some "savings"%string))
            Family.kid Family.short_savings_db))
            Family.savings eq_refl eq_refl) _).
  vm_compute. reflexivity.
Defined.

Lemma withdrawal_request_transitions_witness :
  exists r db',
    cancel_request Family.now 1 Family.kid Family.overdraw_db = (Ok r, db')
    /\ wr_status r = "cancelled"%string
    /\ approve_request Family.MANAGE Family.now 1 Family.parent db'
       = (Raised (http 404 RequestNotFound), db').
Proof.
  destruct (cancel_request Family.now 1 Family.kid Family.overdraw_db)
    as [[r|e] db'] eqn:E; [|vm_compute in E; discriminate E].
  exists r, db'. split; [reflexivity|].
  destruct (proj2 (withdrawal_request_transitions
                     Family.MANAGE Family.now 1 Family.overdraw_db
                     (Family.pending_request "checking" 50) eq_refl)
                  (OpCancel Family.kid) r db' E)
    as (_ & Hs & _ & _ & _ & Hnext).
  split; [exact Hs|]. exact (Hnext Family.now (OpApprove Family.parent)).
Defined.

(* ================================================================== *)
(** * Further properties of the routes *)

(** ** Withdrawals: gates, failures and frames *)

Lemma next_id_fresh (ids : list Z) (x : Z) : In x ids -> x < next_id ids.
Proof.
  unfold next_id. induction ids as [|h t IH]; cbn [fold_right In]; [tauto|].
  intros [<- | H]; [lia|]. specialize (IH H). lia.
Qed.

(** Accrual adds interest entries and nothing else. *)
Lemma post_interest_adds_interest (db : DB) (aid day : Z) :
  exists news,
    transactions (post_interest db aid day) = transactions db ++ news
    /\ Forall (fun t => is_interest t = true) news.
Proof.
  unfold post_interest. destruct (get_account db aid).
  - eexists. split; [simpl; reflexivity|]. constructor; [reflexivity|constructor].
  - exists []. split; [now rewrite app_nil_r | constructor].
Qed.

Lemma accrue_adds_interest (n : nat) : forall db aid day,
  exists news,
    transactions (accrue n db aid day) = transactions db ++ news
    /\ Forall (fun t => is_interest t = true) news.
Proof.
  induction n as [|n IH]; intros db aid day; simpl.
  - exists []. split; [now rewrite app_nil_r | constructor].
  - destruct (post_interest_adds_interest db aid day) as (l1 & H1 & F1).
    destruct (IH (post_interest db aid day) aid (day + 1)) as (l2 & H2 & F2).
    exists (l1 ++ l2). split.
    + rewrite H2, H1. now rewrite app_assoc.
    + apply Forall_app. now split.
Qed.

Lemma post_transaction_update_adds_interest (now : Z) (db : DB) (cid : Z) :
  exists news,
    transactions (post_transaction_update now db cid) = transactions db ++ news
    /\ Forall (fun t => is_interest t = true) news.
Proof.
  unfold post_transaction_update.
  generalize (filter (fun a => acc_child_id a =? cid) (accounts db)).
  intros l. revert db. induction l as [|a l IH]; intros db; simpl.
  - exists []. split; [now rewrite app_nil_r | constructor].
  - assert (H : exists l1,
               transactions (recalc_interest now db (account_id a))
               = transactions db ++ l1
               /\ Forall (fun t => is_interest t = true) l1).
    { unfold recalc_interest. destruct (get_account db (account_id a)).
      - apply accrue_adds_interest.
      - exists []. split; [now rewrite app_nil_r | constructor]. }
    destruct H as (l1 & H1 & F1).
    destruct (IH (recalc_interest now db (account_id a))) as (l2 & H2 & F2).
    exists (l1 ++ l2). split.
    + rewrite H2, H1. now rewrite app_assoc.
    + apply Forall_app. now split.
Qed.

Section WorkflowGates.

Variable PERM_MANAGE_WITHDRAWALS : string.

Local Abbreviation approve := (approve_request PERM_MANAGE_WITHDRAWALS).
Local Abbreviation deny := (deny_request PERM_MANAGE_WITHDRAWALS).
Local Abbreviation run := (run_op PERM_MANAGE_WITHDRAWALS).
Local Abbreviation allowed := (may_respond PERM_MANAGE_WITHDRAWALS).

(** [deny_request] as a decision chain over the store. *)
Lemma deny_request_unfold (now rid : Z) (why : DenyRequest) (u : User) (db : DB) :
  deny now rid why u db =
  match get_withdrawal_request db rid with
  | None => (Raised (http 404 RequestNotFound), db)
  | Some req =>
      if negb (wr_status req =? "pending")%string
      then (Raised (http 404 RequestNotFound), db)
      else
        match fst (_ensure_parent_owns_request req (user_id u) db) with
        | Raised e => (Raised e, db)
        | Ok _ =>
            match fst (check_manage_withdrawals
                         PERM_MANAGE_WITHDRAWALS req u db) with
            | Raised e => (Raised e, db)
            | Ok _ =>
                let req' := set_denied req now (user_id u) (reason why) in
                (Ok req', save_withdrawal_request db req')
            end
        end
  end.
Proof.
  unfold deny_request.
  unfold bind at 1. unfold query at 1.
  destruct (get_withdrawal_request db rid) as [req|]; [|reflexivity].
  unfold bind at 1. unfold raise_if at 1.
  destruct (negb (wr_status req =? "pending")%string); [reflexivity|].
  unfold ret at 1. unfold bind at 1.
  pose proof (ensure_parent_owns_read_only req (user_id u) db) as R1.
  destruct (_ensure_parent_owns_request req (user_id u) db) as [[[]|e] d1];
    simpl in R1; subst d1; [|reflexivity].
  unfold bind at 1.
  pose proof (check_manage_withdrawals_read_only
                PERM_MANAGE_WITHDRAWALS req u db) as R2.
  destruct (check_manage_withdrawals PERM_MANAGE_WITHDRAWALS req u db)
    as [[[]|e] d2]; simpl in R2; subst d2; reflexivity.
Qed.

(** [cancel_request] as a decision chain over the store. *)
Lemma cancel_request_unfold (now rid : Z) (c : Child) (db : DB) :
  cancel_request now rid c db =
  match get_withdrawal_request db rid with
  | None => (Raised (http 404 RequestNotFound), db)
  | Some req =>
      if negb (wr_status req =? "pending")%string
         || negb (wr_child_id req =? child_id c)
      then (Raised (http 404 RequestNotFound), db)
      else (Ok (set_cancelled req now),
            save_withdrawal_request db (set_cancelled req now))
  end.
Proof.
  unfold cancel_request. unfold_handler.
  destruct (get_withdrawal_request db rid) as [req|]; [|reflexivity].
  destruct (_ || _); reflexivity.
Qed.

(** X1.  The four withdrawal routes validate before they write: whenever
    filing, approving, denying or cancelling a request fails, with
    whatever error, the store is exactly as it was. *)
Theorem withdrawal_routes_fail_clean (now : Z) (db : DB) :
  (forall data child e db',
     request_withdrawal now data child db = (Raised e, db') -> db' = db)
  /\ (forall rid op e db',
        run now rid op db = (Raised e, db') -> db' = db).
Proof.
  split.
  - intros data child e db' H. rewrite request_withdrawal_unfold in H.
    cbv zeta in H.
    destruct (effective_account_type data =? "college_savings")%string;
      [now inversion H|].
    destruct (get_account_by_child_and_type _ _ _); [|now inversion H].
    destruct (Qgtb _ _); [now inversion H | discriminate H].
  - intros rid op e db' H. destruct op; simpl in H.
    + rewrite approve_request_unfold in H.
      destruct (get_withdrawal_request db rid) as [req|]; [|now inversion H].
      destruct (negb _); [now inversion H|].
      destruct (fst (_ensure_parent_owns_request _ _ _)); [|now inversion H].
      destruct (fst (check_manage_withdrawals _ _ _ _)); [|now inversion H].
      destruct (get_account_by_child_and_type _ _ _); [|now inversion H].
      cbv zeta in H. destruct (_ && _); [now inversion H | discriminate H].
    + rewrite deny_request_unfold in H.
      destruct (get_withdrawal_request db rid) as [req|]; [|now inversion H].
      destruct (negb _); [now inversion H|].
      destruct (fst (_ensure_parent_owns_request _ _ _)); [|now inversion H].
      destruct (fst (check_manage_withdrawals _ _ _ _)); [|now inversion H].
      discriminate H.
    + rewrite cancel_request_unfold in H.
      destruct (get_withdrawal_request db rid) as [req|]; [|now inversion H].
      destruct (_ || _); [now inversion H | discriminate H].
Qed.

Lemma mem_string_In (s : string) (l : list string) :
  mem_string s l = true <-> In s l.
Proof.
  unfold mem_string. rewrite existsb_exists. split.
  - intros (x & Hx & E). apply String.eqb_eq in E. now subst.
  - intros H. exists s. split; [exact H | apply String.eqb_refl].
Qed.

Lemma find_is_some {A} (p : A -> bool) (l : list A) :
  (exists x, In x l /\ p x = true) <-> (exists y, find p l = Some y).
Proof.
  split.
  - intros (x & Hx & Hp). destruct (find p l) eqn:E; [eauto|].
    pose proof (find_none p l E x Hx). congruence.
  - intros (y & Hy). apply find_some in Hy. eauto.
Qed.

(** The ownership gate passes exactly for a stored child the user has a
    link to. *)
Lemma ensure_parent_owns_iff (req : WithdrawalRequest) (uid : Z) (db : DB) :
  fst (_ensure_parent_owns_request req uid db) = Ok tt
  <-> (exists c, In c (children db) /\ child_id c = wr_child_id req)
      /\ (exists l, get_child_user_link db uid (wr_child_id req) = Some l).
Proof.
  unfold _ensure_parent_owns_request. unfold_handler.
  set (owned := existsb (Z.eqb (wr_child_id req))
                        (map child_id (get_children_by_user db uid))).
  assert (Howned : owned = true
                   <-> (exists c, In c (children db)
                                  /\ child_id c = wr_child_id req)
                       /\ (exists l, get_child_user_link
                                       db uid (wr_child_id req) = Some l)).
  { subst owned. unfold get_children_by_user, get_child_user_link.
    rewrite existsb_exists. split.
    - intros (i & Hi & E). apply Z.eqb_eq in E. subst i.
      apply in_map_iff in Hi. destruct Hi as (c & Hc & Hin).
      apply filter_In in Hin. destruct Hin as [Hin Hl].
      split; [eauto|]. apply find_is_some.
      apply existsb_exists in Hl. destruct Hl as (l & Hl & Hp).
      exists l. split; [exact Hl|]. now rewrite <- Hc.
    - intros [(c & Hin & Hc) Hl]. apply find_is_some in Hl.
      destruct Hl as (l & Hl & Hp).
      exists (child_id c). split; [|apply Z.eqb_eq; congruence].
      apply in_map. apply filter_In. split; [exact Hin|].
      apply existsb_exists. exists l. split; [exact Hl|]. now rewrite Hc. }
  destruct owned; simpl; split; intros H.
  - now apply Howned.
  - reflexivity.
  - discriminate H.
  - apply Howned in H. discriminate H.
Qed.

(** X2.  Nobody responds to a request of a child they are not linked
    to, administrators included: for a user without a link to the
    request's child, approve and deny both answer 404 ("Request not
    found") and leave the store as it was. *)
Theorem unlinked_user_cannot_respond
    (now rid : Z) (why : DenyRequest) (u : User) (db : DB)
    (req : WithdrawalRequest) :
  get_withdrawal_request db rid = Some req ->
  get_child_user_link db (user_id u) (wr_child_id req) = None ->
  approve now rid u db = (Raised (http 404 RequestNotFound), db)
  /\ deny now rid why u db = (Raised (http 404 RequestNotFound), db).
Proof.
  intros Hget Hlink.
  assert (Hgate : fst (_ensure_parent_owns_request req (user_id u) db)
                  = Raised (http 404 RequestNotFound)).
  { destruct (fst (_ensure_parent_owns_request req (user_id u) db))
      as [[]|e] eqn:E.
    - apply ensure_parent_owns_iff in E. destruct E as [_ (l & Hl)].
      congruence.
    - unfold _ensure_parent_owns_request in E. unfold_handler.
      destruct (negb _); simpl in E; [congruence | discriminate E]. }
  rewrite approve_request_unfold, deny_request_unfold, Hget, Hgate.
  destruct (negb _); split; reflexivity.
Qed.

(** X3.  Who may approve or deny: the ownership and permission gates
    pass exactly when the request's child is stored, the user has a link
    to it, and the user is an administrator, or the link is an owner
    link, or the link carries the manage-withdrawals permission. *)
Theorem may_respond_iff (req : WithdrawalRequest) (u : User) (db : DB) :
  allowed req u db
  <-> (exists c, In c (children db) /\ child_id c = wr_child_id req)
      /\ (exists l,
            get_child_user_link db (user_id u) (wr_child_id req) = Some l
            /\ (role u = "admin"%string
                \/ is_owner l = true
                \/ In PERM_MANAGE_WITHDRAWALS (link_permissions l))).
Proof.
  unfold may_respond. rewrite ensure_parent_owns_iff.
  unfold check_manage_withdrawals. unfold_handler.
  destruct (role u =? "admin")%string eqn:Er.
  - apply String.eqb_eq in Er. simpl. split.
    + intros [[Hc (l & Hl)] _]. split; [exact Hc|]. exists l. auto.
    + intros [Hc (l & Hl & _)]. split; [split; eauto | reflexivity].
  - apply String.eqb_neq in Er. simpl. split.
    + intros [[Hc (l & Hl)] H]. split; [exact Hc|]. exists l.
      split; [exact Hl|]. rewrite Hl in H.
      destruct (mem_string PERM_MANAGE_WITHDRAWALS (link_permissions l)) eqn:Em.
      * right. right. now apply mem_string_In.
      * destruct (is_owner l); [auto | discriminate H].
    + intros [Hc (l & Hl & H)]. split; [split; eauto|]. rewrite Hl.
      destruct H as [H | [H | H]]; [contradiction | |].
      * rewrite H. now rewrite andb_false_r.
      * apply mem_string_In in H. now rewrite H.
Qed.

Lemma get_after_save_other (db : DB) (rid rid' : Z) (req' : WithdrawalRequest) :
  wr_id req' = rid -> rid' <> rid ->
  get_withdrawal_request (save_withdrawal_request db req') rid'
  = get_withdrawal_request db rid'.
Proof.
  intros Hid Hne. unfold get_withdrawal_request, save_withdrawal_request.
  simpl. induction (withdrawal_requests db) as [|h t IH]; simpl; [reflexivity|].
  rewrite Hid. destruct (wr_id h =? rid) eqn:E.
  - apply Z.eqb_eq in E. rewrite Hid.
    replace (rid =? rid') with false by (symmetry; apply Z.eqb_neq; lia).
    replace (wr_id h =? rid') with false by (symmetry; apply Z.eqb_neq; lia).
    rewrite <- Hid. exact IH.
  - destruct (wr_id h =? rid'); [reflexivity|]. rewrite <- Hid. exact IH.
Qed.

(** X4.  Deny and cancel move no money and touch one row.  An
    authorized deny of a pending request succeeds in every store (no
    account need exist, no balance is read) and records the reason, the
    responder and the time; a cancel by the owning child of a pending
    request succeeds without any parent.  Whatever the outcome of either
    call, the ledger, the accounts, the rate history, the children and
    the links are as before, and so is every other request. *)
Theorem deny_and_cancel_touch_one_row (now rid : Z) (db : DB) :
  (forall why u req,
     get_withdrawal_request db rid = Some req ->
     wr_status req = "pending"%string ->
     allowed req u db ->
     deny now rid why u db
     = (Ok (set_denied req now (user_id u) (reason why)),
        save_withdrawal_request db
          (set_denied req now (user_id u) (reason why))))
  /\ (forall c req,
        get_withdrawal_request db rid = Some req ->
        wr_status req = "pending"%string ->
        wr_child_id req = child_id c ->
        cancel_request now rid c db
        = (Ok (set_cancelled req now),
           save_withdrawal_request db (set_cancelled req now)))
  /\ (forall op,
        (forall u, op <> OpApprove u) ->
        let db' := snd (run now rid op db) in
        transactions db' = transactions db
        /\ accounts db' = accounts db
        /\ rate_history db' = rate_history db
        /\ children db' = children db
        /\ links db' = links db
        /\ forall rid', rid' <> rid ->
             get_withdrawal_request db' rid' = get_withdrawal_request db rid').
Proof.
  split; [|split].
  - intros why u req Hget Hp [A1 A2].
    rewrite deny_request_unfold, Hget, Hp, A1, A2. reflexivity.
  - intros c req Hget Hp Hc.
    rewrite cancel_request_unfold, Hget, Hp, Hc, Z.eqb_refl. reflexivity.
  - intros op Hop db'. subst db'. destruct op as [u | u why | c]; simpl.
    + exfalso. now apply (Hop u).
    + rewrite deny_request_unfold.
      destruct (get_withdrawal_request db rid) as [req|] eqn:Hget;
        [|repeat split].
      destruct (negb _); [repeat split|].
      destruct (fst (_ensure_parent_owns_request _ _ _)); [|repeat split].
      destruct (fst (check_manage_withdrawals _ _ _ _)); [|repeat split].
      repeat split. intros rid' Hne.
      apply get_after_save_other with (rid := rid); auto.
      simpl. eapply get_withdrawal_request_id; eauto.
    + rewrite cancel_request_unfold.
      destruct (get_withdrawal_request db rid) as [req|] eqn:Hget;
        [|repeat split].
      destruct (_ || _); [repeat split|].
      repeat split. intros rid' Hne.
      apply get_after_save_other with (rid := rid); auto.
      simpl. eapply get_withdrawal_request_id; eauto.
Qed.

(** X5.  What an approval writes.  A successful approval keeps every
    earlier ledger row in place, appends the debit for the request's
    amount and memo against the account of the request's type, then only
    interest entries; it leaves children, links and rate history alone
    and alters no other request. *)
Theorem approve_effect
    (now rid : Z) (u : User) (db db' : DB) (r : WithdrawalRequest) :
  approve now rid u db = (Ok r, db') ->
  exists req account news,
    get_withdrawal_request db rid = Some req
    /\ get_account_by_child_and_type db (wr_child_id req) (wr_account_type req)
       = Some account
    /\ transactions db'
       = transactions db ++ approval_debit now db req account :: news
    /\ Forall (fun t => is_interest t = true) news
    /\ (forall t, In t (transactions db) ->
                  tx_id t < tx_id (approval_debit now db req account))
    /\ children db' = children db
    /\ links db' = links db
    /\ rate_history db' = rate_history db
    /\ (forall rid', rid' <> rid ->
          get_withdrawal_request db' rid' = get_withdrawal_request db rid').
Proof.
  intros H. rewrite approve_request_unfold in H.
  destruct (get_withdrawal_request db rid) as [req|] eqn:Hget;
    [|discriminate H].
  destruct (negb _); [discriminate H|].
  destruct (fst (_ensure_parent_owns_request _ _ _)); [|discriminate H].
  destruct (fst (check_manage_withdrawals _ _ _ _)); [|discriminate H].
  destruct (get_account_by_child_and_type _ _ _) as [account|] eqn:Hacc;
    [|discriminate H].
  cbv zeta in H. destruct (_ && _); [discriminate H|].
  inversion H; subst r db'; clear H.
  set (db1 := with_transactions db
                (transactions db ++ [approval_debit now db req account])).
  destruct (post_transaction_update_adds_interest now db1 (wr_child_id req))
    as (news & Hn & Fn).
  destruct (post_transaction_update_frame now db1 (wr_child_id req))
    as (Fc & Fl & Fr & Fh).
  exists req, account, news. repeat split; auto.
  - simpl. rewrite Hn. subst db1. simpl. now rewrite <- app_assoc.
  - intros t Ht. simpl. apply next_id_fresh. now apply in_map.
  - intros rid' Hne. rewrite get_after_save_other with (rid := rid).
    + apply get_withdrawal_request_frame. exact Fr.
    + simpl. eapply get_withdrawal_request_id; eauto.
    + exact Hne.
Qed.

End WorkflowGates.

Lemma find_app_split {A} (p : A -> bool) (l l' : list A) :
  find p (l ++ l') = match find p l with
                     | Some x => Some x
                     | None => find p l'
                     end.
Proof.
  induction l as [|h t IH]; simpl; [reflexivity|].
  destruct (p h); [reflexivity | exact IH].
Qed.

Lemma get_withdrawal_request_fresh (db : DB) :
  get_withdrawal_request db (next_id (map wr_id (withdrawal_requests db))) = None.
Proof.
  unfold get_withdrawal_request.
  destruct (find _ _) as [r|] eqn:E; [|reflexivity].
  apply find_some in E. destruct E as [Hin E]. apply Z.eqb_eq in E.
  pose proof (next_id_fresh (map wr_id (withdrawal_requests db)) (wr_id r)
                (in_map wr_id _ _ Hin)).
  lia.
Qed.

(** X6.  Filing, looking up and cancelling compose.  The row returned
    by a successful [request_withdrawal] is found under its id, every
    request filed earlier is still found unchanged, the filing child can
    cancel the new request at once, and no other child can. *)
Theorem filed_request_round_trip
    (now : Z) (data : WithdrawalRequestCreate) (child : Child)
    (db db1 : DB) (row : WithdrawalRequest) :
  request_withdrawal now data child db = (Ok row, db1) ->
  get_withdrawal_request db1 (wr_id row) = Some row
  /\ (forall rid req,
        get_withdrawal_request db rid = Some req ->
        get_withdrawal_request db1 rid = Some req)
  /\ (forall now',
        exists db2,
          cancel_request now' (wr_id row) child db1
          = (Ok (set_cancelled row now'), db2)
          /\ get_withdrawal_request db2 (wr_id row)
             = Some (set_cancelled row now'))
  /\ (forall other now',
        child_id other <> child_id child ->
        cancel_request now' (wr_id row) other db1
        = (Raised (http 404 RequestNotFound), db1)).
Proof.
  intros H. rewrite request_withdrawal_unfold in H. cbv zeta in H.
  destruct (effective_account_type data =? "college_savings")%string;
    [discriminate H|].
  destruct (get_account_by_child_and_type _ _ _); [|discriminate H].
  destruct (Qgtb _ _); [discriminate H|].
  unfold create_withdrawal_request, new_WithdrawalRequest in H.
  cbn [wr_child_id wr_account_type wr_amount wr_memo wr_status
       wr_requested_at wr_responded_at wr_approver_id wr_denial_reason] in H.
  inversion H; subst row db1; clear H.
  set (row := mk_WithdrawalRequest _ _ _ _ _ _ _ _ _ _).
  assert (Hrow : get_withdrawal_request
                   (with_withdrawal_requests db (withdrawal_requests db ++ [row]))
                   (wr_id row) = Some row).
  { pose proof (get_withdrawal_request_fresh db) as Hf.
    unfold get_withdrawal_request in *. cbn [withdrawal_requests
      with_withdrawal_requests]. rewrite find_app_split.
    subst row. cbn [wr_id] in *. rewrite Hf. simpl. now rewrite Z.eqb_refl. }
  assert (Hst : wr_status row = "pending"%string) by reflexivity.
  assert (Hch : wr_child_id row = child_id child) by reflexivity.
  clearbody row.
  split; [exact Hrow|]. split; [|split].
  - intros rid req Hget. unfold get_withdrawal_request in *.
    cbn [withdrawal_requests with_withdrawal_requests].
    rewrite find_app_split. now rewrite Hget.
  - intros now'. eexists. rewrite cancel_request_unfold, Hrow, Hst, Hch.
    rewrite Z.eqb_refl. simpl.
    split; [reflexivity|].
    apply get_after_save with (req := row); [reflexivity | exact Hrow].
  - intros other now' Hne. rewrite cancel_request_unfold, Hrow, Hst, Hch.
    replace (child_id child =? child_id other) with false
      by (symmetry; apply Z.eqb_neq; congruence).
    reflexivity.
Qed.

(** X7.  Filing has no lower bound on the amount.  The only test on the
    amount is [amount > limit]; against an account whose limit (available
    balance for savings, balance otherwise) is not negative, a request
    for zero or for a negative amount is filed pending with that
    amount. *)
Theorem nonpositive_request_is_filed
    (now : Z) (data : WithdrawalRequestCreate) (child : Child) (db : DB)
    (account : Account) :
  effective_account_type data <> "college_savings"%string ->
  get_account_by_child_and_type db (child_id child)
                                (effective_account_type data)
  = Some account ->
  (wrc_amount data <= 0)%Q ->
  (0 <= (if (effective_account_type data =? "savings")%string
         then calculate_available_balance now db (account_id account)
         else calculate_balance db (account_id account)))%Q ->
  exists row db',
    request_withdrawal now data child db = (Ok row, db')
    /\ wr_status row = "pending"%string
    /\ wr_amount row = wrc_amount data
    /\ get_withdrawal_request db' (wr_id row) = Some row.
Proof.
  intros Hty Hacc Hamount Hlimit.
  destruct (request_withdrawal now data child db) as [[row|e] db'] eqn:E.
  - exists row, db'. split; [reflexivity|].
    pose proof (filed_request_round_trip _ _ _ _ _ _ E) as [Hrow _].
    rewrite request_withdrawal_unfold in E. cbv zeta in E.
    rewrite Hacc in E.
    destruct (effective_account_type data =? "college_savings")%string;
      [discriminate E|].
    destruct (Qgtb _ _); [discriminate E|].
    inversion E; subst. repeat split. exact Hrow.
  - exfalso. rewrite request_withdrawal_unfold in E. cbv zeta in E.
    apply String.eqb_neq in Hty. rewrite Hty, Hacc in E.
    assert (Hq : Qgtb (wrc_amount data)
                   (if (effective_account_type data =? "savings")%string
                    then calculate_available_balance now db (account_id account)
                    else calculate_balance db (account_id account)) = false).
    { apply Qgtb_false. eapply Qle_trans; eauto. }
    rewrite Hq in E. discriminate E.
Qed.

Lemma unlinked_user_cannot_respond_witness :
  approve_request Family.MANAGE Family.now 1 Cases.admin Cases.shared_db
  = (Raised (http 404 RequestNotFound), Cases.shared_db).
Proof.
  exact (proj1 (unlinked_user_cannot_respond
                  Family.MANAGE Family.now 1 (mk_DenyRequest "no")
                  Cases.admin Cases.shared_db
                  (Family.pending_request "checking" 5) eq_refl eq_refl)).
Defined.

Lemma approve_effect_witness :
  exists db' news,
    approve_request Family.MANAGE Family.now 1 Family.parent Cases.shared_db
    = (Ok (set_approved (Family.pending_request "checking" 5) Family.now 7), db')
    /\ transactions db'
       = transactions Cases.shared_db
         ++ approval_debit Family.now Cases.shared_db
              (Family.pending_request "checking" 5) Family.checking :: news.
Proof.
  destruct (approve_request Family.MANAGE Family.now 1 Family.parent
              Cases.shared_db) as [[r|e] db'] eqn:E;
    [|vm_compute in E; discriminate E].
  destruct (approve_effect Family.MANAGE Family.now 1 Family.parent
              Cases.shared_db db' r E)
    as (req & account & news & Hget & Hacc & Ht & _).
  vm_compute in Hget. injection Hget as <-.
  vm_compute in Hacc. injection Hacc as <-.
  exists db', news. split; [|exact Ht].
  f_equal. vm_compute in E. injection E as <- _. reflexivity.
Defined.

Lemma filed_request_round_trip_witness :
  exists row db1 db2,
    request_withdrawal Family.now
      (parse_WithdrawalRequestCreate 5 None None) Family.kid Cases.shared_db
    = (Ok row, db1)
    /\ wr_id row = 2
    /\ cancel_request (Family.now + 60) 2 Family.kid db1
       = (Ok (set_cancelled row (Family.now + 60)), db2).
Proof.
  destruct (request_withdrawal Family.now
              (parse_WithdrawalRequestCreate 5 None None) Family.kid
              Cases.shared_db) as [[row|e] db1] eqn:E;
    [|vm_compute in E; discriminate E].
  destruct (filed_request_round_trip _ _ _ _ _ _ E) as (_ & _ & Hc & _).
  destruct (Hc (Family.now + 60)) as (db2 & H2 & _).
  assert (Hid : wr_id row = 2).
  { vm_compute in E. injection E as <- _. reflexivity. }
  exists row, db1, db2. split; [reflexivity|]. split; [exact Hid|].
  rewrite <- Hid. exact H2.
Defined.

Lemma nonpositive_request_is_filed_witness :
  exists row db',
    request_withdrawal Family.now
      (parse_WithdrawalRequestCreate (-5 # 1) None None) Family.kid
      Cases.shared_db
    = (Ok row, db')
    /\ wr_status row = "pending"%string
    /\ wr_amount row = (-5 # 1)%Q.
Proof.
  destruct (nonpositive_request_is_filed Family.now
              (parse_WithdrawalRequestCreate (-5 # 1) None None) Family.kid
              Cases.shared_db Family.checking)
    as (row & db' & H1 & H2 & H3 & _).
  - discriminate.
  - reflexivity.
  - discriminate.
  - vm_compute. discriminate.
  - exists row, db'. auto.
Defined.

(* ================================================================== *)
(** ** Recording a transaction: gates, order of checks, effects *)

Section LedgerGates.

Variables PERM_DEPOSIT PERM_DEBIT : string.

Local Abbreviation add := (add_transaction PERM_DEPOSIT PERM_DEBIT).
Local Abbreviation gate := (check_add_transaction PERM_DEPOSIT PERM_DEBIT).
Local Abbreviation needed := (perm_needed PERM_DEPOSIT PERM_DEBIT).

(** X8.  Who may record a transaction.  An administrator always passes
    the permission gates.  Anyone else needs, for a credit, the deposit
    permission among their own permissions and, for a debit, the debit
    permission; a type that is neither asks for no permission of the
    user.  They also need a link to the child that is an owner link or
    carries the permission for the type (the debit permission for any
    type but credit).  With the user's own permission in place and no
    link, the answer is 404 ("Child not found"). *)
Theorem add_transaction_gate_iff (tc : TransactionCreate) (u : User) (db : DB) :
  let own_permission :=
    (tc_type tc = "credit"%string -> In PERM_DEPOSIT (permissions u))
    /\ (tc_type tc = "debit"%string -> In PERM_DEBIT (permissions u)) in
  (fst (gate tc u db) = Ok tt
   <-> role u = "admin"%string
       \/ (own_permission
           /\ exists l,
                get_child_user_link db (user_id u) (tc_child_id tc) = Some l
                /\ (is_owner l = true \/ In (needed tc) (link_permissions l))))
  /\ (role u <> "admin"%string ->
      own_permission ->
      get_child_user_link db (user_id u) (tc_child_id tc) = None ->
      gate tc u db = (Raised (http 404 ChildNotFound), db)).
Proof.
  cbv zeta. unfold check_add_transaction, perm_needed. unfold_handler.
  destruct (role u =? "admin")%string eqn:Er.
  - apply String.eqb_eq in Er. simpl. split.
    + split; auto.
    + intros H. contradiction.
  - apply String.eqb_neq in Er. cbn [negb].
    destruct (tc_type tc =? "credit")%string eqn:Ec;
      [apply String.eqb_eq in Ec | apply String.eqb_neq in Ec];
      (destruct (tc_type tc =? "debit")%string eqn:Ed;
       [apply String.eqb_eq in Ed | apply String.eqb_neq in Ed]);
      try congruence;
      cbn [andb].
    + (* credit *)
      destruct (mem_string PERM_DEPOSIT (permissions u)) eqn:Eu; cbn [negb].
      * apply mem_string_In in Eu.
        destruct (get_child_user_link db (user_id u) (tc_child_id tc))
          as [l|]; cbn [fst].
        -- destruct (mem_string PERM_DEPOSIT (link_permissions l)) eqn:El;
             cbn [negb andb].
           ++ apply mem_string_In in El. split; [|discriminate]. split; auto.
              intros _. right. split; [split; [auto | congruence]|]. eauto.
           ++ split; [|discriminate].
              destruct (is_owner l) eqn:Eo; cbn [negb fst]; split; auto.
              ** intros _. right. split; [split; [auto | congruence]|]. eauto.
              ** discriminate.
              ** intros [H | [_ (l' & Hl & [H | H])]];
                   [contradiction | | ]; injection Hl as <-.
                 --- congruence.
                 --- apply mem_string_In in H. congruence.
        -- split; [|reflexivity]. split; [discriminate|].
           intros [H | [_ (l' & Hl & _)]]; [contradiction | discriminate].
      * split.
        -- split; [discriminate|].
           intros [H | [[H _] _]]; [contradiction|].
           apply mem_string_In in H; [congruence | exact Ec].
        -- intros _ [H _]. apply mem_string_In in H; [congruence | exact Ec].
    + (* debit *)
      destruct (mem_string PERM_DEBIT (permissions u)) eqn:Eu; cbn [negb].
      * apply mem_string_In in Eu.
        destruct (get_child_user_link db (user_id u) (tc_child_id tc))
          as [l|]; cbn [fst].
        -- destruct (mem_string PERM_DEBIT (link_permissions l)) eqn:El;
             cbn [negb andb].
           ++ apply mem_string_In in El. split; [|discriminate]. split; auto.
              intros _. right. split; [split; [congruence | auto]|]. eauto.
           ++ split; [|discriminate].
              destruct (is_owner l) eqn:Eo; cbn [negb fst]; split; auto.
              ** intros _. right. split; [split; [congruence | auto]|]. eauto.
              ** discriminate.
              ** intros [H | [_ (l' & Hl & [H | H])]];
                   [contradiction | | ]; injection Hl as <-.
                 --- congruence.
                 --- apply mem_string_In in H. congruence.
        -- split; [|reflexivity]. split; [discriminate|].
           intros [H | [_ (l' & Hl & _)]]; [contradiction | discriminate].
      * split.
        -- split; [discriminate|].
           intros [H | [[_ H] _]]; [contradiction|].
           apply mem_string_In in H; [congruence | exact Ed].
        -- intros _ [_ H]. apply mem_string_In in H; [congruence | exact Ed].
    + (* neither credit nor debit *)
      destruct (get_child_user_link db (user_id u) (tc_child_id tc))
        as [l|]; cbn [fst].
      * destruct (mem_string PERM_DEBIT (link_permissions l)) eqn:El;
          cbn [negb andb].
        -- apply mem_string_In in El. split; [|discriminate]. split; auto.
           intros _. right. split; [split; congruence|]. eauto.
        -- split; [|discriminate].
           destruct (is_owner l) eqn:Eo; cbn [negb fst]; split; auto.
           ++ intros _. right. split; [split; congruence|]. eauto.
           ++ discriminate.
           ++ intros [H | [_ (l' & Hl & [H | H])]];
                [contradiction | | ]; injection Hl as <-.
              ** congruence.
              ** apply mem_string_In in H. congruence.
      * split; [|reflexivity]. split; [discriminate|].
        intros [H | [_ (l' & Hl & _)]]; [contradiction | discriminate].
Qed.

Lemma gate_admin (tc : TransactionCreate) (u : User) (db : DB) :
  role u = "admin"%string -> fst (gate tc u db) = Ok tt.
Proof.
  intros H. apply (proj1 (add_transaction_gate_iff tc u db)). now left.
Qed.

(** The timestamp stage as a decision chain. *)
Lemma timestamp_stage_unfold
    (now : Z) (tc : TransactionCreate) (u : User) (db : DB) (ts : datetime) :
  tc_timestamp tc = Some ts ->
  timestamp_stage now tc u db =
  if negb ((role u =? "admin")%string || (role u =? "parent")%string)
  then Raised (http 403 CustomTimestampRole)
  else if now <? instant ts then Raised (http 400 TimestampInFuture)
  else match get_child db (tc_child_id tc) with
       | None => Raised (http 404 ChildNotFound)
       | Some child =>
           if instant ts <? instant (created_at child)
           then Raised (http 400 TimestampBeforeCreation)
           else Ok (Some (assume_utc ts))
       end.
Proof.
  intros Hts. unfold timestamp_stage, check_timestamp. rewrite Hts.
  unfold_handler. destruct (negb _); [reflexivity|].
  cbv zeta. unfold dt_gtb, dt_ltb. rewrite !instant_assume_utc.
  replace (instant (now_utc now)) with now by (unfold instant; simpl; lia).
  destruct (now <? instant ts); [reflexivity|].
  destruct (get_child db (tc_child_id tc)); [|reflexivity].
  rewrite !instant_assume_utc.
  destruct (instant ts <? instant (created_at _)); reflexivity.
Qed.

(** X9.  Order of the checks on a supplied timestamp.  For a caller
    past the permission gates: a role other than admin or parent is
    refused with 403 whatever the timestamp; otherwise a timestamp in the
    future is refused with 400 before the child is looked up, so also for
    a child that does not exist; a timestamp not in the future for a
    child that does not exist gives 404.  The store is unchanged in each
    case. *)
Theorem custom_timestamp_check_order
    (now : Z) (tc : TransactionCreate) (u : User) (db : DB) (ts : datetime) :
  fst (gate tc u db) = Ok tt ->
  tc_timestamp tc = Some ts ->
  (role u <> "admin"%string -> role u <> "parent"%string ->
   add now tc u db = (Raised (http 403 CustomTimestampRole), db))
  /\ (role u = "admin"%string \/ role u = "parent"%string ->
      (now < instant ts ->
       add now tc u db = (Raised (http 400 TimestampInFuture), db))
      /\ (instant ts <= now ->
          get_child db (tc_child_id tc) = None ->
          add now tc u db = (Raised (http 404 ChildNotFound), db))).
Proof.
  intros Hgate Hts.
  rewrite add_transaction_unfold, Hgate,
    (timestamp_stage_unfold now tc u db ts Hts).
  split.
  - intros Ha Hp. apply String.eqb_neq in Ha, Hp. now rewrite Ha, Hp.
  - intros Hrole.
    replace (negb ((role u =? "admin")%string || (role u =? "parent")%string))
      with false by (destruct Hrole as [-> | ->]; reflexivity).
    split.
    + intros Hf. apply Z.ltb_lt in Hf. now rewrite Hf.
    + intros Hp Hc. apply Z.ltb_ge in Hp. now rewrite Hp, Hc.
Qed.

(** X10.  No referential check on an explicit account.  For an
    administrator submitting no timestamp and a non-zero [account_id],
    [add_transaction] succeeds in every store: neither the child nor the
    account is looked up, and the row is posted to the account id as
    given. *)
Theorem admin_transaction_unchecked
    (now : Z) (tc : TransactionCreate) (u : User) (db : DB) (i : Z) :
  role u = "admin"%string ->
  tc_timestamp tc = None ->
  tc_account_id tc = Some i ->
  i <> 0 ->
  exists db',
    add now tc u db = (Ok (stored_transaction now db tc i None), db')
    /\ tx_account_id (stored_transaction now db tc i None) = i
    /\ tx_child_id (stored_transaction now db tc i None) = tc_child_id tc
    /\ tx_timestamp (stored_transaction now db tc i None) = now
    /\ In (stored_transaction now db tc i None) (transactions db').
Proof.
  intros Hrole Hts Hacc Hi.
  rewrite add_transaction_unfold, (gate_admin tc u db Hrole).
  unfold timestamp_stage, resolve_account_id. rewrite Hts, Hacc.
  replace (i =? 0) with false by (symmetry; now apply Z.eqb_neq).
  cbv zeta. eexists. split; [reflexivity|]. repeat split.
  apply stored_row_in_ledger.
Qed.

(** X11.  An [account_id] of zero counts as absent: the route tests
    [if not account_id], so a transaction naming account 0 is handled
    exactly as one naming no account, and lands in the child's checking
    account. *)
Theorem zero_account_id_is_absent
    (now : Z) (tc : TransactionCreate) (u : User) (db : DB) :
  add now (set_account_id tc (Some 0)) u db
  = add now (set_account_id tc None) u db.
Proof.
  rewrite !add_transaction_unfold.
  change (fst (gate (set_account_id tc (Some 0)) u db))
    with (fst (gate (set_account_id tc None) u db)).
  destruct (fst (gate (set_account_id tc None) u db)); [|reflexivity].
  change (timestamp_stage now (set_account_id tc (Some 0)) u db)
    with (timestamp_stage now (set_account_id tc None) u db).
  destruct (timestamp_stage now (set_account_id tc None) u db);
    [|reflexivity].
  unfold resolve_account_id. simpl.
  destruct (get_checking_account_by_child db (tc_child_id tc)); reflexivity.
Qed.

(** X12.  What a recorded transaction writes.  A successful
    [add_transaction] keeps every earlier ledger row in place, appends
    the new row under an id above all earlier ones, then only interest
    entries; the row carries the child, type, amount, memo and initiator
    as submitted; requests, children, links and rate history are left
    alone. *)
Theorem add_transaction_effect
    (now : Z) (tc : TransactionCreate) (u : User) (db db' : DB)
    (row : Transaction) :
  add now tc u db = (Ok row, db') ->
  exists news,
    transactions db' = transactions db ++ row :: news
    /\ Forall (fun t => is_interest t = true) news
    /\ (forall t, In t (transactions db) -> tx_id t < tx_id row)
    /\ (tx_child_id row = tc_child_id tc
        /\ tx_type row = tc_type tc
        /\ tx_amount row = tc_amount tc
        /\ tx_memo row = tc_memo tc
        /\ tx_initiated_by row = tc_initiated_by tc
        /\ tx_initiator_id row = tc_initiator_id tc)
    /\ withdrawal_requests db' = withdrawal_requests db
    /\ children db' = children db
    /\ links db' = links db
    /\ rate_history db' = rate_history db.
Proof.
  intros H. rewrite add_transaction_unfold in H.
  destruct (fst (gate tc u db)); [|discriminate H].
  destruct (timestamp_stage now tc u db) as [t|]; [|discriminate H].
  destruct (resolve_account_id db tc) as [aid|]; [|discriminate H].
  cbv zeta in H. inversion H; subst row db'; clear H.
  set (row := stored_transaction now db tc aid t).
  set (db1 := with_transactions db (transactions db ++ [row])).
  destruct (post_transaction_update_adds_interest now db1 (tc_child_id tc))
    as (news & Hn & Fn).
  destruct (post_transaction_update_frame now db1 (tc_child_id tc))
    as (Fc & Fl & Fr & Fh).
  exists news. repeat split; auto.
  - rewrite Hn. subst db1. simpl. now rewrite <- app_assoc.
  - intros x Hx. subst row. simpl. apply next_id_fresh. now apply in_map.
Qed.

End LedgerGates.

Lemma custom_timestamp_check_order_witness :
  let tc :=
    mk_TransactionCreate 42 "credit" 5 None "admin" 9
      (Some (mk_datetime (Family.now + 60) None)) (Some 99) in
  add_transaction Family.DEPOSIT Family.DEBIT Family.now tc Cases.admin
                  Family.empty_db
  = (Raised (http 400 TimestampInFuture), Family.empty_db).
Proof.
  cbv zeta.
  refine (proj1 (proj2 (custom_timestamp_check_order
            Family.DEPOSIT Family.DEBIT Family.now
            (mk_TransactionCreate 42 "credit" 5 None "admin" 9
               (Some (mk_datetime (Family.now + 60) None)) (Some 99))
            Cases.admin Family.empty_db (mk_datetime (Family.now + 60) None)
            eq_refl eq_refl) (or_introl eq_refl)) _).
  vm_compute. reflexivity.
Defined.

Lemma admin_transaction_unchecked_witness :
  get_child Family.empty_db 42 = None
  /\ get_account Family.empty_db 99 = None
  /\ exists db',
       add_transaction Family.DEPOSIT Family.DEBIT Family.now
                       Cases.stray_credit Cases.admin Family.empty_db
       = (Ok (stored_transaction Family.now Family.empty_db
                                 Cases.stray_credit 99 None), db').
Proof.
  split; [reflexivity|]. split; [reflexivity|].
  destruct (admin_transaction_unchecked
              Family.DEPOSIT Family.DEBIT Family.now Cases.stray_credit
              Cases.admin Family.empty_db 99 eq_refl eq_refl eq_refl)
    as (db' & H & _).
  - discriminate.
  - exists db'. exact H.
Defined.

Lemma add_transaction_effect_witness :
  exists row db' news,
    add_transaction Family.DEPOSIT Family.DEBIT Family.now
                    Family.unaddressed_credit Family.parent Cases.shared_db
    = (Ok row, db')
    /\ transactions db' = transactions Cases.shared_db ++ row :: news
    /\ tx_id row = 2.
Proof.
  destruct (add_transaction Family.DEPOSIT Family.DEBIT Family.now
              Family.unaddressed_credit Family.parent Cases.shared_db)
    as [[row|e] db'] eqn:E; [|vm_compute in E; discriminate E].
  destruct (add_transaction_effect _ _ _ _ _ _ _ _ E) as (news & Ht & _).
  exists row, db', news. split; [reflexivity|]. split; [exact Ht|].
  vm_compute in E. injection E as <- _. reflexivity.
Defined.

(* ================================================================== *)
(** ** The ledger view *)

Ltac unfold_route :=
  unfold and_then, ask, write, refuse_if, refuse, answer_with in *.

Lemma Qsum_perm (l l' : list Q) : Permutation l l' -> (Qsum l == Qsum l')%Q.
Proof.
  induction 1; simpl.
  - reflexivity.
  - now rewrite IHPermutation.
  - ring.
  - now rewrite IHPermutation1.
Qed.

Section LedgerView.

Variable PERM_VIEW_TRANSACTIONS : string.

Local Abbreviation ledger := (get_ledger PERM_VIEW_TRANSACTIONS).
Local Abbreviation viewer := (may_view PERM_VIEW_TRANSACTIONS).

Lemma check_view_read_only (cid : Z) (identity : Identity) (db : DB) :
  snd (check_view PERM_VIEW_TRANSACTIONS cid identity db) = db.
Proof.
  unfold check_view. destruct identity as [c|u]; unfold_route.
  - destruct (negb _); reflexivity.
  - destruct (negb (role u =? "admin")%string); [|reflexivity].
    destruct (negb (mem_string _ (permissions u))); [reflexivity|].
    destruct (get_child_user_link db (user_id u) cid); [|reflexivity].
    destruct (_ && _); reflexivity.
Qed.

Lemma check_view_iff (cid : Z) (identity : Identity) (db : DB) :
  fst (check_view PERM_VIEW_TRANSACTIONS cid identity db) = Returned tt
  <-> viewer cid identity db.
Proof.
  unfold check_view, may_view. destruct identity as [c|u]; unfold_route.
  - destruct (child_id c =? cid) eqn:E; simpl.
    + apply Z.eqb_eq in E. tauto.
    + apply Z.eqb_neq in E. split; [discriminate | contradiction].
  - destruct (role u =? "admin")%string eqn:Er; simpl.
    + apply String.eqb_eq in Er. tauto.
    + apply String.eqb_neq in Er.
      destruct (mem_string PERM_VIEW_TRANSACTIONS (permissions u)) eqn:Ep; simpl.
      * apply mem_string_In in Ep.
        destruct (get_child_user_link db (user_id u) cid) as [l|]; simpl.
        -- destruct (mem_string PERM_VIEW_TRANSACTIONS (link_permissions l))
             eqn:El; simpl.
           ++ apply mem_string_In in El. split; [|reflexivity].
              intros _. right. split; [exact Ep|]. exists l. auto.
           ++ assert (~ In PERM_VIEW_TRANSACTIONS (link_permissions l)) as Hn.
              { intros H. apply mem_string_In in H. congruence. }
              destruct (is_owner l) eqn:Eo; simpl.
              ** split; [|reflexivity]. intros _. right. split; [exact Ep|].
                 exists l. auto.
              ** split; [discriminate|].
                 intros [H | (_ & l' & Hl & [H | H])];
                   [contradiction | |]; injection Hl as <-;
                   [congruence | contradiction].
        -- split; [discriminate|].
           intros [H | (_ & l & Hl & _)]; [contradiction | discriminate].
      * split; [discriminate|].
        intros [H | (H & _)]; [contradiction|].
        apply mem_string_In in H. congruence.
Qed.

(** The decision chain of [get_ledger]. *)
Lemma get_ledger_unfold
    (cid : Z) (aid : option Z) (identity : Identity) (db : DB) :
  ledger cid aid identity db
  = match check_view PERM_VIEW_TRANSACTIONS cid identity db with
    | (Refused code d, db') => (Refused code d, db')
    | (Returned _, _) =>
        let whole :=
          (Returned (mk_LedgerResponse (calculate_total_balance db cid)
                                       (get_transactions_by_child db cid)),
           db) in
        match aid with
        | None => whole
        | Some i =>
            if i =? 0 then whole
            else
              match get_account db i with
              | None => (Refused 404 (Shared AccountNotFound), db)
              | Some a =>
                  if acc_child_id a =? cid
                  then (Returned (mk_LedgerResponse
                                    (calculate_balance db i)
                                    (get_transactions_by_account db i)), db)
                  else (Refused 404 (Shared AccountNotFound), db)
              end
        end
    end.
Proof.
  unfold get_ledger. unfold and_then at 1.
  pose proof (check_view_read_only cid identity db) as Hro.
  destruct (check_view PERM_VIEW_TRANSACTIONS cid identity db) as [[[]|code d] db0].
  - simpl in Hro. subst db0. cbv zeta.
    destruct aid as [i|]; [|reflexivity].
    destruct (i =? 0); [reflexivity|]. unfold_route.
    destruct (get_account db i) as [a|]; [|reflexivity].
    destruct (acc_child_id a =? cid); reflexivity.
  - reflexivity.
Qed.

(** X13.  The ledger is read-only and served to viewers only.
    [get_ledger] never changes the store; it answers with a ledger only
    for the child itself, an administrator, or a user who holds the view
    permission and whose link to the child is an owner link or carries
    it; such a caller asking without an account filter always gets the
    child's listing and total; a child token for another child is refused
    with 403 ("Not authorized") whatever the filter. *)
Theorem ledger_served_to_viewers_only
    (cid : Z) (identity : Identity) (db : DB) :
  (forall aid, snd (ledger cid aid identity db) = db)
  /\ (forall aid r,
        fst (ledger cid aid identity db) = Returned r ->
        viewer cid identity db)
  /\ (viewer cid identity db ->
      ledger cid None identity db
      = (Returned (mk_LedgerResponse (calculate_total_balance db cid)
                                     (get_transactions_by_child db cid)),
         db))
  /\ (forall c aid,
        identity = ChildToken c -> child_id c <> cid ->
        ledger cid aid identity db = (Refused 403 NotAuthorized, db)).
Proof.
  pose proof (check_view_read_only cid identity db) as Hro.
  pose proof (check_view_iff cid identity db) as Hiff.
  split; [|split; [|split]].
  - intros aid. rewrite get_ledger_unfold.
    destruct (check_view PERM_VIEW_TRANSACTIONS cid identity db)
      as [[[]|code d] db0]; [|exact Hro].
    cbv zeta. destruct aid as [i|]; [|reflexivity].
    destruct (i =? 0); [reflexivity|].
    destruct (get_account db i) as [a|]; [|reflexivity].
    destruct (acc_child_id a =? cid); reflexivity.
  - intros aid r H. rewrite get_ledger_unfold in H. apply Hiff.
    destruct (check_view PERM_VIEW_TRANSACTIONS cid identity db)
      as [[[]|code d] db0]; [reflexivity | discriminate H].
  - intros Hv. apply Hiff in Hv. rewrite get_ledger_unfold.
    destruct (check_view PERM_VIEW_TRANSACTIONS cid identity db)
      as [[[]|code d] db0]; [reflexivity | discriminate Hv].
  - intros c aid -> Hne. unfold get_ledger, check_view. unfold_route.
    apply Z.eqb_neq in Hne. now rewrite Hne.
Qed.

(** X14.  The account filter of the ledger.  When [get_ledger] answers
    for a non-zero [account_id], that account exists and belongs to the
    child of the path (an account of another child is refused, to
    administrators also); the rows returned are exactly the ledger
    entries of that account, in chronological order; and the balance
    reported is the replay of the rows returned. *)
Theorem ledger_account_filter
    (cid aid : Z) (identity : Identity) (db : DB) (r : LedgerResponse) :
  fst (ledger cid (Some aid) identity db) = Returned r ->
  aid <> 0 ->
  (exists a, get_account db aid = Some a /\ acc_child_id a = cid)
  /\ Permutation (lr_transactions r) (account_txs db aid)
  /\ StronglySorted chronological (lr_transactions r)
  /\ (lr_balance r == Qsum (map signed_amount (lr_transactions r)))%Q.
Proof.
  intros H Hne. rewrite get_ledger_unfold in H.
  destruct (check_view PERM_VIEW_TRANSACTIONS cid identity db)
    as [[[]|code d] db0]; [|discriminate H].
  cbv zeta in H. apply Z.eqb_neq in Hne. rewrite Hne in H.
  destruct (get_account db aid) as [a|]; [|discriminate H].
  destruct (acc_child_id a =? cid) eqn:E; [|discriminate H].
  apply Z.eqb_eq in E. simpl in H. injection H as <-. simpl.
  unfold get_transactions_by_account.
  split; [eauto|]. split; [|split].
  - apply sort_txs_perm.
  - apply sort_txs_sorted.
  - unfold calculate_balance.
    apply Qsum_perm, Permutation_map, Permutation_sym, sort_txs_perm.
Qed.

End LedgerView.

(* ================================================================== *)
(** ** Child settings: freezing, parent access, rate updates *)

Lemma get_child_id (db : DB) (cid : Z) (c : Child) :
  get_child db cid = Some c -> child_id c = cid.
Proof.
  unfold get_child. intros H. apply find_some in H. now apply Z.eqb_eq.
Qed.

Lemma linked_children_iff (db : DB) (uid cid : Z) :
  existsb (Z.eqb cid) (map child_id (get_children_by_user db uid)) = true
  <-> (exists c, get_child db cid = Some c)
      /\ (exists l, get_child_user_link db uid cid = Some l).
Proof.
  unfold get_children_by_user, get_child_user_link, get_child.
  rewrite existsb_exists. split.
  - intros (i & Hi & E). apply Z.eqb_eq in E. subst i.
    apply in_map_iff in Hi. destruct Hi as (c & Hc & Hin).
    apply filter_In in Hin. destruct Hin as [Hin Hl]. split.
    + apply find_is_some. exists c. split; [exact Hin | now apply Z.eqb_eq].
    + apply find_is_some. apply existsb_exists in Hl.
      destruct Hl as (l & Hl & Hp). exists l. split; [exact Hl|].
      now rewrite <- Hc.
  - intros [Hc Hl]. apply find_is_some in Hc, Hl.
    destruct Hc as (c & Hin & Hc), Hl as (l & Hl & Hp).
    apply Z.eqb_eq in Hc.
    exists (child_id c). split; [|apply Z.eqb_eq; congruence].
    apply in_map. apply filter_In. split; [exact Hin|].
    apply existsb_exists. exists l. split; [exact Hl|]. now rewrite Hc.
Qed.

Lemma ensure_link_read_only
    (uid cid : Z) (perm : option string) (ro : bool) (db : DB) :
  snd (_ensure_link uid cid perm ro db) = db.
Proof.
  unfold _ensure_link. unfold_route.
  destruct (get_child_user_link db uid cid) as [l|]; [|reflexivity].
  destruct (ro && _); [reflexivity|].
  destruct (_ && _); reflexivity.
Qed.

(** With a named permission and no owner requirement, [_ensure_link]
    passes exactly for an owner link or one that carries the permission,
    and hands back the link. *)
Lemma ensure_link_perm_iff (uid cid : Z) (P : string) (db : DB)
    (l : ChildUserLink) :
  P <> ""%string ->
  fst (_ensure_link uid cid (Some P) false db) = Returned l
  <-> get_child_user_link db uid cid = Some l
      /\ (is_owner l = true \/ In P (link_permissions l)).
Proof.
  intros HP. apply String.eqb_neq in HP.
  unfold _ensure_link, truthy, has_perm. unfold_route. rewrite HP.
  destruct (get_child_user_link db uid cid) as [l0|]; simpl.
  - destruct (mem_string P (link_permissions l0)) eqn:Em; simpl.
    + apply mem_string_In in Em. split.
      * intros H. injection H as <-. auto.
      * intros [H _]. now injection H as <-.
    + destruct (is_owner l0) eqn:Eo; simpl.
      * split.
        -- intros H. injection H as <-. auto.
        -- intros [H _]. now injection H as <-.
      * split; [discriminate|].
        intros [H [Ho | Hp]]; injection H as <-; [congruence|].
        apply mem_string_In in Hp. congruence.
  - split; [discriminate|]. intros [H _]. discriminate H.
Qed.

Section ChildSettings.

Variable PERM_FREEZE_CHILD : string.
Variable get_account_by_child : DB -> Z -> option Account.

Local Abbreviation freeze := (freeze_child PERM_FREEZE_CHILD get_account_by_child).
Local Abbreviation unfreeze := (unfreeze_child get_account_by_child).
Local Abbreviation set_frozen := (write_frozen get_account_by_child).

Lemma write_frozen_stored (cid : Z) (b : bool) (c : Child) (db : DB) :
  get_child db cid = Some c ->
  set_frozen cid b db
  = (Returned (child_read
                 (mk_Child (child_id c) (first_name c) b (created_at c))
                 (get_account_by_child (snd (set_child_frozen db cid b)) cid)),
     snd (set_child_frozen db cid b)).
Proof.
  intros Hc. unfold write_frozen, set_child_frozen. unfold_route.
  rewrite Hc. reflexivity.
Qed.

(** The decision chains of [freeze_child] and [unfreeze_child]. *)
Lemma freeze_child_unfold (cid : Z) (u : User) (db : DB) :
  freeze cid u db
  = match get_child db cid with
    | None => (Refused 404 (Shared ChildNotFound), db)
    | Some _ =>
        if (role u =? "admin")%string then set_frozen cid true db
        else
          match fst (_ensure_link (user_id u) cid
                                  (Some PERM_FREEZE_CHILD) false db) with
          | Returned _ => set_frozen cid true db
          | Refused code d => (Refused code d, db)
          end
    end.
Proof.
  unfold freeze_child. unfold and_then at 1. unfold ask at 1.
  destruct (get_child db cid); [|reflexivity].
  destruct (role u =? "admin")%string; simpl; [reflexivity|].
  unfold and_then.
  pose proof (ensure_link_read_only (user_id u) cid
                (Some PERM_FREEZE_CHILD) false db) as Hro.
  destruct (_ensure_link (user_id u) cid (Some PERM_FREEZE_CHILD) false db)
    as [[l|code d] db0]; simpl in Hro; subst db0; reflexivity.
Qed.

Lemma unfreeze_child_unfold (cid : Z) (u : User) (db : DB) :
  unfreeze cid u db
  = match get_child db cid with
    | None => (Refused 404 (Shared ChildNotFound), db)
    | Some _ =>
        if (role u =? "admin")%string
           || existsb (Z.eqb cid)
                      (map child_id (get_children_by_user db (user_id u)))
        then set_frozen cid false db
        else (Refused 404 (Shared ChildNotFound), db)
    end.
Proof.
  unfold unfreeze_child. unfold and_then at 1. unfold ask at 1.
  destruct (get_child db cid); [|reflexivity].
  destruct (role u =? "admin")%string; simpl; [reflexivity|].
  unfold and_then, ask, refuse_if.
  destruct (existsb _ _); reflexivity.
Qed.

Hypothesis PERM_FREEZE_CHILD_named : PERM_FREEZE_CHILD <> ""%string.

(** X15.  Who may freeze and who may unfreeze.  Freezing succeeds
    exactly for a stored child and an administrator or a user whose link
    to the child is an owner link or carries the freeze permission.
    Unfreezing succeeds exactly for a stored child and an administrator
    or any user linked to the child: the link's permissions are not
    consulted.  A refusal of either leaves the store as it was. *)
Theorem freeze_and_unfreeze_gates (cid : Z) (u : User) (db : DB) :
  ((exists r db', freeze cid u db = (Returned r, db'))
   <-> (exists c, get_child db cid = Some c)
       /\ (role u = "admin"%string
           \/ exists l,
                get_child_user_link db (user_id u) cid = Some l
                /\ (is_owner l = true
                    \/ In PERM_FREEZE_CHILD (link_permissions l))))
  /\ ((exists r db', unfreeze cid u db = (Returned r, db'))
      <-> (exists c, get_child db cid = Some c)
          /\ (role u = "admin"%string
              \/ exists l, get_child_user_link db (user_id u) cid = Some l))
  /\ (forall code d db',
        freeze cid u db = (Refused code d, db')
        \/ unfreeze cid u db = (Refused code d, db') ->
        db' = db).
Proof.
  rewrite freeze_child_unfold, unfreeze_child_unfold.
  destruct (get_child db cid) as [c|] eqn:Hc.
  - rewrite (write_frozen_stored cid true c db Hc),
            (write_frozen_stored cid false c db Hc).
    split; [|split].
    + destruct (role u =? "admin")%string eqn:Er.
      * apply String.eqb_eq in Er. split; eauto.
      * apply String.eqb_neq in Er.
        destruct (fst (_ensure_link (user_id u) cid
                                    (Some PERM_FREEZE_CHILD) false db))
          as [l|code d] eqn:E.
        -- apply (ensure_link_perm_iff _ _ _ _ _ PERM_FREEZE_CHILD_named) in E.
           split; [|eauto].
           intros _. split; [eauto|]. right. exists l. exact E.
        -- split; [intros (r0 & db0 & H); discriminate H|].
           intros [_ [H | (l & Hl)]]; [contradiction|].
           apply (ensure_link_perm_iff _ _ _ _ _ PERM_FREEZE_CHILD_named) in Hl.
           congruence.
    + destruct (role u =? "admin")%string eqn:Er; simpl.
      * apply String.eqb_eq in Er. split; eauto.
      * apply String.eqb_neq in Er.
        destruct (existsb _ _) eqn:E.
        -- apply linked_children_iff in E. destruct E as [_ Hl].
           split; eauto.
        -- split; [intros (r0 & db0 & H); discriminate H|].
           intros [Hs [H | Hl]]; [contradiction|].
           assert (existsb (Z.eqb cid)
                     (map child_id (get_children_by_user db (user_id u)))
                   = true) as H by (apply linked_children_iff; split; eauto).
           congruence.
    + intros code d db' [H | H].
      * destruct (role u =? "admin")%string; [discriminate H|].
        destruct (fst (_ensure_link _ _ _ _ _)); [discriminate H|].
        now inversion H.
      * destruct (_ || _); [discriminate H | now inversion H].
  - split; [|split].
    + split; [intros (r & db' & H); discriminate H|].
      intros [(c & H) _]. discriminate H.
    + split; [intros (r & db' & H); discriminate H|].
      intros [(c & H) _]. discriminate H.
    + intros code d db' [H | H]; now inversion H.
Qed.

End ChildSettings.

(* ------------------------------------------------------------------ *)
(** *** The accrual hook and the accounts of a child *)

Lemma find_filter_out {A} (p : A -> bool) (l : list A) :
  find p (filter (fun x => negb (p x)) l) = None.
Proof.
  induction l as [|h t IH]; simpl; [reflexivity|].
  destruct (p h) eqn:E; simpl; [exact IH | now rewrite E].
Qed.

Lemma find_filter_other {A} (p q : A -> bool) (l : list A) :
  (forall x, q x = true -> p x = false) ->
  find q (filter (fun x => negb (p x)) l) = find q l.
Proof.
  intros H. induction l as [|h t IH]; simpl; [reflexivity|].
  destruct (p h) eqn:E; simpl.
  - destruct (q h) eqn:E'; [|exact IH]. apply H in E'. congruence.
  - destruct (q h); [reflexivity | exact IH].
Qed.

Lemma find_same_keys {A K} (key : A -> K) (g : K -> bool) (l l' : list A) :
  map key l = map key l' ->
  option_map key (find (fun x => g (key x)) l)
  = option_map key (find (fun x => g (key x)) l').
Proof.
  revert l'. induction l as [|h t IH]; intros [|h' t'] H; simpl in *;
    try discriminate; [reflexivity|].
  injection H as Hh Ht. rewrite <- Hh.
  destruct (g (key h)); simpl; [now rewrite Hh | now apply IH].
Qed.

(* ---------------- accrual keeps the identity of accounts ------------- *)

Lemma update_account_keys (db : DB) (aid : Z) (f : Account -> Account) :
  (forall x, account_key (f x) = account_key x) ->
  map account_key (accounts (update_account db aid f))
  = map account_key (accounts db).
Proof.
  intros Hf. unfold update_account. simpl. rewrite map_map.
  apply map_ext. intros x. destruct (account_id x =? aid); [apply Hf | reflexivity].
Qed.

Lemma post_interest_keys (db : DB) (aid day : Z) :
  map account_key (accounts (post_interest db aid day))
  = map account_key (accounts db).
Proof.
  unfold post_interest. destruct (get_account db aid); [|reflexivity].
  cbv zeta. now rewrite update_account_keys.
Qed.

Lemma accrue_keys (n : nat) : forall db aid day,
  map account_key (accounts (accrue n db aid day))
  = map account_key (accounts db).
Proof.
  induction n as [|n IH]; intros db aid day; simpl; [reflexivity|].
  now rewrite IH, post_interest_keys.
Qed.

Lemma recalc_interest_keys (now : Z) (db : DB) (aid : Z) :
  map account_key (accounts (recalc_interest now db aid))
  = map account_key (accounts db).
Proof.
  unfold recalc_interest. destruct (get_account db aid); [|reflexivity].
  apply accrue_keys.
Qed.

Lemma post_transaction_update_keys (now : Z) (db : DB) (cid : Z) :
  map account_key (accounts (post_transaction_update now db cid))
  = map account_key (accounts db).
Proof.
  unfold post_transaction_update.
  generalize (filter (fun a => acc_child_id a =? cid) (accounts db)).
  intros l. revert db. induction l as [|a l IH]; intros db; simpl;
    [reflexivity|].
  now rewrite IH, recalc_interest_keys.
Qed.

(** The accrual hook neither adds nor removes an account of a child. *)
Lemma post_transaction_update_account (now : Z) (db : DB) (cid cid' : Z)
    (ty : string) :
  option_map account_key
    (get_account_by_child_and_type (post_transaction_update now db cid) cid' ty)
  = option_map account_key (get_account_by_child_and_type db cid' ty).
Proof.
  unfold get_account_by_child_and_type.
  apply (find_same_keys account_key
           (fun k => (snd (fst k) =? cid') && (snd k =? ty)%string)).
  apply post_transaction_update_keys.
Qed.

(* ---------------- accrual of one account leaves the others ----------- *)

Lemma post_interest_other (db : DB) (aid bid day : Z) :
  aid <> bid ->
  get_account (post_interest db bid day) aid = get_account db aid
  /\ account_txs (post_interest db bid day) aid = account_txs db aid.
Proof.
  intros Hne. unfold post_interest.
  destruct (get_account db bid) as [b|]; [|split; reflexivity].
  cbv zeta. split.
  - rewrite get_account_update by reflexivity.
    unfold create_transaction. simpl snd.
    change (get_account (with_transactions db ?l) aid) with (get_account db aid).
    destruct (get_account db aid) as [x|] eqn:Hx; [|reflexivity].
    simpl. rewrite (get_account_id _ _ _ Hx).
    replace (aid =? bid) with false by (symmetry; now apply Z.eqb_neq).
    reflexivity.
  - unfold create_transaction. simpl snd.
    change (account_txs (update_account ?d _ _) aid) with (account_txs d aid).
    rewrite account_txs_app. simpl.
    replace (bid =? aid) with false by (symmetry; apply Z.eqb_neq; lia).
    apply app_nil_r.
Qed.

Lemma accrue_other (n : nat) : forall db aid bid day,
  aid <> bid ->
  get_account (accrue n db bid day) aid = get_account db aid
  /\ account_txs (accrue n db bid day) aid = account_txs db aid.
Proof.
  induction n as [|n IH]; intros db aid bid day Hne; simpl.
  - split; reflexivity.
  - destruct (IH (post_interest db bid day) aid bid (day + 1) Hne) as [H1 H2].
    destruct (post_interest_other db aid bid day Hne) as [H3 H4].
    split; congruence.
Qed.

Lemma recalc_interest_other (now : Z) (db : DB) (aid bid : Z) :
  aid <> bid ->
  days_due now (recalc_interest now db bid) aid = days_due now db aid.
Proof.
  intros Hne.
  assert (H : get_account (recalc_interest now db bid) aid = get_account db aid
              /\ account_txs (recalc_interest now db bid) aid
                 = account_txs db aid).
  { unfold recalc_interest. destruct (get_account db bid); [|split; reflexivity].
    now apply accrue_other. }
  destruct H as [Ha Ht].
  destruct (recalc_interest_frame now db bid) as (Hc & _).
  unfold days_due. rewrite Ha.
  destruct (get_account db aid) as [x|] eqn:Hx; [|reflexivity].
  unfold start_day, first_entry_day.
  rewrite (get_account_id _ _ _ Hx), Ht. reflexivity.
Qed.

Lemma recalc_interest_keeps_settled (now : Z) (db : DB) (aid bid : Z) :
  days_due now db aid = O ->
  days_due now (recalc_interest now db bid) aid = O.
Proof.
  intros H. destruct (Z.eq_dec aid bid) as [->|Hne].
  - apply recalc_interest_catches_up.
  - now rewrite recalc_interest_other.
Qed.

(** After the hook, nothing is due on any account of the child. *)
Lemma post_transaction_update_settles (now : Z) (db : DB) (cid : Z)
    (a : Account) :
  In a (accounts db) -> acc_child_id a = cid ->
  days_due now (post_transaction_update now db cid) (account_id a) = O.
Proof.
  intros Hin Hc. unfold post_transaction_update.
  assert (Hl : In a (filter (fun a => acc_child_id a =? cid) (accounts db))).
  { apply filter_In. split; [exact Hin | now apply Z.eqb_eq]. }
  revert Hl. generalize (filter (fun a => acc_child_id a =? cid) (accounts db)).
  intros l Hl.
  assert (G : forall l d,
             In a l \/ days_due now d (account_id a) = O ->
             days_due now
               (fold_left (fun d a => recalc_interest now d (account_id a)) l d)
               (account_id a) = O).
  { clear. induction l as [|b l IH]; intros d H; simpl.
    - destruct H as [[]|H]; exact H.
    - apply IH. destruct H as [[-> | H] | H].
      + right. apply recalc_interest_catches_up.
      + now left.
      + right. now apply recalc_interest_keeps_settled. }
  apply G. now left.
Qed.

(* ------------------------------------------------------------------ *)
(** *** Parent access and rate updates *)

Section ParentAccess.

Variables PERM_MANAGE_CHILD_SETTINGS PERM_MANAGE_WITHDRAWALS : string.

Local Abbreviation remove := (remove_parent_access PERM_MANAGE_CHILD_SETTINGS).
Local Abbreviation approve := (approve_request PERM_MANAGE_WITHDRAWALS).
Local Abbreviation deny := (deny_request PERM_MANAGE_WITHDRAWALS).

(** The decision chain of [remove_parent_access]. *)
Lemma remove_parent_access_unfold (cid pid : Z) (u : User) (db : DB) :
  remove cid pid u db
  = match get_child db cid with
    | None => (Refused 404 (Shared ChildNotFound), db)
    | Some _ =>
        let unlink :=
          match get_child_user_link db pid cid with
          | None => (Refused 404 ParentNotFound, db)
          | Some l =>
              if is_owner l then (Refused 404 ParentNotFound, db)
              else (Returned tt, remove_child_link db cid pid)
          end in
        if (role u =? "admin")%string then unlink
        else
          match fst (_ensure_link (user_id u) cid
                                  (Some PERM_MANAGE_CHILD_SETTINGS) false db)
          with
          | Returned _ => unlink
          | Refused code d => (Refused code d, db)
          end
    end.
Proof.
  unfold remove_parent_access. unfold and_then at 1. unfold ask at 1.
  destruct (get_child db cid); [|reflexivity].
  assert (K : (link <- ask (fun db => get_child_user_link db pid cid) ;;
               refuse_if (match link with
                          | None => true
                          | Some link => is_owner link
                          end) 404 ParentNotFound ;;
               write (fun db => (tt, remove_child_link db cid pid)))%route db
              = match get_child_user_link db pid cid with
                | None => (Refused 404 ParentNotFound, db)
                | Some l =>
                    if is_owner l then (Refused 404 ParentNotFound, db)
                    else (Returned tt, remove_child_link db cid pid)
                end).
  { unfold_route. destruct (get_child_user_link db pid cid) as [l|];
      [destruct (is_owner l)|]; reflexivity. }
  cbv zeta. destruct (role u =? "admin")%string; simpl.
  - unfold and_then at 1. unfold answer_with at 1. exact K.
  - unfold and_then at 1. unfold and_then at 1.
    pose proof (ensure_link_read_only (user_id u) cid
                  (Some PERM_MANAGE_CHILD_SETTINGS) false db) as Hro.
    destruct (_ensure_link (user_id u) cid
                (Some PERM_MANAGE_CHILD_SETTINGS) false db)
      as [[l|code d] db0]; simpl in Hro; subst db0; [|reflexivity].
    unfold answer_with at 1. exact K.
Qed.

(** X16.  The owner link cannot be removed.  [remove_parent_access]
    leaves the store unchanged whenever it refuses; aimed at an owner
    link it always refuses, and for an administrator, or for the owner
    acting on their own link, on a stored child the answer is 404
    ("Parent not found"). *)
Theorem owner_link_is_never_removed (cid pid : Z) (u : User) (db : DB) :
  (forall code d db',
     remove cid pid u db = (Refused code d, db') -> db' = db)
  /\ (forall l,
        get_child_user_link db pid cid = Some l ->
        is_owner l = true ->
        (exists code d, remove cid pid u db = (Refused code d, db))
        /\ (role u = "admin"%string \/ user_id u = pid ->
            (exists c, get_child db cid = Some c) ->
            remove cid pid u db = (Refused 404 ParentNotFound, db))).
Proof.
  rewrite remove_parent_access_unfold. split.
  - intros code d db' H.
    destruct (get_child db cid); [|now inversion H]. cbv zeta in H.
    assert (K : forall x : answer unit * DB,
               x = match get_child_user_link db pid cid with
                   | None => (Refused 404 ParentNotFound, db)
                   | Some l =>
                       if is_owner l then (Refused 404 ParentNotFound, db)
                       else (Returned tt, remove_child_link db cid pid)
                   end ->
               x = (Refused code d, db') -> db' = db).
    { intros x -> Hx. destruct (get_child_user_link db pid cid) as [l|];
        [destruct (is_owner l)|]; now inversion Hx. }
    destruct (role u =? "admin")%string; [now apply (K _ eq_refl)|].
    destruct (fst (_ensure_link _ _ _ _ _)); [now apply (K _ eq_refl)|].
    now inversion H.
  - intros l Hl Ho. rewrite Hl, Ho. cbv zeta. split.
    + destruct (get_child db cid); [|eauto].
      destruct (role u =? "admin")%string; [eauto|].
      destruct (fst (_ensure_link _ _ _ _ _)); eauto.
    + intros Hu (c & Hc). rewrite Hc.
      destruct (role u =? "admin")%string eqn:Er; [reflexivity|].
      destruct Hu as [Hu | Hu]; [apply String.eqb_eq in Hu; congruence|].
      unfold _ensure_link. unfold_route. rewrite Hu, Hl, Ho. simpl.
      rewrite andb_false_r. reflexivity.
Qed.

(** X17.  Removing a parent's access takes effect at once.  After a
    successful [remove_parent_access] the parent has no link to the
    child, every other link is as before and no other table changed; from
    then on that user's approve and deny of any request of the child
    answer 404 ("Request not found"). *)
Theorem removed_parent_loses_access
    (cid pid : Z) (u : User) (db db' : DB) :
  remove cid pid u db = (Returned tt, db') ->
  get_child_user_link db' pid cid = None
  /\ (forall uid cid',
        uid <> pid \/ cid' <> cid ->
        get_child_user_link db' uid cid' = get_child_user_link db uid cid')
  /\ (children db' = children db
      /\ accounts db' = accounts db
      /\ transactions db' = transactions db
      /\ withdrawal_requests db' = withdrawal_requests db
      /\ rate_history db' = rate_history db)
  /\ (forall now rid why who req,
        user_id who = pid ->
        get_withdrawal_request db rid = Some req ->
        wr_child_id req = cid ->
        approve now rid who db' = (Raised (http 404 RequestNotFound), db')
        /\ deny now rid why who db'
           = (Raised (http 404 RequestNotFound), db')).
Proof.
  intros H. rewrite remove_parent_access_unfold in H.
  assert (Hdb : db' = remove_child_link db cid pid).
  { destruct (get_child db cid); [|discriminate H]. cbv zeta in H.
    assert (K : forall x : answer unit * DB,
               x = match get_child_user_link db pid cid with
                   | None => (Refused 404 ParentNotFound, db)
                   | Some l =>
                       if is_owner l then (Refused 404 ParentNotFound, db)
                       else (Returned tt, remove_child_link db cid pid)
                   end ->
               x = (Returned tt, db') -> db' = remove_child_link db cid pid).
    { intros x -> Hx. destruct (get_child_user_link db pid cid) as [l|];
        [destruct (is_owner l)|]; now inversion Hx. }
    destruct (role u =? "admin")%string; [now apply (K _ eq_refl)|].
    destruct (fst (_ensure_link _ _ _ _ _)); [now apply (K _ eq_refl)|].
    discriminate H. }
  clear H. subst db'.
  assert (Hgone : get_child_user_link (remove_child_link db cid pid) pid cid
                  = None).
  { unfold get_child_user_link, remove_child_link. simpl.
    apply (find_filter_out
             (fun l => (link_user_id l =? pid) && (link_child_id l =? cid))). }
  split; [exact Hgone|]. split; [|split; [repeat split|]].
  - intros uid cid' Hne. unfold get_child_user_link, remove_child_link. simpl.
    apply (find_filter_other
             (fun l => (link_user_id l =? pid) && (link_child_id l =? cid))).
    intros x Hx. apply andb_true_iff in Hx. destruct Hx as [H1 H2].
    apply Z.eqb_eq in H1, H2. apply andb_false_iff.
    destruct Hne as [Hne | Hne]; [left | right]; apply Z.eqb_neq; lia.
  - intros now rid why who req Hwho Hreq Hcid.
    assert (Hget : get_withdrawal_request (remove_child_link db cid pid) rid
                   = Some req) by exact Hreq.
    assert (Hgate : fst (_ensure_parent_owns_request
                           req (user_id who) (remove_child_link db cid pid))
                    = Raised (http 404 RequestNotFound)).
    { destruct (fst (_ensure_parent_owns_request req (user_id who)
                       (remove_child_link db cid pid))) as [[]|e] eqn:E.
      - apply ensure_parent_owns_iff in E. destruct E as [_ (l & Hl)].
        rewrite Hwho, Hcid in Hl. congruence.
      - unfold _ensure_parent_owns_request in E. unfold_handler.
        destruct (negb _); simpl in E; [congruence | discriminate E]. }
    rewrite approve_request_unfold, deny_request_unfold, Hget, Hgate.
    destruct (negb _); split; reflexivity.
Qed.

End ParentAccess.

Section RateUpdate.

Variable PERM_MANAGE_CHILD_SETTINGS : string.
Hypothesis PERM_MANAGE_CHILD_SETTINGS_named :
  PERM_MANAGE_CHILD_SETTINGS <> ""%string.

Local Abbreviation update := (update_interest_rate PERM_MANAGE_CHILD_SETTINGS).

(** The decision chain of [update_interest_rate]. *)
Lemma update_interest_rate_unfold
    (now cid : Z) (data : InterestRateUpdate) (u : User) (db : DB) :
  update now cid data u db
  = match get_child db cid with
    | None => (Refused 404 (Shared ChildNotFound), db)
    | Some child =>
        let db1 := post_transaction_update now db cid in
        let change :=
          match set_interest_rate now db1 cid (iru_interest_rate data)
                                  (iru_account_type data) with
          | None => (Refused 404 (Shared AccountNotFound), db1)
          | Some (_, db2) =>
              (Returned (child_read child
                           (get_checking_account_by_child db2 cid)), db2)
          end in
        if (role u =? "admin")%string then change
        else
          match fst (_ensure_link (user_id u) cid
                                  (Some PERM_MANAGE_CHILD_SETTINGS) false db)
          with
          | Returned _ => change
          | Refused code d => (Refused code d, db)
          end
    end.
Proof.
  unfold update_interest_rate. unfold and_then at 1. unfold ask at 1.
  destruct (get_child db cid) as [child|]; [|reflexivity].
  cbv zeta.
  set (rest := (write (fun db0 => (tt, post_transaction_update now db0 cid)) ;;
                _)%route).
  assert (K : rest db
              = match set_interest_rate now (post_transaction_update now db cid)
                        cid (iru_interest_rate data) (iru_account_type data)
                with
                | None => (Refused 404 (Shared AccountNotFound),
                           post_transaction_update now db cid)
                | Some (_, db2) =>
                    (Returned (child_read child
                                 (get_checking_account_by_child db2 cid)), db2)
                end).
  { subst rest. unfold_route.
    destruct (set_interest_rate _ _ _ _ _) as [[a db2]|]; reflexivity. }
  destruct (role u =? "admin")%string; simpl.
  - unfold and_then at 1. unfold answer_with at 1. exact K.
  - unfold and_then at 1. unfold and_then at 1.
    pose proof (ensure_link_read_only (user_id u) cid
                  (Some PERM_MANAGE_CHILD_SETTINGS) false db) as Hro.
    destruct (_ensure_link (user_id u) cid
                (Some PERM_MANAGE_CHILD_SETTINGS) false db)
      as [[l|code d] db0]; simpl in Hro; subst db0; [|reflexivity].
    unfold answer_with at 1. exact K.
Qed.

(** X18.  A rate update for an account type the child does not have
    fails after accrual has run.  [update_interest_rate] calls the accrual
    hook before [set_interest_rate]; when the latter raises, the answer
    is 404 ("Account not found") and the store is the one the hook left,
    with the interest it posted, not the store before the call. *)
Theorem rate_update_fails_after_accrual
    (now cid : Z) (data : InterestRateUpdate) (u : User) (db : DB) (c : Child) :
  get_child db cid = Some c ->
  role u = "admin"%string
  \/ (exists l,
        get_child_user_link db (user_id u) cid = Some l
        /\ (is_owner l = true
            \/ In PERM_MANAGE_CHILD_SETTINGS (link_permissions l))) ->
  get_account_by_child_and_type db cid (iru_account_type data) = None ->
  update now cid data u db
  = (Refused 404 (Shared AccountNotFound), post_transaction_update now db cid).
Proof.
  intros Hc Hu Hacc. rewrite update_interest_rate_unfold, Hc. cbv zeta.
  assert (Hnone : set_interest_rate now (post_transaction_update now db cid)
                    cid (iru_interest_rate data) (iru_account_type data)
                  = None).
  { unfold set_interest_rate.
    pose proof (post_transaction_update_account now db cid cid
                  (iru_account_type data)) as H.
    rewrite Hacc in H.
    destruct (get_account_by_child_and_type
                (post_transaction_update now db cid) cid
                (iru_account_type data)); [discriminate H | reflexivity]. }
  rewrite Hnone.
  destruct (role u =? "admin")%string eqn:Er; [reflexivity|].
  destruct Hu as [Hu | (l & Hl)];
    [apply String.eqb_eq in Hu; congruence|].
  apply (ensure_link_perm_iff _ _ _ _ _ PERM_MANAGE_CHILD_SETTINGS_named) in Hl.
  now rewrite Hl.
Qed.

(** X19.  A successful rate update settles the past first.  When
    [update_interest_rate] answers, the account of the submitted type
    exists, nothing is left to accrue on it up to yesterday (the hook ran
    before the rate changed), the ledger gained interest entries only,
    the children are as before, and the rate reported is that of the
    child's checking account, whatever the account type changed. *)
Theorem rate_update_settles_first
    (now cid : Z) (data : InterestRateUpdate) (u : User) (db db' : DB)
    (r : ChildRead) :
  update now cid data u db = (Returned r, db') ->
  exists a news,
    get_account_by_child_and_type db cid (iru_account_type data) = Some a
    /\ days_due now db' (account_id a) = O
    /\ transactions db' = transactions db ++ news
    /\ Forall (fun t => is_interest t = true) news
    /\ children db' = children db
    /\ cr_interest_rate r
       = option_map interest_rate (get_checking_account_by_child db' cid).
Proof.
  intros H. rewrite update_interest_rate_unfold in H.
  destruct (get_child db cid) as [c|]; [|discriminate H]. cbv zeta in H.
  set (db1 := post_transaction_update now db cid) in *.
  assert (K : match set_interest_rate now db1 cid (iru_interest_rate data)
                    (iru_account_type data) with
              | None => (Refused 404 (Shared AccountNotFound), db1)
              | Some (_, db2) =>
                  (Returned (child_read c
                               (get_checking_account_by_child db2 cid)), db2)
              end = (Returned r, db')).
  { destruct (role u =? "admin")%string; [exact H|].
    destruct (fst (_ensure_link _ _ _ _ _)); [exact H | discriminate H]. }
  clear H.
  destruct (set_interest_rate now db1 cid (iru_interest_rate data)
              (iru_account_type data)) as [[a2 db2]|] eqn:Hset;
    [|discriminate K].
  inversion K; subst r db'; clear K.
  pose proof (post_transaction_update_account now db cid cid
                (iru_account_type data)) as Hkey.
  fold db1 in Hkey.
  assert (Ha1 : exists a1,
             get_account_by_child_and_type db1 cid (iru_account_type data)
             = Some a1).
  { unfold set_interest_rate in Hset.
    destruct (get_account_by_child_and_type db1 cid (iru_account_type data));
      [eauto | discriminate Hset]. }
  destruct Ha1 as (a1 & Ha1). rewrite Ha1 in Hkey.
  destruct (get_account_by_child_and_type db cid (iru_account_type data))
    as [a|] eqn:Ha; [|discriminate Hkey].
  simpl in Hkey. injection Hkey as Hid _ _.
  destruct (post_transaction_update_adds_interest now db cid)
    as (news & Hnews & Hint).
  destruct (set_interest_rate_frame _ _ _ _ _ _ _ Hset) as (Ht & Hch & _).
  destruct (post_transaction_update_frame now db cid) as (Hch1 & _).
  exists a, news. split; [reflexivity|]. split; [|split; [|split; [|split]]].
  - rewrite (set_interest_rate_days_due _ now _ _ _ _ _ _ (account_id a) Hset).
    unfold get_account_by_child_and_type in Ha. apply find_some in Ha.
    destruct Ha as [Hin Hp]. apply andb_true_iff in Hp. destruct Hp as [Hp _].
    apply Z.eqb_eq in Hp.
    now apply post_transaction_update_settles.
  - rewrite Ht. exact Hnews.
  - exact Hint.
  - rewrite Hch. exact Hch1.
  - reflexivity.
Qed.

End RateUpdate.

Section ProfileAndLedger.

Variable PERM_VIEW_TRANSACTIONS : string.
Variable get_account_by_child : DB -> Z -> option Account.

(** X20.  The profile route does not consult the link's permissions.
    For a user who is not an administrator, holds the view permission,
    and is linked to the child by a link that is not an owner link and
    does not carry it: [get_ledger] refuses with 403 ("Insufficient
    permissions"), with or without an account filter, while
    [get_child_route] answers with the child's profile. *)
Theorem profile_needs_no_link_permission
    (cid : Z) (u : User) (db : DB) (c : Child) (l : ChildUserLink)
    (aid : option Z) :
  role u <> "admin"%string ->
  In PERM_VIEW_TRANSACTIONS (permissions u) ->
  get_child db cid = Some c ->
  get_child_user_link db (user_id u) cid = Some l ->
  is_owner l = false ->
  ~ In PERM_VIEW_TRANSACTIONS (link_permissions l) ->
  get_ledger PERM_VIEW_TRANSACTIONS cid aid (UserToken u) db
  = (Refused 403 (Shared InsufficientPermissions), db)
  /\ get_child_route PERM_VIEW_TRANSACTIONS get_account_by_child
                     cid (UserToken u) db
     = (Returned (child_read c (get_account_by_child db cid)), db).
Proof.
  intros Hr Hp Hc Hl Ho Hn.
  apply String.eqb_neq in Hr. apply mem_string_In in Hp.
  assert (Hm : mem_string PERM_VIEW_TRANSACTIONS (link_permissions l) = false).
  { destruct (mem_string PERM_VIEW_TRANSACTIONS (link_permissions l)) eqn:E;
      [|reflexivity].
    apply mem_string_In in E. contradiction. }
  split.
  - unfold get_ledger, check_view. unfold_route.
    rewrite Hr. simpl. rewrite Hp. simpl. rewrite Hl. simpl.
    rewrite Hm, Ho. simpl. destruct aid as [i|]; reflexivity.
  - assert (E : existsb (Z.eqb cid)
                  (map child_id (get_children_by_user db (user_id u))) = true)
      by (apply linked_children_iff; split; eauto).
    unfold get_child_route. unfold_route. rewrite Hr. simpl.
    rewrite Hp. simpl. rewrite E. simpl. rewrite Hc. reflexivity.
Qed.

End ProfileAndLedger.

(* ------------------------------------------------------------------ *)
(** *** The accounts view *)

Section AccountsView.

Variable PERM_VIEW_TRANSACTIONS : string.

Local Abbreviation accounts_of := (get_child_accounts PERM_VIEW_TRANSACTIONS).

(** The decision chain of [get_child_accounts]. *)
Lemma get_child_accounts_unfold
    (now cid : Z) (identity : Identity) (db : DB) :
  accounts_of now cid identity db
  = match check_view PERM_VIEW_TRANSACTIONS cid identity db with
    | (Refused code d, db') => (Refused code d, db')
    | (Returned _, _) =>
        match get_account_by_child_and_type db cid "checking",
              get_account_by_child_and_type db cid "savings",
              get_account_by_child_and_type db cid "college_savings" with
        | Some c, Some s, Some g =>
            (Returned
               (mk_ChildAccountsResponse
                  (mk_AccountRead (account_id c) (account_type c)
                     (calculate_balance db (account_id c)) None
                     (interest_rate c) None)
                  (mk_AccountRead (account_id s) (account_type s)
                     (calculate_balance db (account_id s))
                     (Some (calculate_available_balance now db (account_id s)))
                     (interest_rate s) (lockup_period_days s))
                  (mk_AccountRead (account_id g) (account_type g)
                     (calculate_balance db (account_id g)) None
                     (interest_rate g) None)
                  (calculate_total_balance db cid)), db)
        | _, _, _ => (Refused 404 AccountsNotFound, db)
        end
    end.
Proof.
  unfold get_child_accounts. unfold and_then at 1.
  pose proof (check_view_read_only PERM_VIEW_TRANSACTIONS cid identity db)
    as Hro.
  destruct (check_view PERM_VIEW_TRANSACTIONS cid identity db)
    as [[[]|code d] db0]; [|reflexivity].
  simpl in Hro. subst db0. unfold_route.
  destruct (get_account_by_child_and_type db cid "checking");
    destruct (get_account_by_child_and_type db cid "savings");
    destruct (get_account_by_child_and_type db cid "college_savings");
    reflexivity.
Qed.

(** X21.  What the accounts view shows is what may be requested.  When
    [get_child_accounts] answers (read-only, and only to a viewer), the
    savings entry carries an available balance, and at the same clock
    reading a savings request by the child is filed exactly when its
    amount is at most that available balance, a checking request exactly
    when its amount is at most the checking balance shown. *)
Theorem shown_balances_are_the_withdrawal_limits
    (now cid : Z) (identity : Identity) (db db' : DB)
    (resp : ChildAccountsResponse)
    (child : Child) (data : WithdrawalRequestCreate) :
  accounts_of now cid identity db = (Returned resp, db') ->
  child_id child = cid ->
  let filed :=
    exists row db1, request_withdrawal now data child db = (Ok row, db1) in
  db' = db
  /\ may_view PERM_VIEW_TRANSACTIONS cid identity db
  /\ exists available,
       ar_available_balance (car_savings resp) = Some available
       /\ (effective_account_type data = "savings"%string ->
           (filed <-> (wrc_amount data <= available)%Q))
       /\ (effective_account_type data = "checking"%string ->
           (filed <-> (wrc_amount data <= ar_balance (car_checking resp))%Q)).
Proof.
  intros H Hc filed. subst filed. rewrite get_child_accounts_unfold in H.
  pose proof (check_view_iff PERM_VIEW_TRANSACTIONS cid identity db) as Hv.
  destruct (check_view PERM_VIEW_TRANSACTIONS cid identity db)
    as [[[]|code d] db0]; [|discriminate H].
  destruct (get_account_by_child_and_type db cid "checking") as [c|] eqn:Ec;
    [|discriminate H].
  destruct (get_account_by_child_and_type db cid "savings") as [s|] eqn:Es;
    [|destruct (get_account_by_child_and_type db cid "college_savings");
      discriminate H].
  destruct (get_account_by_child_and_type db cid "college_savings") as [g|];
    [|discriminate H].
  inversion H; subst resp db'; clear H. simpl.
  split; [reflexivity|]. split; [now apply Hv|].
  eexists. split; [reflexivity|].
  rewrite request_withdrawal_unfold. cbv zeta. rewrite Hc. split.
  - intros ->. simpl String.eqb. cbv iota. rewrite Es.
    destruct (Qgtb (wrc_amount data)
                (calculate_available_balance now db (account_id s))) eqn:E.
    + apply Qgtb_true in E. split.
      * intros (row & db1 & H). discriminate H.
      * intros H. exfalso. apply (Qlt_not_le _ _ E H).
    + apply Qgtb_false in E. split; [intros _; exact E|].
      intros _. destruct (create_withdrawal_request _ _) as [row db1]. eauto.
  - intros ->. simpl String.eqb. cbv iota. rewrite Ec.
    destruct (Qgtb (wrc_amount data) (calculate_balance db (account_id c)))
      eqn:E.
    + apply Qgtb_true in E. split.
      * intros (row & db1 & H). discriminate H.
      * intros H. exfalso. apply (Qlt_not_le _ _ E H).
    + apply Qgtb_false in E. split; [intros _; exact E|].
      intros _. destruct (create_withdrawal_request _ _) as [row db1]. eauto.
Qed.

End AccountsView.

(* ------------------------------------------------------------------ *)
(** *** Concrete runs of the views and settings routes *)

Lemma ledger_account_filter_witness :
  exists r,
    fst (get_ledger Cases.VIEW 1 (Some 1) (ChildToken Family.kid)
                    Cases.shared_db) = Returned r
    /\ lr_transactions r = [Family.deposit 1 1 10 Family.now]
    /\ (lr_balance r == Qsum (map signed_amount (lr_transactions r)))%Q.
Proof.
  destruct (get_ledger Cases.VIEW 1 (Some 1) (ChildToken Family.kid)
                       Cases.shared_db) as [[r|code d] db'] eqn:E;
    [|vm_compute in E; discriminate E].
  assert (H : fst (get_ledger Cases.VIEW 1 (Some 1) (ChildToken Family.kid)
                              Cases.shared_db) = Returned r)
    by now rewrite E.
  destruct (ledger_account_filter Cases.VIEW 1 1 (ChildToken Family.kid)
              Cases.shared_db r H) as (_ & _ & _ & Hb); [discriminate|].
  exists r. split; [reflexivity|]. split; [|exact Hb].
  vm_compute in E. injection E as <- _. reflexivity.
Defined.

Lemma freeze_and_unfreeze_gates_witness :
  (exists r db',
     unfreeze_child Cases.first_account 1 Cases.guest Cases.shared_db
     = (Returned r, db'))
  /\ ~ (exists r db',
          freeze_child Cases.FREEZE Cases.first_account 1 Cases.guest
                       Cases.shared_db
          = (Returned r, db')).
Proof.
  assert (Hnamed : Cases.FREEZE <> ""%string) by discriminate.
  destruct (freeze_and_unfreeze_gates Cases.FREEZE Cases.first_account Hnamed
              1 Cases.guest Cases.shared_db) as (Hf & Hu & _).
  split.
  - apply Hu. split; [eexists; reflexivity|]. right. eexists. reflexivity.
  - intros H. apply Hf in H.
    destruct H as [_ [H | (l & Hl & H)]]; [discriminate H|].
    vm_compute in Hl. injection Hl as <-.
    destruct H as [H | H]; [discriminate H | exact H].
Defined.

Lemma removed_parent_loses_access_witness :
  exists db',
    remove_parent_access Cases.SETTINGS 1 8 Family.parent Cases.shared_db
    = (Returned tt, db')
    /\ get_child_user_link db' 8 1 = None
    /\ approve_request Family.MANAGE Family.now 1 Cases.guest db'
       = (Raised (http 404 RequestNotFound), db').
Proof.
  destruct (remove_parent_access Cases.SETTINGS 1 8 Family.parent
              Cases.shared_db) as [[[]|code d] db'] eqn:E;
    [|vm_compute in E; discriminate E].
  destruct (removed_parent_loses_access Cases.SETTINGS Family.MANAGE
              1 8 Family.parent Cases.shared_db db' E) as (H1 & _ & _ & H2).
  exists db'. split; [reflexivity|]. split; [exact H1|].
  exact (proj1 (H2 Family.now 1 (mk_DenyRequest "no") Cases.guest
                   (Family.pending_request "checking" 5)
                   eq_refl eq_refl eq_refl)).
Defined.

Lemma rate_update_fails_after_accrual_witness :
  exists db1,
    update_interest_rate Cases.SETTINGS Family.now 1 Cases.cd_rate
                         Family.parent Family.five_day_db
    = (Refused 404 (Shared AccountNotFound), db1)
    /\ List.length (transactions Family.five_day_db) = 1%nat
    /\ List.length (transactions db1) = 6%nat.
Proof.
  assert (Hnamed : Cases.SETTINGS <> ""%string) by discriminate.
  exists (post_transaction_update Family.now Family.five_day_db 1).
  split; [|split; [reflexivity | vm_compute; reflexivity]].
  apply (rate_update_fails_after_accrual Cases.SETTINGS Hnamed Family.now 1
           Cases.cd_rate Family.parent Family.five_day_db Family.kid).
  - reflexivity.
  - right. exists Family.owner_link. split; [reflexivity | now left].
  - reflexivity.
Defined.

Lemma rate_update_settles_first_witness :
  exists r db',
    update_interest_rate Cases.SETTINGS Family.now 1 Cases.savings_rate
                         Family.parent Family.five_day_db
    = (Returned r, db')
    /\ days_due Family.now db' 2 = O
    /\ List.length (transactions db') = 6%nat
    /\ cr_interest_rate r = Some (interest_rate Family.checking).
Proof.
  destruct (update_interest_rate Cases.SETTINGS Family.now 1
              Cases.savings_rate Family.parent Family.five_day_db)
    as [[r|code d] db'] eqn:E; [|vm_compute in E; discriminate E].
  destruct (rate_update_settles_first Cases.SETTINGS Family.now 1
              Cases.savings_rate Family.parent Family.five_day_db db' r E)
    as (a & news & Ha & Hdue & _).
  vm_compute in Ha. injection Ha as <-.
  exists r, db'. split; [reflexivity|]. split; [exact Hdue|].
  vm_compute in E. injection E as <- <-. split; reflexivity.
Defined.

Lemma profile_needs_no_link_permission_witness :
  get_ledger Cases.VIEW 1 None (UserToken Cases.onlooker) Cases.shared_db
  = (Refused 403 (Shared InsufficientPermissions), Cases.shared_db)
  /\ get_child_route Cases.VIEW Cases.first_account 1
                     (UserToken Cases.onlooker) Cases.shared_db
     = (Returned (child_read Family.kid (Some Family.checking)),
        Cases.shared_db).
Proof.
  apply (profile_needs_no_link_permission Cases.VIEW Cases.first_account
           1 Cases.onlooker Cases.shared_db Family.kid Cases.guest_link None).
  - discriminate.
  - now left.
  - reflexivity.
  - reflexivity.
  - reflexivity.
  - intros [].
Defined.

Lemma shown_balances_are_the_withdrawal_limits_witness :
  exists resp,
    get_child_accounts Cases.VIEW Family.now 1 (ChildToken Family.kid)
                       Cases.shared_db
    = (Returned resp, Cases.shared_db)
    /\ (ar_balance (car_checking resp) == 10)%Q
    /\ exists row db1,
         request_withdrawal Family.now
           (parse_WithdrawalRequestCreate 10 None None) Family.kid
           Cases.shared_db
         = (Ok row, db1).
Proof.
  destruct (get_child_accounts Cases.VIEW Family.now 1 (ChildToken Family.kid)
              Cases.shared_db) as [[resp|code d] db'] eqn:E;
    [|vm_compute in E; discriminate E].
  destruct (shown_balances_are_the_withdrawal_limits Cases.VIEW Family.now 1
              (ChildToken Family.kid) Cases.shared_db db' resp Family.kid
              (parse_WithdrawalRequestCreate 10 None None) E eq_refl)
    as (Hdb & _ & available & _ & _ & Hchk).
  subst db'. exists resp. split; [reflexivity|].
  assert (Hbal : (ar_balance (car_checking resp) == 10)%Q).
  { vm_compute in E. injection E as <-. reflexivity. }
  split; [exact Hbal|].
  apply (Hchk eq_refl). simpl wrc_amount. rewrite Hbal. apply Qle_refl.
Defined.

Lemma add_transaction_timestamp_validation_witness :
  let tc :=
    mk_TransactionCreate 1 "credit" 5 None "parent" 7
      (Some (mk_datetime (Family.now - 3600) None)) (Some 1) in
  exists row db',
    add_transaction Family.DEPOSIT Family.DEBIT Family.now tc Family.parent
                    Cases.shared_db
    = (Ok row, db')
    /\ tx_timestamp row = Family.now - 3600
    /\ tx_account_id row = 1.
Proof.
  cbv zeta.
  destruct (add_transaction_timestamp_validation
              Family.DEPOSIT Family.DEBIT Family.now
              (mk_TransactionCreate 1 "credit" 5 None "parent" 7
                 (Some (mk_datetime (Family.now - 3600) None)) (Some 1))
              Family.parent Cases.shared_db
              (mk_datetime (Family.now - 3600) None) Family.kid
              eq_refl (or_intror eq_refl) eq_refl eq_refl) as [_ H].
  destruct (H ltac:(vm_compute; split; discriminate) 1 eq_refl)
    as (row & db' & H1 & H2 & H3 & _).
  exists row, db'. auto.
Defined.

(* ================================================================== *)
(** ** The data migration *)

Lemma count_of_app (p : AccountRow -> bool) (cid : Z) (l l' : list AccountRow) :
  count_of p cid (l ++ l') = (count_of p cid l + count_of p cid l')%nat.
Proof. unfold count_of. now rewrite filter_app, length_app. Qed.

Lemma savings_count_zero (rows : list AccountRow) :
  (savings_count rows =? 0)%nat = negb (existsb (type_is "savings") rows).
Proof.
  unfold savings_count. induction rows as [|h t IH]; simpl; [reflexivity|].
  destruct (type_is "savings" h); simpl; [reflexivity | exact IH].
Qed.

Lemma type_is_marked (ty : string) (cid : Z) (a : AccountRow) :
  ty <> ""%string ->
  type_is ty (if (row_child_id a =? cid) && untyped a
              then set_row_type a (Some "checking"%string) else a)
  = type_is ty a
    || ((row_child_id a =? cid) && untyped a && ("checking" =? ty)%string).
Proof.
  intros Hty. unfold type_is, untyped.
  destruct (row_child_id a =? cid); simpl; [|now rewrite orb_false_r].
  destruct (row_account_type a) as [t|] eqn:Ea; simpl; [|reflexivity].
  destruct (t =? "")%string eqn:E; simpl;
    [|now rewrite Ea, orb_false_r].
  apply String.eqb_eq in E. subst t.
  replace ("" =? ty)%string with false; [reflexivity|].
  symmetry. apply String.eqb_neq. congruence.
Qed.

Lemma mem_existing_types (ty : string) (cid : Z) (rows : list AccountRow) :
  ty <> ""%string ->
  mem_string ty (existing_types cid rows)
  = existsb (fun a => (row_child_id a =? cid) && type_is ty a) rows.
Proof.
  intros Hty. unfold mem_string, existing_types, type_is.
  induction rows as [|h t IH]; simpl; [reflexivity|].
  rewrite existsb_app, IH. f_equal.
  destruct (row_child_id h =? cid); simpl; [|reflexivity].
  destruct (row_account_type h) as [s|]; simpl; [|reflexivity].
  destruct (s =? "")%string eqn:E; simpl.
  - apply String.eqb_eq in E. subst s. symmetry. apply String.eqb_neq.
    congruence.
  - rewrite orb_false_r. apply String.eqb_sym.
Qed.

Lemma existsb_count (p : AccountRow -> bool) (cid : Z) (rows : list AccountRow) :
  existsb (fun a => (row_child_id a =? cid) && p a) rows
  = negb (count_of p cid rows =? 0)%nat.
Proof.
  unfold count_of. induction rows as [|h t IH]; simpl; [reflexivity|].
  destruct ((row_child_id h =? cid) && p h); simpl; [reflexivity | exact IH].
Qed.

(** Relabelling untyped rows does not change how many rows have a type
    other than checking. *)
Lemma mark_checking_count (ty : string) (cid c : Z) (rows : list AccountRow) :
  ty <> ""%string -> ty <> "checking"%string ->
  count_of (type_is ty) c (mark_checking cid rows) = count_of (type_is ty) c rows.
Proof.
  intros H1 H2. unfold count_of, mark_checking.
  induction rows as [|h t IH]; simpl; [reflexivity|].
  rewrite (type_is_marked ty cid h H1).
  replace ("checking" =? ty)%string with false
    by (symmetry; apply String.eqb_neq; congruence).
  rewrite andb_false_r, orb_false_r.
  replace (row_child_id (if (row_child_id h =? cid) && untyped h
                         then set_row_type h (Some "checking"%string) else h))
    with (row_child_id h) by (destruct (_ && _); reflexivity).
  destruct ((row_child_id h =? c) && type_is ty h); simpl; now rewrite IH.
Qed.

Lemma count_of_insert (p : AccountRow -> bool) (c : Z) (rows : list AccountRow)
    (a : AccountRow) (b : bool) :
  (forall i, p (mk_AccountRow i (row_child_id a) (row_account_type a)
                  (row_interest_rate a) (row_lockup_period_days a)
                  (row_balance a) (row_penalty_interest_rate a)
                  (row_cd_penalty_rate a) (row_last_interest_applied a)
                  (row_total_interest_earned a)
                  (row_service_fee_last_charged a)
                  (row_overdraft_fee_last_charged a)
                  (row_overdraft_fee_charged a)) = b) ->
  count_of p c (insert_account rows a)
  = (count_of p c rows
     + (if (row_child_id a =? c)%Z && b then 1 else 0))%nat.
Proof.
  intros Hp. unfold insert_account. rewrite count_of_app. f_equal.
  unfold count_of. simpl. rewrite Hp.
  destruct ((row_child_id a =? c) && b); reflexivity.
Qed.

(** The loop body in terms of the rows the child had before it. *)
Lemma provision_child_unfold (sr cr : Q) (ld : Z) (rows : list AccountRow)
    (cid : Z) :
  provision_child sr cr ld rows cid
  = let rows1 := mark_checking cid rows in
    let rows2 :=
      if (count_of (type_is "savings") cid rows =? 0)%nat
      then insert_account rows1 (new_savings cid sr ld) else rows1 in
    if (count_of (type_is "college_savings") cid rows =? 0)%nat
    then insert_account rows2 (new_college_savings cid cr) else rows2.
Proof.
  unfold provision_child. cbv zeta.
  rewrite !mem_existing_types by discriminate.
  rewrite !existsb_count.
  rewrite !(mark_checking_count _ cid cid) by discriminate.
  rewrite !negb_involutive. reflexivity.
Qed.

Lemma count_of_new_savings (p : AccountRow -> bool) (c cid : Z) (sr : Q)
    (ld : Z) (rows : list AccountRow) (b : bool) :
  (forall i, p (mk_AccountRow i cid (Some "savings"%string) sr (Some ld) 0
                  (2 # 100) (1 # 10) None 0 None None false) = b) ->
  count_of p c (insert_account rows (new_savings cid sr ld))
  = (count_of p c rows + (if (cid =? c)%Z && b then 1 else 0))%nat.
Proof.
  intros H. exact (count_of_insert p c rows (new_savings cid sr ld) b H).
Qed.

Lemma count_of_new_college (p : AccountRow -> bool) (c cid : Z) (cr : Q)
    (rows : list AccountRow) (b : bool) :
  (forall i, p (mk_AccountRow i cid (Some "college_savings"%string) cr None 0
                  (2 # 100) (1 # 10) None 0 None None false) = b) ->
  count_of p c (insert_account rows (new_college_savings cid cr))
  = (count_of p c rows + (if (cid =? c)%Z && b then 1 else 0))%nat.
Proof.
  intros H. exact (count_of_insert p c rows (new_college_savings cid cr) b H).
Qed.

(** One pass of the loop body, counted per child: a savings account is
    added to the child of the pass when it has none. *)
Lemma provision_child_savings (sr cr : Q) (ld : Z) (rows : list AccountRow)
    (cid c : Z) :
  count_of (type_is "savings") c (provision_child sr cr ld rows cid)
  = if (cid =? c) && (count_of (type_is "savings") cid rows =? 0)%nat
    then S (count_of (type_is "savings") c rows)
    else count_of (type_is "savings") c rows.
Proof.
  rewrite provision_child_unfold. cbv zeta.
  assert (Hm := mark_checking_count "savings" cid c rows
                  ltac:(discriminate) ltac:(discriminate)).
  destruct (count_of (type_is "college_savings") cid rows =? 0)%nat;
    destruct (count_of (type_is "savings") cid rows =? 0)%nat;
    rewrite ?(count_of_new_college (type_is "savings") c cid cr _ false)
      by reflexivity;
    rewrite ?(count_of_new_savings (type_is "savings") c cid sr ld _ true)
      by reflexivity;
    rewrite Hm; destruct (cid =? c); simpl; lia.
Qed.

Lemma provision_child_college (sr cr : Q) (ld : Z) (rows : list AccountRow)
    (cid c : Z) :
  count_of (type_is "college_savings") c (provision_child sr cr ld rows cid)
  = if (cid =? c) && (count_of (type_is "college_savings") cid rows =? 0)%nat
    then S (count_of (type_is "college_savings") c rows)
    else count_of (type_is "college_savings") c rows.
Proof.
  rewrite provision_child_unfold. cbv zeta.
  assert (Hm := mark_checking_count "college_savings" cid c rows
                  ltac:(discriminate) ltac:(discriminate)).
  destruct (count_of (type_is "college_savings") cid rows =? 0)%nat;
    destruct (count_of (type_is "savings") cid rows =? 0)%nat;
    rewrite ?(count_of_new_college (type_is "college_savings") c cid cr _ true)
      by reflexivity;
    rewrite ?(count_of_new_savings (type_is "college_savings") c cid sr ld _
                false) by reflexivity;
    rewrite Hm; destruct (cid =? c); simpl; lia.
Qed.

(** The count of a child's rows of one kind over the whole loop, for a
    kind the loop body adds a row of exactly when the child has none. *)
Lemma provision_loop_count
    (f : list AccountRow -> Z -> list AccountRow)
    (cnt : Z -> list AccountRow -> nat) :
  (forall rows d c,
     cnt c (f rows d)
     = if (d =? c) && (cnt d rows =? 0)%nat
       then S (cnt c rows) else cnt c rows) ->
  forall cs rows c,
    cnt c (fold_left f cs rows)
    = if existsb (Z.eqb c) cs && (cnt c rows =? 0)%nat
      then 1%nat else cnt c rows.
Proof.
  intros Hstep. induction cs as [|d cs IH]; intros rows c; simpl;
    [reflexivity|].
  rewrite IH, Hstep. rewrite (Z.eqb_sym c d).
  destruct (d =? c) eqn:E; simpl.
  - apply Z.eqb_eq in E. subst d.
    destruct (cnt c rows =? 0)%nat eqn:E0; simpl.
    + apply Nat.eqb_eq in E0. rewrite E0. now rewrite andb_false_r.
    + now rewrite E0, andb_false_r.
  - reflexivity.
Qed.

Lemma untyped_not_checking (a : AccountRow) :
  untyped a = true -> type_is "checking" a = false.
Proof.
  unfold untyped, type_is. destruct (row_account_type a) as [t|];
    [|reflexivity].
  intros H. apply String.eqb_eq in H. now subst t.
Qed.

Lemma marked_row (cid : Z) (h : AccountRow) :
  let m := if (row_child_id h =? cid) && untyped h
           then set_row_type h (Some "checking"%string) else h in
  row_child_id m = row_child_id h
  /\ type_is "checking" m
     = type_is "checking" h || ((row_child_id h =? cid) && untyped h)
  /\ untyped m = untyped h && negb (row_child_id h =? cid).
Proof.
  cbv zeta. destruct (row_child_id h =? cid); simpl.
  - destruct (untyped h) eqn:Eu; simpl.
    + split; [reflexivity|]. split; [now rewrite orb_true_r | reflexivity].
    + rewrite Eu. split; [reflexivity|]. split; [now rewrite orb_false_r|].
      reflexivity.
  - split; [reflexivity|]. split; [now rewrite orb_false_r|].
    now rewrite andb_true_r.
Qed.

Lemma mark_checking_checking (cid c : Z) (rows : list AccountRow) :
  count_of (type_is "checking") c (mark_checking cid rows)
  = (count_of (type_is "checking") c rows
     + (if (cid =? c)%Z then count_of untyped c rows else 0))%nat
  /\ count_of untyped c (mark_checking cid rows)
     = if (cid =? c)%Z then O else count_of untyped c rows.
Proof.
  unfold count_of, mark_checking.
  destruct (cid =? c) eqn:Ec;
    (induction rows as [|h t [IH1 IH2]]; simpl; [split; reflexivity|]);
    destruct (marked_row cid h) as (M1 & M2 & M3); cbv zeta in M1, M2, M3;
    rewrite M1, M2, M3;
    pose proof (untyped_not_checking h) as Hn;
    destruct (row_child_id h =? c) eqn:E1, (row_child_id h =? cid) eqn:E2,
             (untyped h), (type_is "checking" h);
    try (specialize (Hn eq_refl); discriminate Hn);
    try (exfalso;
         rewrite ?Z.eqb_eq, ?Z.eqb_neq in Ec, E1, E2; lia);
    simpl; rewrite ?IH1, ?IH2; split; lia.
Qed.

(** The loop body relabels the untyped rows of its child as checking and
    adds no checking account. *)
Lemma provision_child_checking (sr cr : Q) (ld : Z) (rows : list AccountRow)
    (cid c : Z) :
  count_of (type_is "checking") c (provision_child sr cr ld rows cid)
  = (count_of (type_is "checking") c rows
     + (if (cid =? c)%Z then count_of untyped c rows else 0))%nat
  /\ count_of untyped c (provision_child sr cr ld rows cid)
     = if (cid =? c)%Z then O else count_of untyped c rows.
Proof.
  rewrite provision_child_unfold. cbv zeta.
  destruct (mark_checking_checking cid c rows) as [H1 H2].
  destruct (count_of (type_is "college_savings") cid rows =? 0)%nat;
    destruct (count_of (type_is "savings") cid rows =? 0)%nat;
    rewrite ?(count_of_new_college (type_is "checking") c cid cr _ false)
      by reflexivity;
    rewrite ?(count_of_new_college untyped c cid cr _ false) by reflexivity;
    rewrite ?(count_of_new_savings (type_is "checking") c cid sr ld _ false)
      by reflexivity;
    rewrite ?(count_of_new_savings untyped c cid sr ld _ false)
      by reflexivity;
    rewrite H1, H2, ?andb_false_r; split; lia.
Qed.

Lemma provision_loop_checking (sr cr : Q) (ld : Z) :
  forall cs rows c,
    count_of (type_is "checking") c
             (fold_left (provision_child sr cr ld) cs rows)
    = (count_of (type_is "checking") c rows
       + (if existsb (Z.eqb c) cs then count_of untyped c rows else 0))%nat
    /\ count_of untyped c (fold_left (provision_child sr cr ld) cs rows)
       = if existsb (Z.eqb c) cs then O else count_of untyped c rows.
Proof.
  induction cs as [|d cs IH]; intros rows c; simpl.
  - split; [lia | reflexivity].
  - destruct (IH (provision_child sr cr ld rows d) c) as [H1 H2].
    destruct (provision_child_checking sr cr ld rows d c) as [H3 H4].
    rewrite H1, H2, H3, H4, (Z.eqb_sym c d).
    destruct (d =? c); simpl; destruct (existsb (Z.eqb c) cs); split; lia.
Qed.

Lemma count_of_le (p : AccountRow -> bool) (c : Z) (rows : list AccountRow) :
  (count_of p c rows <= List.length (filter p rows))%nat.
Proof.
  unfold count_of. induction rows as [|h t IH]; simpl; [lia|].
  destruct (row_child_id h =? c); simpl; destruct (p h); simpl; lia.
Qed.

Lemma existsb_In_Z (c : Z) (cs : list Z) :
  In c cs -> existsb (Z.eqb c) cs = true.
Proof.
  intros H. apply existsb_exists. exists c. split; [exact H | apply Z.eqb_refl].
Qed.

(** The migrated tables when the guard lets the migration run. *)
Lemma migrate_accounts_runs (t : Tables) :
  savings_count (account_rows t) = O ->
  exists sr cr ld,
    migrate_accounts t
    = mk_Tables (child_ids t)
        (fold_left (provision_child sr cr ld) (child_ids t) (account_rows t))
        (backfill
           (fold_left (provision_child sr cr ld) (child_ids t) (account_rows t))
           (transaction_rows t))
        (settings_row t).
Proof.
  intros H. unfold migrate_accounts. rewrite H. simpl.
  destruct (settings_row t); do 3 eexists; reflexivity.
Qed.

(** X22.  What the migration leaves each child with.  When it runs (no
    savings account exists yet), every child of the child table ends with
    exactly one savings account and at least one college-savings account;
    its rows without a type have become checking accounts, none is left
    untyped, and no checking account is created: a child that had no
    account has none of type checking afterwards. *)
Theorem migration_provisions_each_child (t : Tables) (c : Z) :
  savings_count (account_rows t) = O ->
  In c (child_ids t) ->
  let before := account_rows t in
  let after := account_rows (migrate_accounts t) in
  count_of (type_is "savings") c after = 1%nat
  /\ (1 <= count_of (type_is "college_savings") c after)%nat
  /\ count_of (type_is "checking") c after
     = (count_of (type_is "checking") c before + count_of untyped c before)%nat
  /\ count_of untyped c after = O.
Proof.
  intros H0 Hc. cbv zeta.
  destruct (migrate_accounts_runs t H0) as (sr & cr & ld & ->). simpl.
  apply existsb_In_Z in Hc.
  pose proof (count_of_le (type_is "savings") c (account_rows t)) as Hle.
  fold (savings_count (account_rows t)) in Hle. rewrite H0 in Hle.
  rewrite (provision_loop_count _ (count_of (type_is "savings"))
             (fun rows d c => provision_child_savings sr cr ld rows d c)).
  rewrite (provision_loop_count _ (count_of (type_is "college_savings"))
             (fun rows d c => provision_child_college sr cr ld rows d c)).
  destruct (provision_loop_checking sr cr ld (child_ids t) (account_rows t) c)
    as [H1 H2].
  rewrite H1, H2, Hc. simpl.
  replace (count_of (type_is "savings") c (account_rows t)) with O by lia.
  simpl. split; [reflexivity|]. split; [|split; reflexivity].
  destruct (count_of (type_is "college_savings") c (account_rows t)) eqn:E;
    simpl; lia.
Qed.

Lemma backfill_idempotent (rows : list AccountRow) (txs : list TransactionRow) :
  backfill rows (backfill rows txs) = backfill rows txs.
Proof.
  unfold backfill. rewrite map_map. apply map_ext. intros t.
  destruct (trow_account_id t) eqn:E; [now rewrite E|]. simpl.
  destruct (find _ rows); reflexivity.
Qed.

(** X23.  The data migration is idempotent.  Running the block a
    second time changes nothing; and whenever some account already has
    type savings, for whatever child, the block changes nothing at all:
    no row is relabelled, no account created, no transaction
    backfilled. *)
Theorem migration_is_idempotent (t : Tables) :
  migrate_accounts (migrate_accounts t) = migrate_accounts t
  /\ (savings_count (account_rows t) <> O -> migrate_accounts t = t).
Proof.
  assert (Hskip : forall t', savings_count (account_rows t') <> O ->
                             migrate_accounts t' = t').
  { intros t' H. unfold migrate_accounts.
    apply Nat.eqb_neq in H. now rewrite H. }
  split; [|apply Hskip].
  destruct (savings_count (account_rows t)) eqn:H0;
    [|rewrite (Hskip t) by lia; apply Hskip; lia].
  destruct (migrate_accounts_runs t H0) as (sr & cr & ld & E).
  destruct (child_ids t) as [|c cs] eqn:Hcs.
  - rewrite E. simpl. unfold migrate_accounts. simpl.
    rewrite H0. simpl. rewrite backfill_idempotent.
    destruct (settings_row t); reflexivity.
  - apply Hskip. rewrite E. cbn [account_rows].
    pose proof (provision_loop_count _ (count_of (type_is "savings"))
                  (fun rows d c => provision_child_savings sr cr ld rows d c)
                  (c :: cs) (account_rows t) c) as Hc.
    pose proof (count_of_le (type_is "savings") c
                  (fold_left (provision_child sr cr ld) (c :: cs)
                             (account_rows t))) as Hle.
    fold (savings_count (fold_left (provision_child sr cr ld) (c :: cs)
                                   (account_rows t))) in Hle.
    set (rows' := fold_left (provision_child sr cr ld) (c :: cs)
                            (account_rows t)) in *.
    cbn [existsb] in Hc. rewrite Z.eqb_refl in Hc. cbn [orb andb] in Hc.
    destruct (count_of (type_is "savings") c (account_rows t) =? 0)%nat eqn:E0.
    + lia.
    + apply Nat.eqb_neq in E0. lia.
Qed.

Lemma find_none_count (p : AccountRow -> bool) (c : Z) (rows : list AccountRow) :
  find (fun a => (row_child_id a =? c) && p a) rows = None ->
  count_of p c rows = O.
Proof.
  unfold count_of. induction rows as [|h r IH]; simpl; [reflexivity|].
  destruct ((row_child_id h =? c) && p h); [discriminate | exact IH].
Qed.

(** X24.  The backfill of [account_id].  When the migration runs, the
    transaction rows keep their order, ids and children; a row that named
    an account keeps it; a row that named none now names an account of
    its own child whose type is checking, or still names none when that
    child has no checking account. *)
Theorem backfill_targets_checking (t : Tables) :
  savings_count (account_rows t) = O ->
  let after := migrate_accounts t in
  Forall2
    (fun old new =>
       trow_id new = trow_id old
       /\ trow_child_id new = trow_child_id old
       /\ match trow_account_id old, trow_account_id new with
          | Some i, new_id => new_id = Some i
          | None, Some i =>
              exists a,
                In a (account_rows after)
                /\ row_id a = i
                /\ row_child_id a = trow_child_id old
                /\ row_account_type a = Some "checking"%string
          | None, None =>
              count_of (type_is "checking") (trow_child_id old)
                       (account_rows after) = O
          end)
    (transaction_rows t) (transaction_rows after).
Proof.
  intros H0. cbv zeta.
  destruct (migrate_accounts_runs t H0) as (sr & cr & ld & ->). simpl.
  set (rows := fold_left (provision_child sr cr ld) (child_ids t)
                         (account_rows t)).
  unfold backfill.
  induction (transaction_rows t) as [|x l IH]; simpl; constructor;
    [|exact IH].
  destruct (trow_account_id x) as [i|] eqn:Ex.
  - rewrite Ex. auto.
  - simpl. split; [reflexivity|]. split; [reflexivity|].
    destruct (find (fun a => (row_child_id a =? trow_child_id x)
                             && type_is "checking" a) rows) as [a|] eqn:Ef;
      simpl.
    + apply find_some in Ef. destruct Ef as [Hin Hp].
      apply andb_true_iff in Hp. destruct Hp as [Hc Hty].
      apply Z.eqb_eq in Hc. exists a. repeat split; auto.
      unfold type_is in Hty. destruct (row_account_type a) as [s|];
        [|discriminate Hty].
      apply String.eqb_eq in Hty. now subst s.
    + now apply find_none_count.
Qed.

Lemma migration_provisions_each_child_witness :
  count_of (type_is "savings") 2
           (account_rows (migrate_accounts Legacy.tables)) = 1%nat
  /\ count_of (type_is "checking") 2
              (account_rows (migrate_accounts Legacy.tables)) = O
  /\ List.length (account_rows (migrate_accounts Legacy.tables)) = 5%nat.
Proof.
  destruct (migration_provisions_each_child Legacy.tables 2 eq_refl
              (or_intror (or_introl eq_refl))) as (H1 & _ & H3 & _).
  split; [exact H1|]. split; [exact H3 | reflexivity].
Defined.

Lemma backfill_targets_checking_witness :
  map trow_account_id (transaction_rows (migrate_accounts Legacy.tables))
  = [Some 1; None]
  /\ map trow_child_id (transaction_rows (migrate_accounts Legacy.tables))
     = map trow_child_id (transaction_rows Legacy.tables).
Proof.
  pose proof (backfill_targets_checking Legacy.tables eq_refl) as H.
  cbv zeta in H. split; [reflexivity|].
  induction H as [|old new l l' (_ & Hc & _) _ IH]; simpl;
    [reflexivity | now rewrite Hc, IH].
Defined.
